(** * The ShotGrid event leecher ([services/leecher/leecher/listener.py])

    A shallow embedding of [ShotgridListener]: the poll loop of
    [start_listening], the cursor recovery of [_get_last_event_processed],
    the filter builder, the per-event classification and the translation
    done by [send_shotgrid_event_to_ayon].

    Python values are a small universe [pyval]; dictionaries are finite maps
    with string keys.  The two client libraries ([shotgun_api3], [ayon_api])
    are an interface ([Collaborators]) over an arbitrary world type; every
    call to it is appended to a trace so that statements can speak about
    what was queried and what was dispatched.  Exceptions are explicit: a
    computation returns an [outcome] together with the state reached. *)

From stdpp Require Import gmap strings list fin_maps sorting pretty.
From Stdlib Require Import ZArith Lia Ascii.

Local Open Scope string_scope.
Local Open Scope list_scope.
Local Open Scope Z_scope.

(** ** Python values *)

(** [datetime.datetime]: the fields [isoformat] prints.  [dt_utcoffset] is
    the offset of an aware datetime in whole seconds, [None] when naive. *)
Record datetime := {
  dt_year : Z;
  dt_month : Z;
  dt_day : Z;
  dt_hour : Z;
  dt_minute : Z;
  dt_second : Z;
  dt_microsecond : Z;
  dt_utcoffset : option Z
}.

#[warnings="-register-all"]
Inductive pyval : Type :=
| VNone
| VBool (b : bool)
| VInt (z : Z)
| VStr (s : string)
| VDatetime (d : datetime)
| VList (l : list pyval)
| VDict (d : gmap string pyval).

(** Python's truth value testing, as used by [if x:] and [not x]. *)
Definition truthy (v : pyval) : bool :=
  match v with
  | VNone => false
  | VBool b => b
  | VInt z => negb (z =? 0)
  | VStr s => negb (String.eqb s "")
  | VDatetime _ => true
  | VList l => match l with [] => false | _ :: _ => true end
  | VDict d => negb (bool_decide (size d = 0%nat))
  end.

(** [v == s] for a string literal [s]. *)
Definition py_eq_str (v : pyval) (s : string) : bool :=
  match v with
  | VStr s' => String.eqb s' s
  | _ => false
  end.

(** [v in l] for a list of strings [l]. *)
Definition py_in_strs (v : pyval) (l : list string) : bool :=
  existsb (py_eq_str v) l.

(** ** Exceptions and outcomes *)

Inductive exn : Type :=
| KeyError (key : string)
| AttributeError (attr : string)
| TypeError (msg : string)
| ValueError (msg : string)
| OverflowError (msg : string)
| Fault (msg : string)        (* any other subclass of Exception *)
| SystemExit (code : Z)       (* raised by the signal teardown handler *)
| KeyboardInterrupt.

(** What [except Exception] catches: everything but the two classes that
    derive from [BaseException] only. *)
Definition is_Exception (e : exn) : bool :=
  match e with
  | SystemExit _ | KeyboardInterrupt => false
  | _ => true
  end.

Inductive outcome (A : Type) : Type :=
| Ok (a : A)
| Raise (e : exn).
Arguments Ok {A} a.
Arguments Raise {A} e.

Definition is_Ok {A} (r : outcome A) : bool :=
  match r with Ok _ => true | Raise _ => false end.

(** ** Strings *)

Definition ends_with (s suffix : string) : bool :=
  let n := String.length s in
  let m := String.length suffix in
  if (m <=? n)%nat then String.eqb (String.substring (n - m) m s) suffix else false.

(** [s.replace(old, new)] for a non-empty [old]: every non-overlapping
    occurrence, scanning from the left.  [skip] counts the characters of a
    matched occurrence still to be dropped. *)
Fixpoint replace_go (old new : string) (skip : nat) (s : string) : string :=
  match s with
  | EmptyString => EmptyString
  | String c rest =>
      match skip with
      | S k => replace_go old new k rest
      | O =>
          if String.prefix old s
          then new +:+ replace_go old new (String.length old - 1) rest
          else String c (replace_go old new 0 rest)
      end
  end.

Definition str_replace (old new s : string) : string := replace_go old new 0 s.

(** A reader of decimal literals written in ASCII: blanks around an
    optional sign and digits.  It is what the simulated deployment below
    uses for [int(s)]; the listener itself takes [int(s)] from [Builtins]. *)
Definition is_space (c : ascii) : bool :=
  let n := nat_of_ascii c in
  ((n =? 32) || ((9 <=? n) && (n <=? 13)) || ((28 <=? n) && (n <=? 31)))%nat.

Fixpoint lstrip (s : string) : string :=
  match s with
  | String c rest => if is_space c then lstrip rest else s
  | EmptyString => EmptyString
  end.

Definition strip (s : string) : string :=
  String.rev (lstrip (String.rev (lstrip s))).

Definition digit_of (c : ascii) : option Z :=
  let n := nat_of_ascii c in
  if ((48 <=? n) && (n <=? 57))%nat then Some (Z.of_nat n - 48) else None.

(** Digits of a decimal literal; a single underscore may separate two
    digits.  [prev] tells whether the previous character was a digit. *)
Fixpoint parse_digits (acc : Z) (prev : bool) (s : string) : option Z :=
  match s with
  | EmptyString => if prev then Some acc else None
  | String c rest =>
      match digit_of c with
      | Some d => parse_digits (10 * acc + d) true rest
      | None =>
          if (Ascii.eqb c "_"%char && prev)%bool
          then match rest with
               | String c' _ =>
                   match digit_of c' with
                   | Some _ => parse_digits acc false rest
                   | None => None
                   end
               | EmptyString => None
               end
          else None
      end
  end.

Definition parse_int (s : string) : option Z :=
  match strip s with
  | String "-"%char rest => Z.opp <$> parse_digits 0 false rest
  | String "+"%char rest => parse_digits 0 false rest
  | body => parse_digits 0 false body
  end.

(** ** Operations on values that may raise *)

(** [v[k]] with a string key. *)
Definition py_getitem (v : pyval) (k : string) : outcome pyval :=
  match v with
  | VDict d =>
      match d !! k with
      | Some x => Ok x
      | None => Raise (KeyError k)
      end
  | VStr _ | VList _ => Raise (TypeError "indices must be integers")
  | _ => Raise (TypeError "object is not subscriptable")
  end.

(** [v.get(k, default)]. *)
Definition py_get (v : pyval) (k : string) (dflt : pyval) : outcome pyval :=
  match v with
  | VDict d => Ok (default dflt (d !! k))
  | _ => Raise (AttributeError "get")
  end.

(** [v.endswith(suffix)]. *)
Definition py_endswith (v : pyval) (suffix : string) : outcome bool :=
  match v with
  | VStr s => Ok (ends_with s suffix)
  | _ => Raise (AttributeError "endswith")
  end.

(** [v.replace(old, new)] with two strings.  A datetime has a [replace]
    method too, which takes numbers; the other values have none. *)
Definition py_replace (v : pyval) (old new : string) : outcome string :=
  match v with
  | VStr s => Ok (str_replace old new s)
  | VDatetime _ => Raise (TypeError "'str' object cannot be interpreted as an integer")
  | _ => Raise (AttributeError "replace")
  end.

(** [datetime.isoformat()]. *)
Definition pad (width : nat) (z : Z) : string :=
  let s := pretty z in
  String.concat "" (replicate (width - String.length s) "0") +:+ s.

Definition isoformat (d : datetime) : string :=
  pad 4 (dt_year d) +:+ "-" +:+ pad 2 (dt_month d) +:+ "-" +:+ pad 2 (dt_day d)
  +:+ "T" +:+ pad 2 (dt_hour d) +:+ ":" +:+ pad 2 (dt_minute d)
  +:+ ":" +:+ pad 2 (dt_second d)
  +:+ (if dt_microsecond d =? 0 then "" else "." +:+ pad 6 (dt_microsecond d))
  +:+ match dt_utcoffset d with
      | None => ""
      | Some off =>
          let a := Z.abs off in
          (if off <? 0 then "-" else "+")
          +:+ pad 2 (a / 3600) +:+ ":" +:+ pad 2 (a mod 3600 / 60)
          +:+ (if a mod 60 =? 0 then "" else ":" +:+ pad 2 (a mod 60))
      end.

(** [v.isoformat()]. *)
Definition py_isoformat (v : pyval) : outcome string :=
  match v with
  | VDatetime d => Ok (isoformat d)
  | _ => Raise (AttributeError "isoformat")
  end.

(** [v[k] = x] with a string key. *)
Definition py_setitem (v : pyval) (k : string) (x : pyval) : outcome pyval :=
  match v with
  | VDict d => Ok (VDict (<[k := x]> d))
  | VList _ => Raise (TypeError "list indices must be integers")
  | _ => Raise (TypeError "object does not support item assignment")
  end.

(** ** Computations: state passing with exceptions

    A raising computation still returns the state it reached: what was
    assigned or sent before the exception stays assigned or sent. *)

Definition M (S A : Type) : Type := S -> outcome A * S.

Definition ret {S A} (a : A) : M S A := fun s => (Ok a, s).

Definition bind {S A B} (c : M S A) (k : A -> M S B) : M S B :=
  fun s =>
    match c s with
    | (Ok a, s') => k a s'
    | (Raise e, s') => (Raise e, s')
    end.

Definition lift_outcome {S A} (r : outcome A) : M S A := fun s => (r, s).

(** Run a computation on the second component of a pair; the first one holds
    the local variables (or the object) of the caller. *)
Definition lift {X S A} (c : M S A) : M (X * S) A :=
  fun xs => let '(r, s') := c xs.2 in (r, (xs.1, s')).

Definition get_local {X S} : M (X * S) X := fun xs => (Ok xs.1, xs).

Definition set_local {X S} (x : X) : M (X * S) unit := fun xs => (Ok tt, (x, xs.2)).

(** [try: body except Exception: handler]. *)
Definition try_except {S A} (body : M S A) (handler : exn -> M S A) : M S A :=
  fun s =>
    match body s with
    | (Raise e, s') => if is_Exception e then handler e s' else (Raise e, s')
    | (Ok a, s') => (Ok a, s')
    end.

Declare Scope py_scope.
Delimit Scope py_scope with py.
Notation "'do' x <- c ; k" := (bind c (fun x => k))
  (at level 10, x name, c at level 100, k at level 200) : py_scope.
Notation "'run' c ; k" := (bind c (fun _ => k))
  (at level 10, c at level 100, k at level 200) : py_scope.
Local Open Scope py_scope.

(** ** The collaborators *)

(** One entry of a ShotGrid filter list, [[field, relation, value]]. *)
Inductive sg_filter : Type :=
| Filter (field relation : string) (value : pyval).

(** The arguments of [sg_session.find] and [find_one]. *)
Record sg_query := {
  q_entity : string;
  q_filters : list sg_filter;
  q_fields : option (list string);
  q_order : list (string * string);
  q_limit : Z
}.

(** The arguments of [ayon_api.dispatch_event]. *)
Record dispatch_args := {
  d_topic : string;
  d_sender : string;
  d_event_hash : pyval;
  d_project_name : pyval;
  d_username : pyval;
  d_description : string;
  d_summary : pyval;
  d_payload : pyval
}.

(** What the service writes to its log. *)
Inductive log_record : Type :=
| LogStart
| LogWaiting (site : Z) (seconds : Z)
| LogFound (n : nat)
| LogIgnoring (event : pyval)
| LogTraceback (e : exn)
| LogDispatched (payload : pyval).

(** The calls the service makes, in order.  A call is recorded when it is
    made, whether or not it raises.  [CFunc event inner] is a call of
    [self.func] together with the calls made inside it. *)
#[warnings="-register-all"]
Inductive call : Type :=
| CFind (q : sg_query)
| CFindOne (q : sg_query)
| CGetEvents (topics fields : list string)
| CDispatch (a : dispatch_args)
| CSleep (seconds : Z)
| CLog (r : log_record)
| CFunc (event : pyval) (inner : list call).

(** The ShotGrid session, the AYON client and the host, over a world [W].
    [sleep_refused n] is the exception [time.sleep] raises when the host
    cannot take a length of [n] seconds ([OverflowError] when the length
    does not fit the interpreter's time type, [OSError] from the system
    call), [None] when it can; the bound depends on interpreter and
    platform. *)
Class Collaborators (W : Type) := {
  sg_find : sg_query -> W -> outcome (list pyval) * W;
  sg_find_one : sg_query -> W -> outcome pyval * W;
  ayon_get_events : list string -> list string -> W -> outcome (list pyval) * W;
  ayon_dispatch_event : dispatch_args -> W -> outcome unit * W;
  gethostname : W -> string;
  elapse : Z -> W -> W;
  sleep_refused : Z -> option exn
}.
Arguments sleep_refused W {_} seconds.

(** Built-ins whose full definition is not needed: [template.format(arg)]
    with one positional argument, [repr] of containers and datetimes, and
    [int(s)] of a string in base 10, [None] when the interpreter raises
    [ValueError]: which strings it reads as a number depends on its Unicode
    tables and its limit on the number of digits. *)
Class Builtins := {
  str_format : string -> string -> string;
  py_repr : pyval -> string;
  str_to_int : string -> option Z
}.

(** [constants.py], which is not part of the source tree. *)
Class Constants := {
  SG_EVENT_TYPES : list string;
  SG_EVENT_QUERY_FIELDS : list string
}.

(** [str(v)], as an f-string formats a value. *)
Definition py_str `{Builtins} (v : pyval) : string :=
  match v with
  | VStr s => s
  | VNone => "None"
  | VBool true => "True"
  | VBool false => "False"
  | VInt z => pretty z
  | _ => py_repr v
  end.

(** [int(v)]. *)
Definition py_int `{Builtins} (v : pyval) : outcome Z :=
  match v with
  | VInt z => Ok z
  | VBool b => Ok (if b then 1 else 0)
  | VStr s =>
      match str_to_int s with
      | Some z => Ok z
      | None => Raise (ValueError "invalid literal for int() with base 10")
      end
  | _ => Raise (TypeError "int() argument must be a string or a number")
  end.

Record sys (W : Type) := {
  world : W;
  trace : list call
}.
Arguments world {W} s.
Arguments trace {W} s.

(** The settings read by [__init__]. *)
Record Settings := {
  sg_project_code_field : string;
  custom_attribs_map : gmap string string;
  sg_enabled_entities : list string;
  shotgrid_polling_frequency : Z
}.

Record ShotgridListener (W : Type) := {
  settings : Settings;
  func : pyval -> M (sys W) pyval
}.
Arguments settings {W} s.
Arguments func {W} s.

(** ** The listener *)

Section Listener.

Context {W : Type} `{!Collaborators W} `{!Builtins} `{!Constants}.

Implicit Types (self : ShotgridListener W) (s : sys W).

Definition record (c : call) (s : sys W) : sys W :=
  {| world := world s; trace := trace s ++ [c] |}.

(** *** Calls to the collaborators, recorded in the trace *)

Definition find (q : sg_query) : M (sys W) (list pyval) :=
  fun s =>
    let '(r, w) := sg_find q (world s) in
    (r, {| world := w; trace := trace s ++ [CFind q] |}).

Definition find_one (q : sg_query) : M (sys W) pyval :=
  fun s =>
    let '(r, w) := sg_find_one q (world s) in
    (r, {| world := w; trace := trace s ++ [CFindOne q] |}).

Definition get_events (topics fields : list string) : M (sys W) (list pyval) :=
  fun s =>
    let '(r, w) := ayon_get_events topics fields (world s) in
    (r, {| world := w; trace := trace s ++ [CGetEvents topics fields] |}).

Definition dispatch_event (a : dispatch_args) : M (sys W) unit :=
  fun s =>
    let '(r, w) := ayon_dispatch_event a (world s) in
    (r, {| world := w; trace := trace s ++ [CDispatch a] |}).

(** [time.sleep(seconds)] with an integer: the length is first converted
    for the host, which may refuse it; a negative length is then a
    [ValueError]. *)
Definition time_sleep (seconds : Z) : M (sys W) unit :=
  fun s =>
    match sleep_refused W seconds with
    | Some e => (Raise e, record (CSleep seconds) s)
    | None =>
        if seconds <? 0
        then (Raise (ValueError "sleep length must be non-negative"),
              record (CSleep seconds) s)
        else (Ok tt, {| world := elapse seconds (world s);
                        trace := trace s ++ [CSleep seconds] |})
    end.

Definition log (r : log_record) : M (sys W) unit :=
  fun s => (Ok tt, record (CLog r) s).

(** [self.func(event)]: the calls made inside are kept under [CFunc]. *)
Definition call_func self (event : pyval) : M (sys W) pyval :=
  fun s =>
    let '(r, s') := func self event {| world := world s; trace := [] |} in
    (r, {| world := world s'; trace := trace s ++ [CFunc event (trace s')] |}).

(** *** [_get_supported_event_types] *)

Definition _get_supported_event_types self : list string :=
  flat_map
    (fun entity_type =>
       map (fun event_name => str_format event_name entity_type) SG_EVENT_TYPES)
    (sg_enabled_entities (settings self)).

(** *** [_build_shotgrid_filters] *)

Definition auto_sync_projects : sg_query :=
  {| q_entity := "Project";
     q_filters := [Filter "sg_ayon_auto_sync" "is" (VBool true)];
     q_fields := None;
     q_order := [];
     q_limit := 0 |}.

Definition _build_shotgrid_filters self : M (sys W) (list sg_filter) :=
  do sg_projects <- find auto_sync_projects;
  if negb (truthy (VList sg_projects)) then ret []
  else
    let filters := [Filter "project" "in" (VList sg_projects)] in
    let sg_event_types := _get_supported_event_types self in
    if truthy (VList (VStr <$> sg_event_types))
    then ret (filters ++ [Filter "event_type" "in" (VList (VStr <$> sg_event_types))])
    else ret filters.

(** *** [_get_last_event_processed] *)

(** The [for] loop over the sink's records: each one overwrites the
    candidate with [int(record["hash"])]. *)
Fixpoint scan_hashes (last_event_id : pyval) (records : list pyval) : outcome pyval :=
  match records with
  | [] => Ok last_event_id
  | r :: rest =>
      match py_getitem r "hash" with
      | Raise e => Raise e
      | Ok h =>
          match py_int h with
          | Raise e => Raise e
          | Ok z => scan_hashes (VInt z) rest
          end
      end
  end.

Definition newest_event (sg_filters : list sg_filter) : sg_query :=
  {| q_entity := "EventLogEntry";
     q_filters := sg_filters;
     q_fields := Some ["id"; "project"];
     q_order := [("id", "desc")];
     q_limit := 0 |}.

Definition _get_last_event_processed self (sg_filters : list sg_filter)
  : M (sys W) pyval :=
  do records <- get_events ["shotgrid.leech"] ["hash"];
  do last_event_id <- lift_outcome (scan_hashes VNone records);
  if negb (truthy last_event_id) then
    do last_event <- find_one (newest_event sg_filters);
    lift_outcome (py_getitem last_event "id")
  else ret last_event_id.

(** *** [_is_api_user_event]

    Returns [True], or falls off the end and returns [None]. *)
Definition _is_api_user_event (event : pyval) : outcome pyval :=
  match py_get event "meta" (VDict ∅) with
  | Raise e => Raise e
  | Ok meta =>
      match py_get meta "sudo_actual_user" (VDict ∅) with
      | Raise e => Raise e
      | Ok user =>
          match py_get user "type" VNone with
          | Raise e => Raise e
          | Ok ty => Ok (if py_eq_str ty "ApiUser" then VBool true else VNone)
          end
      end
  end.

(** *** [send_shotgrid_event_to_ayon]

    The state holds the payload object next to the system: the function
    assigns to [payload["created_at"]], and the caller's dictionary is that
    same object. *)

Definition project_by_id (project_id : pyval) (code_field : string) : sg_query :=
  {| q_entity := "Project";
     q_filters := [Filter "id" "is" project_id];
     q_fields := Some [code_field];
     q_order := [];
     q_limit := 0 |}.

(** Lines 305-309: the user name and the description. *)
Definition describe (payload : pyval) : outcome (pyval * string) :=
  match py_getitem payload "event_type" with
  | Raise e => Raise e
  | Ok event_type =>
      let description := "Leeched " +:+ py_str event_type in
      match py_get payload "user" (VDict ∅) with
      | Raise e => Raise e
      | Ok user =>
          match py_get user "name" (VStr "Undefined") with
          | Raise e => Raise e
          | Ok user_name =>
              Ok (user_name,
                  if truthy user_name
                  then "Leeched " +:+ py_str event_type +:+ " by " +:+ py_str user_name
                  else description)
          end
      end
  end.

(** Lines 314-319: the name and id of the project the event belongs to;
    the entity itself when the event is about a project. *)
Definition owning_project (payload : pyval) : outcome (pyval * pyval) :=
  match py_get payload "meta" (VDict ∅) with
  | Raise e => Raise e
  | Ok meta =>
      match py_get meta "entity_type" (VStr "Undefined") with
      | Raise e => Raise e
      | Ok entity_type =>
          let key := if py_eq_str entity_type "Project" then "entity" else "project" in
          match py_get payload key (VDict ∅) with
          | Raise e => Raise e
          | Ok owner =>
              match py_get owner "name" (VStr "Undefined") with
              | Raise e => Raise e
              | Ok project_name =>
                  match py_get owner "id" (VStr "Undefined") with
                  | Raise e => Raise e
                  | Ok project_id => Ok (project_name, project_id)
                  end
              end
          end
      end
  end.

Definition send_shotgrid_event_to_ayon (cfg : Settings) : M (pyval * sys W) pyval :=
  do payload <- get_local;
  do named <- lift_outcome (describe payload);
  let user_name := named.1 in
  let description := named.2 in
  (* fix non serializable datetime *)
  do created_at <- lift_outcome (py_getitem payload "created_at");
  do iso <- lift_outcome (py_isoformat created_at);
  do payload <- lift_outcome (py_setitem payload "created_at" (VStr iso));
  run set_local payload;
  do project <- lift_outcome (owning_project payload);
  let project_name := project.1 in
  let project_id := project.2 in
  do sg_project <- lift (find_one (project_by_id project_id (sg_project_code_field cfg)));
  do sender <- lift (fun s => (Ok (gethostname (world s)), s));
  do event_hash <- lift_outcome (py_getitem payload "id");
  do project_code <- lift_outcome (py_get sg_project (sg_project_code_field cfg) VNone);
  run lift (dispatch_event
    {| d_topic := "shotgrid.event";
       d_sender := sender;
       d_event_hash := event_hash;
       d_project_name := project_name;
       d_username := user_name;
       d_description := description;
       d_summary := VNone;
       d_payload := VDict (list_to_map
         [("action", VStr "shotgrid-event");
          ("user_name", user_name);
          ("project_name", project_name);
          ("project_code", project_code);
          ("project_code_field", VStr (sg_project_code_field cfg));
          ("sg_payload", payload)]) |});
  run lift (log (LogDispatched payload));
  lift_outcome (py_getitem payload "id").

(** The bound method, as [self.func] calls it: the payload object is the
    event passed in; the caller does not look at it afterwards. *)
Definition default_func (cfg : Settings) (event : pyval) : M (sys W) pyval :=
  fun s =>
    let '(r, (_, s')) := send_shotgrid_event_to_ayon cfg (event, s) in (r, s').

(** [__init__], lines 42-45: the function applied to accepted events. *)
Definition new_listener (cfg : Settings)
    (func : option (pyval -> M (sys W) pyval)) : ShotgridListener W :=
  {| settings := cfg;
     func := match func with
             | None => default_func cfg
             | Some f => f
             end |}.

(** *** [start_listening] *)

(** The local variables of [start_listening]. *)
Record locals := {
  base_sg_filters : list sg_filter;
  supported_event_types : list string;
  last_event_id : pyval
}.

Definition with_last_event_id (v : pyval) (l : locals) : locals :=
  {| base_sg_filters := base_sg_filters l;
     supported_event_types := supported_event_types l;
     last_event_id := v |}.

Definition with_base_sg_filters (f : list sg_filter) (l : locals) : locals :=
  {| base_sg_filters := f;
     supported_event_types := supported_event_types l;
     last_event_id := last_event_id l |}.

Definition set_last_event_id (v : pyval) : M (locals * sys W) unit :=
  fun ls => (Ok tt, (with_last_event_id v ls.1, ls.2)).

Definition set_base_sg_filters (f : list sg_filter) : M (locals * sys W) unit :=
  fun ls => (Ok tt, (with_base_sg_filters f ls.1, ls.2)).

(** The first condition of the loop body: an attribute change on a mapped
    custom attribute.  [and] does not evaluate its right operand when the
    left one is false. *)
Definition is_custom_attrib_change self (event : pyval) : outcome bool :=
  match py_getitem event "event_type" with
  | Raise e => Raise e
  | Ok event_type =>
      match py_endswith event_type "_Change" with
      | Raise e => Raise e
      | Ok false => Ok false
      | Ok true =>
          match py_getitem event "attribute_name" with
          | Raise e => Raise e
          | Ok attribute_name =>
              match py_replace attribute_name "sg_" "" with
              | Raise e => Raise e
              | Ok name =>
                  Ok (bool_decide
                        (name ∈ (map_to_list (custom_attribs_map (settings self))).*2))
              end
          end
      end
  end.

(** The [elif] condition. *)
Definition is_supported_event (supported : list string) (event : pyval) : outcome bool :=
  match py_getitem event "event_type" with
  | Raise e => Raise e
  | Ok event_type => Ok (py_in_strs event_type supported)
  end.

(** Both branches do the same: the candidate cursor is the event's id, or
    [None] when the event was caused by an API user. *)
Definition mark_event (event : pyval) : M (locals * sys W) unit :=
  do api <- lift_outcome (_is_api_user_event event);
  if negb (truthy api) then
    do id <- lift_outcome (py_get event "id" VNone);
    set_last_event_id id
  else set_last_event_id VNone.

(** The [if]/[elif] of lines 246-263. *)
Definition classify self (event : pyval) : M (locals * sys W) unit :=
  do l <- get_local;
  do change <- lift_outcome (is_custom_attrib_change self event);
  if change : bool then mark_event event
  else
    do supported <- lift_outcome
      (is_supported_event (supported_event_types l) event);
    if supported : bool then mark_event event else ret tt.

(** One round of [for event in events] (lines 243-269). *)
Definition process_event self (event : pyval) : M (locals * sys W) unit :=
  if negb (truthy event) then ret tt
  else
    run classify self event;
    do l <- get_local;
    if negb (truthy (last_event_id l)) then lift (log (LogIgnoring event))
    else
      do id <- lift (call_func self event);
      set_last_event_id id.

Fixpoint process_events self (events : list pyval) : M (locals * sys W) unit :=
  match events with
  | [] => ret tt
  | event :: rest =>
      run process_event self event;
      process_events self rest
  end.

(** The query of lines 219-230: the base filters and the cursor. *)
Definition events_after (l : locals) : sg_query :=
  {| q_entity := "EventLogEntry";
     q_filters := base_sg_filters l
                  ++ [Filter "id" "greater_than" (last_event_id l)];
     q_fields := Some SG_EVENT_QUERY_FIELDS;
     q_order := [("id", "asc")];
     q_limit := 50 |}.

(** The body of the [try] (lines 224-269).  The result tells whether it
    ended in the [continue] of the empty batch. *)
Definition fetch_and_process self (q : sg_query) : M (locals * sys W) bool :=
  let freq := shotgrid_polling_frequency (settings self) in
  do events <- lift (find q);
  if negb (truthy (VList events)) then
    run lift (log (LogWaiting 1 freq));
    run lift (time_sleep freq);
    ret true
  else
    run lift (log (LogFound (length events)));
    run process_events self events;
    ret false.

(** Lines 219-278: query, [try]/[except Exception], sleep. *)
Definition poll self : M (locals * sys W) unit :=
  let freq := shotgrid_polling_frequency (settings self) in
  do l <- get_local;
  let q := events_after l in
  do continued <- try_except (fetch_and_process self q)
                    (fun e => run lift (log (LogTraceback e)); ret false);
  if continued : bool then ret tt
  else
    run lift (log (LogWaiting 2 freq));
    lift (time_sleep freq).

(** One round of [while True] (lines 205-278). *)
Definition loop_body self : M (locals * sys W) unit :=
  let freq := shotgrid_polling_frequency (settings self) in
  do l <- get_local;
  match base_sg_filters l with
  | [] =>
      run lift (log (LogWaiting 0 freq));
      run lift (time_sleep freq);
      do filters <- lift (_build_shotgrid_filters self);
      set_base_sg_filters filters
  | _ :: _ =>
      (* try to get the last event processed in case we lost it *)
      run (if negb (truthy (last_event_id l)) then
             do id <- lift (_get_last_event_processed self (base_sg_filters l));
             set_last_event_id id
           else ret tt);
      poll self
  end.

(** The loop never ends by itself; [run_loop self n] is its first [n]
    rounds, cut short by an exception that leaves the loop. *)
Fixpoint run_loop self (n : nat) : M (locals * sys W) unit :=
  match n with
  | O => ret tt
  | S n' =>
      run loop_body self;
      run_loop self n'
  end.

(** Lines 198-202: what [start_listening] does before the loop. *)
Definition startup self : M (sys W) locals :=
  run log LogStart;
  do base_sg_filters <- _build_shotgrid_filters self;
  let supported_event_types := _get_supported_event_types self in
  do last_event_id <- _get_last_event_processed self base_sg_filters;
  ret {| base_sg_filters := base_sg_filters;
         supported_event_types := supported_event_types;
         last_event_id := last_event_id |}.

Definition start_listening self (rounds : nat) : M (sys W) locals :=
  do l <- startup self;
  fun s => let '(r, ls) := run_loop self rounds (l, s) in
           (match r with Ok _ => Ok ls.1 | Raise e => Raise e end, ls.2).

(** *** Reading a trace *)

(** The events [self.func] was applied to, in order. *)
Definition dispatched (tr : list call) : list pyval :=
  omap (fun c => match c with CFunc event _ => Some event | _ => None end) tr.

(** Queries of the source's event log. *)
Definition is_event_log_query (c : call) : bool :=
  match c with
  | CFind q | CFindOne q => String.eqb (q_entity q) "EventLogEntry"
  | _ => false
  end.

(** The calls of a round that only waits and rebuilds the filters. *)
Definition idle_call self (c : call) : Prop :=
  let freq := shotgrid_polling_frequency (settings self) in
  c = CLog (LogWaiting 0 freq) \/ c = CSleep freq \/ c = CFind auto_sync_projects.

(** The calls of one such round, in order. *)
Definition idle_round_calls self : list call :=
  let freq := shotgrid_polling_frequency (settings self) in
  [CLog (LogWaiting 0 freq); CSleep freq; CFind auto_sync_projects].


(** An event one of the two conditions of lines 246-257 accepts. *)
Definition tracked self (supported : list string) (event : pyval) : Prop :=
  is_custom_attrib_change self event = Ok true
  \/ (is_custom_attrib_change self event = Ok false
      /\ is_supported_event supported event = Ok true).

(** The cursor of each poll of the event log: the value of the
    [id greater_than] entry of its filters. *)
Definition poll_cursors (tr : list call) : list pyval :=
  flat_map
    (fun c =>
       match c with
       | CFind q =>
           omap (fun f => match f with
                          | Filter "id" "greater_than" v => Some v
                          | _ => None
                          end) (q_filters q)
       | _ => []
       end) tr.

(** What [dispatch_event] was called with. *)
Definition dispatches (tr : list call) : list dispatch_args :=
  omap (fun c => match c with CDispatch a => Some a | _ => None end) tr.

End Listener.

(** The integer id of an event, when it has one. *)
Definition event_id (event : pyval) : option Z :=
  match event with
  | VDict d =>
      match d !! "id" with
      | Some (VInt z) => Some z
      | _ => None
      end
  | _ => None
  end.

Definition event_ids (events : list pyval) : list Z := omap event_id events.

(** ** A simulated deployment

    A small ShotGrid site and AYON server on which the listener can be run.
    The event log is a list of rows in ascending id order; rows that are
    still to happen arrive during the next sleep.  The sink keeps the topic
    and hash of what was dispatched, oldest first, and a query by topic
    returns the records of that topic.  Used for the concrete runs below;
    the general statements hold for every [Collaborators]. *)

Module Sim.

Record World := {
  projects : list pyval;                (* the projects with AYON Auto Sync on *)
  event_log : list pyval;               (* EventLogEntry rows *)
  arrivals : list pyval;                (* rows written during the next sleep *)
  ayon_events : list (string * pyval);  (* topic and hash of each sink event *)
  sg_online : bool;                     (* whether ShotGrid answers *)
  sg_online_later : bool                (* the same, after the next sleep *)
}.

Definition same_id (v w : pyval) : bool :=
  match v, w with
  | VInt a, VInt b => a =? b
  | _, _ => false
  end.

Definition row_matches (row : pyval) (f : sg_filter) : bool :=
  match f with
  | Filter "id" "greater_than" (VInt n) =>
      match event_id row with
      | Some i => n <? i
      | None => false
      end
  | Filter "id" "greater_than" _ => false
  | Filter "id" "is" v =>
      match row with
      | VDict d => same_id (default VNone (d !! "id")) v
      | _ => false
      end
  | Filter "event_type" "in" (VList types) =>
      match row with
      | VDict d =>
          existsb (fun t => match t with
                            | VStr t => py_eq_str (default VNone (d !! "event_type")) t
                            | _ => false
                            end) types
      | _ => false
      end
  | _ => true
  end.

Definition rows (w : World) (q : sg_query) : list pyval :=
  let table := if String.eqb (q_entity q) "Project" then projects w else event_log w in
  let hits := filter (fun row => forallb (row_matches row) (q_filters q) = true) table in
  let hits := match q_order q with
              | [(_, "desc")] => reverse hits
              | _ => hits
              end in
  if 0 <? q_limit q then take (Z.to_nat (q_limit q)) hits else hits.

Definition offline {A} : outcome A := Raise (Fault "ShotGrid is not reachable").

(** The server keeps the hash as text. *)
Definition stored_hash (h : pyval) : pyval :=
  match h with
  | VInt z => VStr (pretty z)
  | _ => h
  end.

Definition store (a : dispatch_args) (w : World) : World :=
  {| projects := projects w;
     event_log := event_log w;
     arrivals := arrivals w;
     ayon_events := ayon_events w ++ [(d_topic a, stored_hash (d_event_hash a))];
     sg_online := sg_online w;
     sg_online_later := sg_online_later w |}.

Definition history (topics : list string) (w : World) : list pyval :=
  omap (fun r : string * pyval =>
          if bool_decide (r.1 ∈ topics)
          then Some (VDict {[ "hash" := r.2 ]})
          else None) (ayon_events w).

Definition later (w : World) : World :=
  {| projects := projects w;
     event_log := event_log w ++ arrivals w;
     arrivals := [];
     ayon_events := ayon_events w;
     sg_online := sg_online_later w;
     sg_online_later := sg_online_later w |}.

#[export] Instance collaborators : Collaborators World := {|
  sg_find q w := (if sg_online w then Ok (rows w q) else offline, w);
  sg_find_one q w :=
    (if sg_online w then Ok (default VNone (head (rows w q))) else offline, w);
  ayon_get_events topics fields w := (Ok (history topics w), w);
  ayon_dispatch_event a w := (Ok tt, store a w);
  gethostname w := "leecher-01";
  elapse seconds w := later w;
  sleep_refused seconds :=
    if 9223372036 <? Z.abs seconds
    then Some (OverflowError "timestamp too large to convert to C _PyTime_t")
    else None
|}.

(** [format] for templates whose only field is [{0}]; [int] for strings
    written in ASCII. *)
#[export] Instance builtins : Builtins := {|
  str_format template arg := str_replace "{0}" arg template;
  py_repr v := "<object>";
  str_to_int := parse_int
|}.

(** Sample contents for [constants.py]. *)
#[export] Instance constants : Constants := {|
  SG_EVENT_TYPES :=
    ["Shotgun_{0}_New"; "Shotgun_{0}_Change";
     "Shotgun_{0}_Retirement"; "Shotgun_{0}_Revival"];
  SG_EVENT_QUERY_FIELDS :=
    ["id"; "event_type"; "attribute_name"; "meta"; "entity"; "user";
     "project"; "created_at"]
|}.

Definition dict (l : list (string * pyval)) : pyval := VDict (list_to_map l).

Definition noon : datetime :=
  {| dt_year := 2024; dt_month := 5; dt_day := 17; dt_hour := 12;
     dt_minute := 0; dt_second := 0; dt_microsecond := 0;
     dt_utcoffset := None |}.

Definition project_7 : pyval :=
  dict [("type", VStr "Project"); ("id", VInt 7); ("name", VStr "demo");
        ("code", VStr "dmo")].

Definition artist : pyval :=
  dict [("type", VStr "HumanUser"); ("id", VInt 3); ("name", VStr "Ada")].

Definition api_user : gmap string pyval :=
  list_to_map [("type", VStr "ApiUser"); ("id", VInt 12)].

Definition by_script : gmap string pyval :=
  list_to_map [("type", VStr "attribute_change");
               ("sudo_actual_user", VDict api_user)].

Definition by_hand : gmap string pyval :=
  list_to_map [("type", VStr "attribute_change")].

(** An event row as ShotGrid returns it; [user] is the user entry, if the
    row has one. *)
Definition fields (id : Z) (event_type : string) (attribute_name : pyval)
    (meta : gmap string pyval) (user : list (string * pyval))
  : gmap string pyval :=
  list_to_map
    ([("type", VStr "EventLogEntry"); ("id", VInt id);
      ("event_type", VStr event_type); ("attribute_name", attribute_name);
      ("meta", VDict meta); ("project", project_7);
      ("created_at", VDatetime noon)] ++ user).

Definition shot_new_41 : pyval :=
  VDict (fields 41 "Shotgun_Shot_New" VNone by_hand [("user", artist)]).

Definition status_change_42 : pyval :=
  VDict (fields 42 "Shotgun_Shot_Change" (VStr "sg_status_list") by_hand
           [("user", artist)]).

Definition status_change_43 : pyval :=
  VDict (fields 43 "Shotgun_Shot_Change" (VStr "sg_status_list") by_script
           [("user", artist)]).

Definition shot_new_44 : pyval :=
  VDict (fields 44 "Shotgun_Shot_New" VNone by_hand []).

Definition cfg (entities : list string) : Settings :=
  {| sg_project_code_field := "code";
     custom_attribs_map := {[ "status" := "status_list"; "tags" := "tags" ]};
     sg_enabled_entities := entities;
     shotgrid_polling_frequency := 10 |}.

Definition site (log arriving : list pyval) (sink : list (string * pyval)) : World :=
  {| projects := [project_7]; event_log := log; arrivals := arriving;
     ayon_events := sink; sg_online := true; sg_online_later := true |}.

(** No project has auto-sync on; [stays_up] tells whether ShotGrid still
    answers after the first sleep. *)
Definition idle_site (stays_up : bool) : World :=
  {| projects := []; event_log := [shot_new_41]; arrivals := [];
     ayon_events := []; sg_online := true; sg_online_later := stays_up |}.

Definition boot (w : World) : sys World := {| world := w; trace := [] |}.

(** A replacement for [self.func] that always fails. *)
Definition failing_func (event : pyval) : M (sys World) pyval :=
  fun s => (Raise (Fault "AYON server is not reachable"), s).

(** The listener as deployed, tracking shots. *)
Definition leecher : ShotgridListener World := new_listener (cfg ["Shot"]) None.

(** No entity type is enabled: no event type is supported. *)
Definition leecher_no_entities : ShotgridListener World := new_listener (cfg []) None.

Definition leecher_failing : ShotgridListener World :=
  new_listener (cfg ["Shot"]) (Some failing_func).

(** The local variables once the filters are built and the cursor is known. *)
Definition polling (self : ShotgridListener World) (cursor : pyval) : locals :=
  {| base_sg_filters :=
       [Filter "project" "in" (VList [project_7]);
        Filter "event_type" "in" (VList (VStr <$> _get_supported_event_types self))];
     supported_event_types := _get_supported_event_types self;
     last_event_id := cursor |}.

(** The local variables while no project has auto-sync on. *)
Definition waiting (self : ShotgridListener World) (cursor : pyval) : locals :=
  {| base_sg_filters := [];
     supported_event_types := _get_supported_event_types self;
     last_event_id := cursor |}.

(** The cursor a run ends with. *)
Definition cursor_after (r : outcome locals) : option pyval :=
  match r with
  | Ok l => Some (last_event_id l)
  | Raise _ => None
  end.

End Sim.

(** ** More ways to read a trace *)

(** The lengths of the sleeps of a trace, in order. *)
Definition sleeps (tr : list call) : list Z :=
  omap (fun c => match c with CSleep seconds => Some seconds | _ => None end) tr.

(** Queries of the ShotGrid projects. *)
Definition is_project_query (c : call) : bool :=
  match c with
  | CFind q | CFindOne q => String.eqb (q_entity q) "Project"
  | _ => false
  end.

(** Calls that reach the sink to write. *)
Definition is_dispatch (c : call) : bool :=
  match c with
  | CDispatch _ => true
  | _ => false
  end.

(** A log message or a call of [self.func]. *)
Definition is_log_or_func (c : call) : bool :=
  match c with
  | CLog _ | CFunc _ _ => true
  | _ => false
  end.

(** Whether the metadata of an event says it is about a project: the test
    of line 314 on a payload with fields [d]. *)
Definition about_project (d : gmap string pyval) : bool :=
  match d !! "meta" with
  | Some (VDict meta) =>
      py_eq_str (default (VStr "Undefined") (meta !! "entity_type")) "Project"
  | _ => false
  end.

(** Filters as [_build_shotgrid_filters] makes them: none, or the project
    filter over some projects followed by the event-type filter when some
    event type is supported. *)
Definition built_filters `{!Builtins} `{!Constants} {W : Type}
    (self : ShotgridListener W) (filters : list sg_filter) : Prop :=
  filters = []
  \/ exists sg_projects : list pyval,
       sg_projects <> []
       /\ filters
          = Filter "project" "in" (VList sg_projects)
            :: match _get_supported_event_types self with
               | [] => []
               | types => [Filter "event_type" "in" (VList (VStr <$> types))]
               end.

(** ** Construction and teardown

    [__init__] reads the addon settings and the API secret from the AYON
    server, checks them, connects to ShotGrid and installs the signal
    handlers; [_signal_teardown_handler] closes the session and exits.
    What the server answers is decoded JSON; as elsewhere numbers are
    integers. *)

#[warnings="-register-all"]
Inductive json : Type :=
| JNull
| JBool (b : bool)
| JInt (z : Z)
| JStr (s : string)
| JList (l : list json)
| JObject (d : gmap string json).

(** The Python value a decoded JSON value is. *)
Fixpoint py_of_json (j : json) : pyval :=
  match j with
  | JNull => VNone
  | JBool b => VBool b
  | JInt z => VInt z
  | JStr s => VStr s
  | JList l => VList (map py_of_json l)
  | JObject d => VDict (py_of_json <$> d)
  end.

(** [j[k]] with a string key. *)
Definition json_getitem (j : json) (k : string) : outcome json :=
  match j with
  | JObject d =>
      match d !! k with
      | Some x => Ok x
      | None => Raise (KeyError k)
      end
  | JStr _ | JList _ => Raise (TypeError "indices must be integers")
  | _ => Raise (TypeError "object is not subscriptable")
  end.

(** [for x in j]: the elements of a list, the keys of an object, the
    characters of a string.  The keys come in the order of the map, not of
    insertion; the one loop over settings below subscripts each element with
    a string key, which raises the same error on any key. *)
Definition json_iter (j : json) : outcome (list json) :=
  match j with
  | JList l => Ok l
  | JObject d => Ok (JStr <$> (map_to_list d).*1)
  | JStr s => Ok ((fun c => JStr (String c EmptyString)) <$> String.list_ascii_of_string s)
  | _ => Raise (TypeError "object is not iterable")
  end.

(** Keys of a dictionary built from JSON values: [None], numbers (a boolean
    is the number 0 or 1) and strings; lists and objects are unhashable. *)
Definition json_key (j : json) : outcome (option (Z + string)) :=
  match j with
  | JNull => Ok None
  | JBool b => Ok (Some (inl (if b then 1 else 0)))
  | JInt z => Ok (Some (inl z))
  | JStr s => Ok (Some (inr s))
  | JList _ | JObject _ => Raise (TypeError "unhashable type")
  end.

(** The dictionary comprehension of lines 81-85,
    [{attr["ayon"]: attr["sg"] for attr in ... if attr["sg"]}]. *)
Fixpoint collect_attribs (acc : gmap (option (Z + string)) pyval) (attrs : list json)
  : outcome (gmap (option (Z + string)) pyval) :=
  match attrs with
  | [] => Ok acc
  | attr :: rest =>
      match json_getitem attr "sg" with
      | Raise e => Raise e
      | Ok sg =>
          if truthy (py_of_json sg) then
            match json_getitem attr "ayon" with
            | Raise e => Raise e
            | Ok ayon =>
                match json_key ayon with
                | Raise e => Raise e
                | Ok key => collect_attribs (<[key := py_of_json sg]> acc) rest
                end
            end
          else collect_attribs acc rest
      end
  end.

Definition secret_not_found : exn :=
  ValueError "Shotgrid API Key not found. Make sure to set it in the Addon System settings. `ayon+settings://shotgrid/service_settings/script_key`".

Definition key_not_found : exn :=
  ValueError "Shotgrid API Key not found. Make sure to set it in the Addon System settings.".

Definition script_name_not_found : exn :=
  ValueError "Shotgrid Script Name not found. Make sure to set it in the Addon System settings.".

(** Lines 60-72: the API key of the secret the server returned. *)
Definition secret_api_key (shotgrid_secret : json) : outcome pyval :=
  match shotgrid_secret with
  | JList _ => Raise secret_not_found
  | _ =>
      match py_get (py_of_json shotgrid_secret) "value" VNone with
      | Raise e => Raise e
      | Ok sg_api_key =>
          if negb (truthy sg_api_key) then Raise key_not_found else Ok sg_api_key
      end
  end.

(** Lines 95-100: [int(service_settings["polling_frequency"])], or 10 when
    that raises. *)
Definition polling_frequency `{!Builtins} (service_settings : json) : Z :=
  match json_getitem service_settings "polling_frequency" with
  | Raise _ => 10
  | Ok v =>
      match py_int (py_of_json v) with
      | Ok z => z
      | Raise _ => 10
      end
  end.

(** The attributes [__init__] sets. *)
Record Attributes := {
  attr_settings : json;
  attr_sg_url : pyval;
  attr_sg_project_code_field : pyval;
  attr_sg_api_key : pyval;
  attr_sg_script_name : pyval;
  attr_custom_attribs_map : gmap (option (Z + string)) pyval;
  attr_sg_enabled_entities : pyval;
  attr_shotgrid_polling_frequency : Z
}.

Inductive signum : Type := SIGINT | SIGTERM.

Inductive service_log : Type :=
| LogInitializing
| LogSettingsError
| LogConnectionError
| LogStopRequested
| LogTerminationFinished.

(** The calls of construction and teardown, in order. *)
Inductive service_call : Type :=
| SInitService
| SGetSettings
| SGetSecret (name : pyval)
| SShotgun (url script_name api_key : pyval)
| SConnect
| SClose
| SSignal (sig : signum)
| SLog (r : service_log).

(** The AYON service API, the ShotGrid session and the signal module. *)
Class Service (W : Type) := {
  ayon_init_service : W -> outcome unit * W;
  ayon_get_service_addon_settings : W -> outcome json * W;
  ayon_get_secret : pyval -> W -> outcome json * W;
  shotgun_new : pyval -> pyval -> pyval -> W -> outcome unit * W;
  shotgun_connect : W -> outcome unit * W;
  shotgun_close : W -> outcome unit * W;
  signal_signal : signum -> W -> outcome unit * W
}.

Record proc (W : Type) := {
  proc_world : W;
  proc_trace : list service_call
}.
Arguments proc_world {W} p.
Arguments proc_trace {W} p.

Section Construction.

Context {W : Type} `{!Service W} `{!Builtins}.

Definition service {A} (c : service_call) (oracle : W -> outcome A * W) : M (proc W) A :=
  fun p =>
    let '(r, w) := oracle (proc_world p) in
    (r, {| proc_world := w; proc_trace := proc_trace p ++ [c] |}).

Definition note (r : service_log) : M (proc W) unit :=
  fun p => (Ok tt, {| proc_world := proc_world p; proc_trace := proc_trace p ++ [SLog r] |}).

(** The body of the first [try] of [__init__] (lines 48-100). *)
Definition read_settings : M (proc W) Attributes :=
  run service SInitService ayon_init_service;
  do settings <- service SGetSettings ayon_get_service_addon_settings;
  do service_settings <- lift_outcome (json_getitem settings "service_settings");
  do sg_url <- lift_outcome (json_getitem settings "shotgrid_server");
  do sg_project_code_field <- lift_outcome
    (json_getitem settings "shotgrid_project_code_field");
  (* get server op related ShotGrid script api properties *)
  do script_key <- lift_outcome (json_getitem service_settings "script_key");
  do shotgrid_secret <- service (SGetSecret (py_of_json script_key))
                          (ayon_get_secret (py_of_json script_key));
  do sg_api_key <- lift_outcome (secret_api_key shotgrid_secret);
  do sg_script_name <- lift_outcome (json_getitem service_settings "script_name");
  if negb (truthy (py_of_json sg_script_name))
  then lift_outcome (Raise script_name_not_found)
  else
    do compatibility <- lift_outcome (json_getitem settings "compatibility_settings");
    do entries <- lift_outcome (json_getitem compatibility "custom_attribs_map");
    do attrs <- lift_outcome (json_iter entries);
    do custom_attribs_map <- lift_outcome (collect_attribs ∅ attrs);
    (* TODO: implement a way to handle status_list and tags *)
    let custom_attribs_map := <[Some (inr "tags") := VStr "tags"]> custom_attribs_map in
    do sg_enabled_entities <- lift_outcome
      (json_getitem compatibility "shotgrid_enabled_entities");
    ret {| attr_settings := settings;
           attr_sg_url := py_of_json sg_url;
           attr_sg_project_code_field := py_of_json sg_project_code_field;
           attr_sg_api_key := sg_api_key;
           attr_sg_script_name := py_of_json sg_script_name;
           attr_custom_attribs_map := custom_attribs_map;
           attr_sg_enabled_entities := py_of_json sg_enabled_entities;
           attr_shotgrid_polling_frequency := polling_frequency service_settings |}.

(** [except Exception as e: self.log.error(...); raise e]. *)
Definition log_and_reraise {A} (r : service_log) (e : exn) : M (proc W) A :=
  run note r;
  lift_outcome (Raise e).

(** [__init__], but for the choice of [self.func] (lines 42-45), which is
    [new_listener]. *)
Definition __init__ : M (proc W) Attributes :=
  run note LogInitializing;
  do a <- try_except read_settings (log_and_reraise LogSettingsError);
  run try_except
        (run service (SShotgun (attr_sg_url a) (attr_sg_script_name a) (attr_sg_api_key a))
               (shotgun_new (attr_sg_url a) (attr_sg_script_name a) (attr_sg_api_key a));
         service SConnect shotgun_connect)
        (log_and_reraise LogConnectionError);
  run service (SSignal SIGINT) (signal_signal SIGINT);
  run service (SSignal SIGTERM) (signal_signal SIGTERM);
  ret a.

(** [_signal_teardown_handler]: [sys.exit(0)] raises [SystemExit]. *)
Definition _signal_teardown_handler : M (proc W) unit :=
  run note LogStopRequested;
  run service SClose shotgun_close;
  run note LogTerminationFinished;
  lift_outcome (Raise (SystemExit 0)).

(** The calls to ShotGrid of a trace. *)
Definition is_shotgun_call (c : service_call) : bool :=
  match c with
  | SShotgun _ _ _ | SConnect | SClose => true
  | _ => false
  end.

Definition is_signal_call (c : service_call) : bool :=
  match c with
  | SSignal _ => true
  | _ => false
  end.

End Construction.

(** ** More of the simulated deployment *)

Module Cases.

Import Sim.

(** A listener whose polling frequency was set to a negative number. *)
Definition hasty : ShotgridListener Sim.World :=
  new_listener
    {| sg_project_code_field := "code";
       custom_attribs_map := {[ "status" := "status_list"; "tags" := "tags" ]};
       sg_enabled_entities := ["Shot"];
       shotgrid_polling_frequency := -5 |} None.

(** A replacement for [self.func] during which the process is told to stop. *)
Definition exiting_func (event : pyval) : M (sys Sim.World) pyval :=
  fun s => (Raise (SystemExit 0), s).

Definition leecher_exiting : ShotgridListener Sim.World :=
  new_listener (Sim.cfg ["Shot"]) (Some exiting_func).

(** A change event that names no attribute. *)
Definition nameless_change : gmap string pyval :=
  Sim.fields 45 "Shotgun_Shot_Change" VNone Sim.by_hand [("user", Sim.artist)].

(** The sink records of two earlier runs. *)
Definition record_40 : pyval := VDict {[ "hash" := VStr "40" ]}.
Definition record_41 : pyval := VDict {[ "hash" := VStr "41" ]}.

(** The AYON server side: the addon settings, the secrets by name, and
    whether ShotGrid can be reached. *)
Record Server := {
  addon_settings : json;
  secrets : gmap string json;
  shotgrid_up : bool
}.

#[export] Instance service : Service Server := {|
  ayon_init_service w := (Ok tt, w);
  ayon_get_service_addon_settings w := (Ok (addon_settings w), w);
  ayon_get_secret name w :=
    (Ok (match name with
         | VStr n => default (JList []) (secrets w !! n)
         | _ => JList []
         end), w);
  shotgun_new url script_name api_key w := (Ok tt, w);
  shotgun_connect w :=
    (if shotgrid_up w then Ok tt else Raise (Fault "ShotGrid is not reachable"), w);
  shotgun_close w := (Ok tt, w);
  signal_signal sig w := (Ok tt, w)
|}.

Definition obj (l : list (string * json)) : json := JObject (list_to_map l).

Definition mappings : list json :=
  [obj [("ayon", JStr "status"); ("sg", JStr "status_list"); ("type", JStr "string")];
   obj [("ayon", JStr "fps"); ("sg", JStr ""); ("type", JStr "number")];
   obj [("ayon", JStr "tags"); ("sg", JStr "keywords"); ("type", JStr "list")]].

Definition settings_json (frequency : json) : json :=
  obj [("shotgrid_server", JStr "https://demo.shotgrid.example");
       ("shotgrid_project_code_field", JStr "code");
       ("service_settings",
        obj [("script_key", JStr "sg-key"); ("script_name", JStr "ayon");
             ("polling_frequency", frequency)]);
       ("compatibility_settings",
        obj [("custom_attribs_map", JList mappings);
             ("shotgrid_enabled_entities", JList [JStr "Shot"; JStr "Asset"])])].

Definition server (known_secret up : bool) : Server :=
  {| addon_settings := settings_json (JStr "30");
     secrets := if known_secret
                then {[ "sg-key" := obj [("name", JStr "sg-key");
                                         ("value", JStr "s3cr3t")] ]}
                else ∅;
     shotgrid_up := up |}.

Definition fresh (w : Server) : proc Server := {| proc_world := w; proc_trace := [] |}.

End Cases.

(** ** Facts about the listener *)

(** Unfold the translator down to the outcomes it branches on. *)
Ltac unfold_send :=
  unfold send_shotgrid_event_to_ayon, bind, get_local, set_local, lift_outcome,
    lift, find_one, dispatch_event, log, record;
  cbn -[describe owning_project py_str list_to_map isoformat].

(** Case on the outcome the goal branches on; [tac] closes the branch in
    which the call raised. *)
Ltac on_outcome tac :=
  match goal with
  | |- context [match ?r with Ok _ => _ | Raise _ => _ end] =>
      let H := fresh "Hstep" in
      destruct r eqn:H;
      cbn -[describe owning_project py_str list_to_map isoformat];
      [| solve [tac]]
  end.

Section Facts.

Context {W : Type} `{!Collaborators W} `{!Builtins} `{!Constants}.

Implicit Types (self : ShotgridListener W) (s : sys W) (l : locals).

Lemma with_last_event_id_same l : with_last_event_id (last_event_id l) l = l.
Proof. by destruct l. Qed.

Lemma dispatched_app (t1 t2 : list call) :
  dispatched (t1 ++ t2) = dispatched t1 ++ dispatched t2.
Proof. apply omap_app. Qed.

Lemma dispatches_app (t1 t2 : list call) :
  dispatches (t1 ++ t2) = dispatches t1 ++ dispatches t2.
Proof. apply omap_app. Qed.

(** *** Classification only touches the candidate cursor *)

Lemma mark_event_local event l s :
  exists r v, mark_event event (l, s) = (r, (with_last_event_id v l, s)).
Proof.
  unfold mark_event, bind, lift_outcome, set_last_event_id.
  destruct (_is_api_user_event event) as [api|e]; cbn.
  - destruct (truthy api); cbn.
    + by exists (Ok tt), VNone.
    + destruct (py_get event "id" VNone) as [id|e]; cbn.
      * by exists (Ok tt), id.
      * exists (Raise e), (last_event_id l). by rewrite with_last_event_id_same.
  - exists (Raise e), (last_event_id l). by rewrite with_last_event_id_same.
Qed.

Lemma classify_local self event l s :
  exists r v, classify self event (l, s) = (r, (with_last_event_id v l, s)).
Proof.
  unfold classify, bind, get_local, lift_outcome, ret; cbn.
  destruct (is_custom_attrib_change self event) as [[]|e]; cbn.
  - apply mark_event_local.
  - destruct (is_supported_event _ event) as [[]|e]; cbn.
    + apply mark_event_local.
    + exists (Ok tt), (last_event_id l). by rewrite with_last_event_id_same.
    + exists (Raise e), (last_event_id l). by rewrite with_last_event_id_same.
  - exists (Raise e), (last_event_id l). by rewrite with_last_event_id_same.
Qed.

(** *** What one event adds to the trace *)

Lemma process_event_effect self event l s :
  exists r v s' tr,
    process_event self event (l, s) = (r, (with_last_event_id v l, s'))
    /\ trace s' = trace s ++ tr
    /\ (dispatched tr = [] \/ dispatched tr = [event]).
Proof.
  unfold process_event.
  destruct (truthy event); cbn.
  2:{ exists (Ok tt), (last_event_id l), s, [].
      rewrite with_last_event_id_same, app_nil_r. unfold ret. auto. }
  unfold bind at 1.
  destruct (classify_local self event l s) as (r & v & ->).
  destruct r as [[]|e].
  2:{ exists (Raise e), v, s, []. rewrite app_nil_r. auto. }
  unfold bind, get_local; cbn.
  destruct (truthy v); cbn.
  - unfold lift, call_func; cbn.
    destruct (func self event _) as [[id|e] s1]; cbn.
    + exists (Ok tt), id, {| world := world s1; trace := trace s ++ [CFunc event (trace s1)] |},
        [CFunc event (trace s1)]. auto.
    + exists (Raise e), v, {| world := world s1; trace := trace s ++ [CFunc event (trace s1)] |},
        [CFunc event (trace s1)]. auto.
  - exists (Ok tt), v, (record (CLog (LogIgnoring event)) s), [CLog (LogIgnoring event)].
    auto.
Qed.

Lemma process_events_effect self events l s :
  exists r v s' tr,
    process_events self events (l, s) = (r, (with_last_event_id v l, s'))
    /\ trace s' = trace s ++ tr
    /\ dispatched tr `sublist_of` events.
Proof.
  revert l s. induction events as [|event rest IH]; intros l s; cbn.
  - exists (Ok tt), (last_event_id l), s, [].
    rewrite with_last_event_id_same, app_nil_r. unfold ret.
    repeat split. constructor.
  - unfold bind.
    destruct (process_event_effect self event l s) as (r & v & s1 & tr1 & -> & Htr1 & Hd1).
    destruct r as [[]|e].
    + destruct (IH (with_last_event_id v l) s1) as (r & v' & s2 & tr2 & -> & Htr2 & Hd2).
      exists r, v', s2, (tr1 ++ tr2). split; [done|]. split.
      * by rewrite Htr2, Htr1, app_assoc.
      * rewrite dispatched_app.
        destruct Hd1 as [-> | ->]; cbn; [by constructor | by constructor].
    + exists (Raise e), v, s1, tr1. repeat split; [done|].
      destruct Hd1 as [-> | ->]; [apply sublist_nil_l|].
      constructor. apply sublist_nil_l.
Qed.

Lemma sublist_omap {A B} (f : A -> option B) (l1 l2 : list A) :
  l1 `sublist_of` l2 -> omap f l1 `sublist_of` omap f l2.
Proof.
  induction 1 as [|x l1 l2 _ IH|x l1 l2 _ IH]; cbn.
  - constructor.
  - destruct (f x); [by constructor | done].
  - destruct (f x); [by constructor | done].
Qed.

Lemma StronglySorted_sublist {A} (R : relation A) (l1 l2 : list A) :
  l1 `sublist_of` l2 -> StronglySorted R l2 -> StronglySorted R l1.
Proof.
  induction 1 as [|x l1 l2 Hsub IH|x l1 l2 Hsub IH]; intros Hs.
  - constructor.
  - apply StronglySorted_inv in Hs as [Hs Hall]. constructor; [by apply IH|].
    apply Forall_forall. intros y Hy.
    eapply Forall_forall in Hall; [done|]. by eapply elem_of_sublist.
  - apply StronglySorted_inv in Hs as [Hs _]. by apply IH.
Qed.

(** C4. The events handed to [self.func] while a batch is processed are a
    subsequence of the batch, taken in the order of the batch; so are their
    ids, and when the batch is sorted ascending by id the dispatched ids
    are non-decreasing. *)
Theorem dispatch_follows_batch_order self (events : list pyval) l s :
  StronglySorted Z.le (event_ids events) ->
  exists evs : list pyval,
    dispatched (trace (process_events self events (l, s)).2.2)
      = dispatched (trace s) ++ evs
    /\ evs `sublist_of` events
    /\ event_ids evs `sublist_of` event_ids events
    /\ StronglySorted Z.le (event_ids evs).
Proof.
  intros Hsorted.
  destruct (process_events_effect self events l s) as (r & v & s' & tr & -> & Htr & Hsub).
  exists (dispatched tr). cbn. rewrite Htr, dispatched_app.
  split; [done|]. split; [done|].
  assert (Hids : event_ids (dispatched tr) `sublist_of` event_ids events)
    by by apply sublist_omap.
  split; [done|]. by eapply StronglySorted_sublist.
Qed.

(** *** The loop keeps a non-empty filter list *)

Lemma fetch_and_process_effect self q l s :
  exists r v s', fetch_and_process self q (l, s) = (r, (with_last_event_id v l, s')).
Proof.
  unfold fetch_and_process, bind, lift, find, log, time_sleep, record, ret;
    cbn -[truthy process_events].
  destruct (sg_find q (world s)) as [[events|e] w]; cbn -[truthy process_events].
  - destruct (negb (truthy (VList events))); cbn -[process_events].
    + destruct (sleep_refused W _); [|destruct (_ <? 0)]; cbn;
        eexists _, (last_event_id l), _;
        rewrite with_last_event_id_same; reflexivity.
    + match goal with |- context [process_events self events (l, ?s0)] =>
        destruct (process_events_effect self events l s0) as (r & v & s' & tr & -> & _ & _)
      end.
      destruct r; eexists _, v, _; reflexivity.
  - eexists _, (last_event_id l), _. rewrite with_last_event_id_same. reflexivity.
Qed.

Lemma poll_effect self l s :
  exists r v s', poll self (l, s) = (r, (with_last_event_id v l, s')).
Proof.
  unfold poll, bind at 1, get_local; cbn.
  unfold bind at 1, try_except.
  destruct (fetch_and_process_effect self (events_after l) l s) as (r & v & s' & ->).
  destruct r as [[]|e]; cbn.
  - eexists _, v, _; reflexivity.
  - unfold bind, lift, log, time_sleep, record; cbn.
    destruct (sleep_refused W _); [|destruct (_ <? 0)]; eexists _, v, _; reflexivity.
  - destruct (is_Exception e); cbn; [|eexists _, v, _; reflexivity].
    unfold bind, lift, log, time_sleep, record, ret; cbn.
    destruct (sleep_refused W _); [|destruct (_ <? 0)]; eexists _, v, _; reflexivity.
Qed.

Lemma loop_body_polling self l s :
  base_sg_filters l <> [] ->
  truthy (last_event_id l) = true ->
  loop_body self (l, s) = poll self (l, s).
Proof.
  intros Hne Hcur. unfold loop_body, bind at 1, get_local; cbn -[poll].
  destruct (base_sg_filters l); [done|].
  unfold bind at 1. by rewrite Hcur.
Qed.

Lemma loop_body_resolving self l s :
  base_sg_filters l <> [] ->
  truthy (last_event_id l) = false ->
  loop_body self (l, s)
  = match _get_last_event_processed self (base_sg_filters l) s with
    | (Ok id, s') => poll self (with_last_event_id id l, s')
    | (Raise e, s') => (Raise e, (l, s'))
    end.
Proof.
  intros Hne Hcur.
  unfold loop_body, bind at 1, get_local; cbn -[poll _get_last_event_processed].
  destruct (base_sg_filters l) as [|f fs]; [done|].
  unfold bind at 1. rewrite Hcur. cbn -[poll _get_last_event_processed].
  unfold bind at 1, lift; cbn -[poll _get_last_event_processed].
  by destruct (_get_last_event_processed self (f :: fs) s) as [[id|e] s1].
Qed.

Lemma loop_body_keeps_filters self l s :
  base_sg_filters l <> [] ->
  base_sg_filters (loop_body self (l, s)).2.1 = base_sg_filters l.
Proof.
  intros Hne. destruct (truthy (last_event_id l)) eqn:Hcur.
  - rewrite loop_body_polling by done.
    by destruct (poll_effect self l s) as (r & v & s' & ->).
  - rewrite loop_body_resolving by done.
    destruct (_get_last_event_processed self _ s) as [[id|e] s1]; [|done].
    by destruct (poll_effect self (with_last_event_id id l) s1) as (r & v & s' & ->).
Qed.

Lemma run_loop_keeps_filters self n l s :
  base_sg_filters l <> [] ->
  base_sg_filters (run_loop self n (l, s)).2.1 = base_sg_filters l.
Proof.
  revert l s. induction n as [|n IH]; intros l s Hne; cbn; [done|].
  unfold bind.
  pose proof (loop_body_keeps_filters self l s Hne) as Hkeep.
  destruct (loop_body self (l, s)) as [[[]|e] [l1 s1]]; cbn in *; [|done].
  rewrite IH; [done|]. by rewrite Hkeep.
Qed.

(** *** Sleeping *)

Lemma time_sleep_accepted (seconds : Z) s :
  0 <= seconds ->
  sleep_refused W seconds = None ->
  time_sleep seconds s
  = (Ok tt, {| world := elapse seconds (world s);
               trace := trace s ++ [CSleep seconds] |}).
Proof.
  intros Hpos Hfit. unfold time_sleep. rewrite Hfit.
  by assert ((seconds <? 0) = false) as -> by by apply Z.ltb_ge.
Qed.

(** The host takes a length or not, whatever the state. *)
Lemma time_sleep_uniform (seconds : Z) :
  (0 <= seconds
   /\ sleep_refused W seconds = None
   /\ forall s, time_sleep seconds s
                = (Ok tt, {| world := elapse seconds (world s);
                             trace := trace s ++ [CSleep seconds] |}))
  \/ exists e,
       (0 <= seconds -> sleep_refused W seconds = Some e)
       /\ forall s, time_sleep seconds s = (Raise e, record (CSleep seconds) s).
Proof.
  unfold time_sleep.
  destruct (sleep_refused W seconds) as [e|]; [right; by exists e|].
  destruct (seconds <? 0) eqn:Hlt.
  - right. eexists. split; [|done]. apply Z.ltb_lt in Hlt. lia.
  - left. by apply Z.ltb_ge in Hlt.
Qed.

(** *** Rounds without filters *)

Lemma with_base_sg_filters_same l : with_base_sg_filters (base_sg_filters l) l = l.
Proof. by destruct l. Qed.

Lemma idle_call_not_event_log self c :
  idle_call self c -> is_event_log_query c = false.
Proof. by intros [-> | [-> | ->]]. Qed.

Lemma idle_round_calls_idle self : Forall (idle_call self) (idle_round_calls self).
Proof.
  unfold idle_round_calls.
  apply Forall_cons; split; [by left|].
  apply Forall_cons; split; [by right; left|].
  apply Forall_cons; split; [by right; right|].
  apply Forall_nil_2.
Qed.

(** A round without filters with a poll interval the host accepts: the
    message, the sleep, and the filters rebuilt from the state after it. *)
Lemma idle_round_rebuilds self l s :
  base_sg_filters l = [] ->
  0 <= shotgrid_polling_frequency (settings self) ->
  sleep_refused W (shotgrid_polling_frequency (settings self)) = None ->
  loop_body self (l, s)
  = match _build_shotgrid_filters self
            {| world := elapse (shotgrid_polling_frequency (settings self)) (world s);
               trace := trace s
                        ++ [CLog (LogWaiting 0 (shotgrid_polling_frequency (settings self)));
                            CSleep (shotgrid_polling_frequency (settings self))] |} with
    | (Ok filters, s1) => (Ok tt, (with_base_sg_filters filters l, s1))
    | (Raise e, s1) => (Raise e, (l, s1))
    end.
Proof.
  intros Hbase Hpos Hfit.
  unfold loop_body, bind at 1, get_local; cbn -[_build_shotgrid_filters time_sleep].
  rewrite Hbase.
  unfold bind, lift, log, record, set_base_sg_filters;
    cbn -[_build_shotgrid_filters time_sleep].
  rewrite time_sleep_accepted by done. cbn -[_build_shotgrid_filters].
  rewrite <- app_assoc. cbn -[_build_shotgrid_filters].
  by destruct (_build_shotgrid_filters self _) as [[filters|e] s1].
Qed.

Lemma idle_round self l s :
  base_sg_filters l = [] ->
  exists r f s' tr,
    loop_body self (l, s) = (r, (with_base_sg_filters f l, s'))
    /\ trace s' = trace s ++ tr
    /\ tr `prefix_of` idle_round_calls self
    /\ (is_Ok r = true -> tr = idle_round_calls self)
    /\ (is_Ok r = false -> f = []).
Proof.
  intros Hbase.
  unfold loop_body, bind at 1, get_local; cbn -[_build_shotgrid_filters].
  rewrite Hbase.
  unfold bind, lift, log, time_sleep, record, set_base_sg_filters, idle_round_calls;
    cbn -[_build_shotgrid_filters].
  assert (Hraised : forall e,
            exists (r : outcome unit) f s' tr,
              (Raise e,
               (l, {| world := world s;
                      trace := (trace s
                                ++ [CLog (LogWaiting 0
                                            (shotgrid_polling_frequency (settings self)))])
                               ++ [CSleep (shotgrid_polling_frequency (settings self))] |}))
              = (r, (with_base_sg_filters f l, s'))
              /\ trace s' = trace s ++ tr
              /\ tr `prefix_of` [CLog (LogWaiting 0
                                         (shotgrid_polling_frequency (settings self)));
                                 CSleep (shotgrid_polling_frequency (settings self));
                                 CFind auto_sync_projects]
              /\ (is_Ok r = true
                  -> tr = [CLog (LogWaiting 0
                                   (shotgrid_polling_frequency (settings self)));
                           CSleep (shotgrid_polling_frequency (settings self));
                           CFind auto_sync_projects])
              /\ (is_Ok r = false -> f = [])).
  { intros e. eexists (Raise e), [], _, [_; _].
    rewrite <- Hbase, with_base_sg_filters_same.
    split; [reflexivity|]. cbn. rewrite <- app_assoc.
    split; [done|]. split; [by eexists [_]|]. by split. }
  destruct (sleep_refused W _) as [e|]; [apply Hraised|].
  destruct (_ <? 0); [apply Hraised|]. clear Hraised.
  cbn -[_build_shotgrid_filters].
  unfold _build_shotgrid_filters, bind, find, ret; cbn -[truthy].
  destruct (sg_find auto_sync_projects _) as [[sg_projects|e] w]; cbn -[truthy].
  - destruct (negb (truthy (VList sg_projects))); [|destruct (truthy (VList _))];
      cbn; eexists (Ok tt), _, _, [_; _; _]; (split; [reflexivity|]); cbn;
      rewrite <- !app_assoc; by repeat split.
  - eexists (Raise e), [], _, [_; _; _]. rewrite <- Hbase, with_base_sg_filters_same.
    split; [reflexivity|]. cbn. rewrite <- !app_assoc. by repeat split.
Qed.

(** What [start_listening] does before the loop when no project has
    auto-sync on and the sink gives no cursor: it asks the source for its
    newest event, with no filter. *)
Lemma startup_without_filters self s0 w1 (records : list pyval) w2 (v : pyval) :
  sg_find auto_sync_projects (world s0) = (Ok [], w1) ->
  ayon_get_events ["shotgrid.leech"] ["hash"] w1 = (Ok records, w2) ->
  scan_hashes VNone records = Ok v ->
  truthy v = false ->
  trace (startup self s0).2
  = trace s0 ++ [CLog LogStart; CFind auto_sync_projects;
                 CGetEvents ["shotgrid.leech"] ["hash"]; CFindOne (newest_event [])]
  /\ forall l', (startup self s0).1 = Ok l' -> base_sg_filters l' = [].
Proof.
  intros Hfind Hsink Hscan Hv.
  unfold startup, _build_shotgrid_filters, _get_last_event_processed, bind, find,
    get_events, find_one, log, record, lift_outcome, ret; cbn.
  rewrite Hfind; cbn. rewrite Hsink; cbn. rewrite Hscan; cbn. rewrite Hv; cbn.
  destruct (sg_find_one (newest_event []) w2) as [[last_event|e] w3]; cbn.
  - destruct (py_getitem last_event "id") as [id|e]; cbn;
      rewrite <- !app_assoc; (split; [done|]); [by intros l' [= <-] | done].
  - rewrite <- !app_assoc. by split.
Qed.

(** C7 (amended). While the filter list is empty each round of the loop is
    the waiting message, the sleep of the poll interval and the query of the
    auto-sync projects that rebuilds the filters, in this order: the calls of
    [n] such rounds are [n] times these three (a beginning of them when a
    round raised), and none is a query of the event log.  A round with an
    interval the host accepts takes its filters from that rebuild.  Before
    the loop, however, [start_listening] resolves the cursor with the empty
    filter list: when the sink gives no cursor it queries the event log of
    the source, unfiltered. *)
Theorem idle_rounds_wait_and_rebuild self (n : nat) l s :
  let freq := shotgrid_polling_frequency (settings self) in
  base_sg_filters l = [] ->
  (base_sg_filters (run_loop self n (l, s)).2.1 = [] ->
   exists tr : list call,
     trace (run_loop self n (l, s)).2.2 = trace s ++ tr
     /\ tr `prefix_of` concat (replicate n (idle_round_calls self))
     /\ ((run_loop self n (l, s)).1 = Ok tt
         -> tr = concat (replicate n (idle_round_calls self)))
     /\ Forall (idle_call self) tr
     /\ Forall (fun c => is_event_log_query c = false) tr)
  /\ (0 <= freq -> sleep_refused W freq = None ->
      forall filters s1,
        _build_shotgrid_filters self
          {| world := elapse freq (world s);
             trace := trace s ++ [CLog (LogWaiting 0 freq); CSleep freq] |}
        = (Ok filters, s1) ->
        loop_body self (l, s) = (Ok tt, (with_base_sg_filters filters l, s1)))
  /\ (forall s0 w1 (records : list pyval) w2 (v : pyval),
        sg_find auto_sync_projects (world s0) = (Ok [], w1) ->
        ayon_get_events ["shotgrid.leech"] ["hash"] w1 = (Ok records, w2) ->
        scan_hashes VNone records = Ok v ->
        truthy v = false ->
        trace (startup self s0).2
        = trace s0 ++ [CLog LogStart; CFind auto_sync_projects;
                       CGetEvents ["shotgrid.leech"] ["hash"];
                       CFindOne (newest_event [])]
        /\ is_event_log_query (CFindOne (newest_event [])) = true
        /\ forall l', (startup self s0).1 = Ok l' -> base_sg_filters l' = []).
Proof.
  intros freq Hbase. split; [|split].
  - intros Hend.
    assert (Hweak : forall tr, tr `prefix_of` concat (replicate n (idle_round_calls self)) ->
              Forall (idle_call self) tr).
    { intros tr [k Hk].
      assert (Hall : Forall (idle_call self) (concat (replicate n (idle_round_calls self)))).
      { apply Forall_concat, Forall_replicate, idle_round_calls_idle. }
      rewrite Hk in Hall. by apply Forall_app in Hall as [? _]. }
    assert (Hmain : exists tr : list call,
              trace (run_loop self n (l, s)).2.2 = trace s ++ tr
              /\ tr `prefix_of` concat (replicate n (idle_round_calls self))
              /\ ((run_loop self n (l, s)).1 = Ok tt
                  -> tr = concat (replicate n (idle_round_calls self)))).
    2:{ destruct Hmain as (tr & Htr & Hpre & Hfull).
        exists tr. repeat split; [done..|by apply Hweak|].
        eapply Forall_impl; [by apply Hweak|]. apply idle_call_not_event_log. }
    clear Hweak. revert l s Hbase Hend.
    induction n as [|n IH]; intros l s Hbase Hend;
      cbn -[idle_round_calls loop_body] in *.
    { exists []. rewrite app_nil_r. by repeat split. }
    unfold bind in *.
    destruct (idle_round self l s Hbase)
      as (r & f & s1 & tr1 & Hround & Htr1 & Hpre1 & Hfull1 & Hf).
    rewrite Hround in *.
    destruct r as [[]|e]; cbn -[idle_round_calls loop_body] in *.
    + destruct f as [|f0 fs].
      * destruct (IH (with_base_sg_filters [] l) s1) as (tr2 & Htr2 & Hpre2 & Hfull2);
          [done..|].
        rewrite (Hfull1 eq_refl) in Htr1.
        exists (idle_round_calls self ++ tr2). rewrite Htr2, Htr1, app_assoc.
        split; [done|]. split; [by apply prefix_app|].
        intros Hok. by rewrite (Hfull2 Hok).
      * rewrite run_loop_keeps_filters in Hend; done.
    + exists tr1. split; [done|]. split; [by apply prefix_app_r|]. done.
  - intros Hpos Hfit filters s1 Hbuild.
    rewrite idle_round_rebuilds by done. fold freq. by rewrite Hbuild.
  - intros s0 w1 records w2 v Hfind Hsink Hscan Hv.
    destruct (startup_without_filters self s0 w1 records w2 v Hfind Hsink Hscan Hv)
      as [Htrace Hfilters].
    by repeat split.
Qed.

(** *** The [try] block *)




(** *** Events caused by an API user *)

Lemma truthy_dict (d : gmap string pyval) k v :
  d !! k = Some v -> truthy (VDict d) = true.
Proof.
  intros Hk. cbn. rewrite bool_decide_eq_false_2; [done|].
  intros Hsize%map_size_empty_iff. by rewrite Hsize, lookup_empty in Hk.
Qed.




(** *** Cursor recovery *)

(** C9. [_get_last_event_processed] is partial: when the sink has no event
    of the queried topic and the source has no matching event, it raises on
    subscripting [None]; when it returns, one of the two queries had
    produced a record. *)
Theorem cursor_recovery_is_partial self (sg_filters : list sg_filter) s :
  (forall w1 w2,
      ayon_get_events ["shotgrid.leech"] ["hash"] (world s) = (Ok [], w1) ->
      sg_find_one (newest_event sg_filters) w1 = (Ok VNone, w2) ->
      _get_last_event_processed self sg_filters s
      = (Raise (TypeError "object is not subscriptable"),
         {| world := w2;
            trace := trace s ++ [CGetEvents ["shotgrid.leech"] ["hash"];
                                 CFindOne (newest_event sg_filters)] |}))
  /\ (forall id s',
        _get_last_event_processed self sg_filters s = (Ok id, s') ->
        exists records w1,
          ayon_get_events ["shotgrid.leech"] ["hash"] (world s) = (Ok records, w1)
          /\ (records <> []
              \/ exists last_event w2,
                   sg_find_one (newest_event sg_filters) w1 = (Ok last_event, w2)
                   /\ last_event <> VNone)).
Proof.
  split.
  - intros w1 w2 Hsink Hsource.
    unfold _get_last_event_processed, bind, get_events, find_one, lift_outcome; cbn.
    rewrite Hsink; cbn. rewrite Hsource; cbn. by rewrite <- app_assoc.
  - intros id s'.
    unfold _get_last_event_processed, bind, get_events, find_one, lift_outcome; cbn.
    destruct (ayon_get_events _ _ (world s)) as [[records|e] w1]; [|done].
    destruct records as [|r rest]; [|intros _; exists (r :: rest), w1; by auto].
    cbn.
    destruct (sg_find_one (newest_event sg_filters) w1) as [[last_event|e] w2] eqn:Hsource;
      [|done].
    intros Hret. exists [], w1. split; [done|]. right.
    exists last_event, w2. split; [done|]. by intros ->.
Qed.

(** *** The translator *)

Lemma describe_inv (d : gmap string pyval) (user_name : pyval) (description : string) :
  describe (VDict d) = Ok (user_name, description) ->
  exists event_type,
    d !! "event_type" = Some event_type
    /\ match d !! "user" with
       | None => description = "Leeched " +:+ py_str event_type +:+ " by Undefined"
       | Some (VDict user) =>
           match user !! "name" with
           | None => description = "Leeched " +:+ py_str event_type +:+ " by Undefined"
           | Some name =>
               description
               = if truthy name
                 then "Leeched " +:+ py_str event_type +:+ " by " +:+ py_str name
                 else "Leeched " +:+ py_str event_type
           end
       | Some _ => False
       end.
Proof.
  unfold describe; cbn -[py_str].
  destruct (d !! "event_type") as [event_type|]; [|done].
  intros Hd. exists event_type. split; [done|].
  destruct (d !! "user") as [user|]; cbn -[py_str] in *.
  - destruct user; cbn -[py_str] in *; try done.
    destruct (_ !! "name") as [name|]; cbn -[py_str] in *; by simplify_eq.
  - by simplify_eq.
Qed.

(** C10. [send_shotgrid_event_to_ayon] changes the payload it is given:
    as soon as the description is made and ["created_at"] holds a datetime,
    that field holds its ISO string, whether or not a later step raises,
    and what is dispatched under ["sg_payload"] is the payload so changed.
    Every other field is left as it was, in every case; and the call
    returns only if ["created_at"] held a datetime. *)
Theorem send_only_rewrites_created_at (cfg : Settings) (d : gmap string pyval) s :
  let sent := send_shotgrid_event_to_ayon cfg (VDict d, s) in
  (exists d' : gmap string pyval,
     sent.2.1 = VDict d' /\ forall k, k <> "created_at" -> d' !! k = d !! k)
  /\ (forall named dt,
        describe (VDict d) = Ok named ->
        d !! "created_at" = Some (VDatetime dt) ->
        sent.2.1 = VDict (<["created_at" := VStr (isoformat dt)]> d)
        /\ exists tail : list dispatch_args,
             dispatches (trace sent.2.2) = dispatches (trace s) ++ tail
             /\ Forall (fun a => py_getitem (d_payload a) "sg_payload"
                                 = Ok (VDict (<["created_at" := VStr (isoformat dt)]> d)))
                  tail
             /\ (is_Ok sent.1 = true -> length tail = 1%nat))
  /\ (is_Ok sent.1 = true ->
      exists named dt,
        describe (VDict d) = Ok named /\ d !! "created_at" = Some (VDatetime dt)).
Proof.
  intros sent. subst sent. unfold_send.
  destruct (describe (VDict d)) as [named0|e] eqn:Hdescribe;
    cbn -[describe owning_project py_str list_to_map isoformat].
  2:{ split; [by exists d|]. by split. }
  destruct (d !! "created_at") as [created_at|] eqn:Hcreated;
    cbn -[describe owning_project py_str list_to_map isoformat].
  2:{ split; [by exists d|]. by split. }
  destruct created_at as [| | | |dt0| |];
    cbn -[describe owning_project py_str list_to_map isoformat];
    try (split; [by exists d|]; by split).
  assert (Hframe : forall k : string, k <> "created_at" ->
            <["created_at" := VStr (isoformat dt0)]> d !! k = d !! k)
    by by intros k Hk; rewrite lookup_insert_ne.
  assert (Hearly : forall tr : list call,
            tr = trace s \/ (exists q, tr = trace s ++ [CFindOne q]) ->
            (exists d' : gmap string pyval,
               VDict (<["created_at" := VStr (isoformat dt0)]> d) = VDict d'
               /\ forall k, k <> "created_at" -> d' !! k = d !! k)
            /\ (forall (named : pyval * string) dt,
                  Ok named0 = Ok named ->
                  Some (VDatetime dt0) = Some (VDatetime dt) ->
                  VDict (<["created_at" := VStr (isoformat dt0)]> d)
                  = VDict (<["created_at" := VStr (isoformat dt)]> d)
                  /\ exists tail : list dispatch_args,
                       dispatches tr = dispatches (trace s) ++ tail
                       /\ Forall (fun a => py_getitem (d_payload a) "sg_payload"
                                           = Ok (VDict (<["created_at"
                                                          := VStr (isoformat dt)]> d)))
                            tail
                       /\ (false = true -> length tail = 1%nat))
            /\ (false = true ->
                exists (named : pyval * string) dt,
                  Ok named0 = Ok named /\ Some (VDatetime dt0) = Some (VDatetime dt))).
  { intros tr Htrace.
    split; [by eexists|]. split; [|done].
    intros named dt _ [= <-]. split; [done|]. exists [].
    rewrite app_nil_r.
    split; [|split; [by constructor | done]].
    destruct Htrace as [-> | [q ->]]; [done|].
    rewrite dispatches_app. cbn. by rewrite app_nil_r. }
  on_outcome ltac:(apply Hearly; by left).
  destruct (sg_find_one _ (world s)) as [[sg_project|e] w];
    cbn -[describe owning_project py_str list_to_map isoformat];
    [|apply Hearly; right; by eexists].
  destruct (<["created_at" := VStr (isoformat dt0)]> d !! "id") as [event_hash|];
    cbn -[describe owning_project py_str list_to_map isoformat];
    [|apply Hearly; right; by eexists].
  on_outcome ltac:(apply Hearly; right; by eexists).
  clear Hearly.
  destruct (ayon_dispatch_event _ w) as [[[]|e] w'];
    cbn -[describe owning_project py_str list_to_map isoformat].
  - split; [by eexists|]. split; [|by eexists _, _].
    intros named dt _ [= <-]. split; [done|]. eexists [_].
    rewrite !dispatches_app; cbn -[list_to_map]; rewrite !app_nil_r.
    split; [reflexivity|]. split; [|done].
    constructor; [|constructor].
    cbn. rewrite !lookup_insert_ne by done. by rewrite lookup_insert_eq.
  - split; [by eexists|]. split; [|done].
    intros named dt _ [= <-]. split; [done|]. eexists [_].
    rewrite !dispatches_app; cbn -[list_to_map]; rewrite !app_nil_r.
    split; [reflexivity|]. split; [|done].
    constructor; [|constructor].
    cbn. rewrite !lookup_insert_ne by done. by rewrite lookup_insert_eq.
Qed.

(** C8 (amended). The description of a dispatched event is
    "Leeched <event_type> by <name>", where <name> is the name of the
    event's user, or "Undefined" when the event has no user entry or the
    user has no name entry; the plain "Leeched <event_type>" is used only
    when the name is present and false (empty or [None]). *)
Theorem description_names_user_or_undefined (cfg : Settings)
    (d : gmap string pyval) s (id : pyval) ls' :
  send_shotgrid_event_to_ayon cfg (VDict d, s) = (Ok id, ls') ->
  exists a event_type,
    dispatches (trace ls'.2) = dispatches (trace s) ++ [a]
    /\ d !! "event_type" = Some event_type
    /\ match d !! "user" with
       | None =>
           d_description a = "Leeched " +:+ py_str event_type +:+ " by Undefined"
       | Some (VDict user) =>
           match user !! "name" with
           | None =>
               d_description a
               = "Leeched " +:+ py_str event_type +:+ " by Undefined"
           | Some name =>
               d_description a
               = if truthy name
                 then "Leeched " +:+ py_str event_type +:+ " by " +:+ py_str name
                 else "Leeched " +:+ py_str event_type
           end
       | Some _ => False
       end.
Proof.
  unfold_send.
  destruct (describe (VDict d)) as [[user_name description]|e] eqn:Hdescribe;
    cbn -[describe owning_project py_str list_to_map isoformat]; [|done].
  apply describe_inv in Hdescribe as (event_type & Htype & Hdescription).
  destruct (d !! "created_at") as [created_at|];
    cbn -[describe owning_project py_str list_to_map isoformat]; [|done].
  on_outcome ltac:(done).
  on_outcome ltac:(done).
  destruct (sg_find_one _ (world s)) as [[sg_project|e] w];
    cbn -[describe owning_project py_str list_to_map isoformat]; [|done].
  destruct (_ !! "id") as [event_hash|];
    cbn -[describe owning_project py_str list_to_map isoformat]; [|done].
  on_outcome ltac:(done).
  destruct (ayon_dispatch_event _ w) as [[[]|e] w'];
    cbn -[describe owning_project py_str list_to_map isoformat]; [|done].
  intros [= <- <-]. eexists _, event_type.
  cbn -[py_str list_to_map]. rewrite !dispatches_app; cbn -[py_str list_to_map].
  rewrite !app_nil_r. split; [reflexivity|]. split; [done|]. exact Hdescription.
Qed.

(** *** Further behaviour of the loop body *)

(** The resume token of the sink is used as it is: no query of the source. *)
Lemma cursor_from_sink_history self (sg_filters : list sg_filter) s records w1 id :
  ayon_get_events ["shotgrid.leech"] ["hash"] (world s) = (Ok records, w1) ->
  scan_hashes VNone records = Ok id ->
  truthy id = true ->
  _get_last_event_processed self sg_filters s
  = (Ok id, {| world := w1;
               trace := trace s ++ [CGetEvents ["shotgrid.leech"] ["hash"]] |}).
Proof.
  intros Hsink Hscan Hid.
  unfold _get_last_event_processed, bind, get_events, lift_outcome, ret; cbn.
  by rewrite Hsink; cbn; rewrite Hscan; cbn; rewrite Hid.
Qed.

(** An event neither condition accepts keeps the cursor of the event before
    it; if that cursor is known, the event is handed to [self.func]. *)
Lemma untracked_event_with_cursor self l s (event : pyval) :
  truthy event = true ->
  is_custom_attrib_change self event = Ok false ->
  is_supported_event (supported_event_types l) event = Ok false ->
  truthy (last_event_id l) = true ->
  process_event self event (l, s)
  = (do id <- lift (call_func self event); set_last_event_id id) (l, s).
Proof.
  intros Hevent Hchange Hsupported Hcursor.
  unfold process_event. rewrite Hevent; cbn -[call_func].
  unfold bind at 1, classify, bind at 1, get_local; cbn -[call_func].
  unfold bind at 1, lift_outcome. rewrite Hchange.
  unfold bind at 1. rewrite Hsupported. unfold ret.
  unfold bind at 1. cbn -[call_func]. by rewrite Hcursor.
Qed.

(** A tracked event not caused by an API user: its id is assigned to the
    cursor before [self.func] is called, and stays there when the call
    raises. *)
Lemma cursor_assigned_before_dispatch self l s (d : gmap string pyval) (id : pyval) e s1 :
  tracked self (supported_event_types l) (VDict d) ->
  _is_api_user_event (VDict d) = Ok VNone ->
  d !! "id" = Some id ->
  truthy id = true ->
  func self (VDict d) {| world := world s; trace := [] |} = (Raise e, s1) ->
  process_event self (VDict d) (l, s)
  = (Raise e,
     (with_last_event_id id l,
      {| world := world s1; trace := trace s ++ [CFunc (VDict d) (trace s1)] |})).
Proof.
  intros Htracked Hapi Hid Htruthy Hfunc.
  unfold process_event. rewrite (truthy_dict _ _ _ Hid). cbn -[classify].
  unfold bind at 1.
  assert (classify self (VDict d) (l, s) = (Ok tt, (with_last_event_id id l, s))) as ->.
  { assert (Hmark : mark_event (VDict d) (l, s) = (Ok tt, (with_last_event_id id l, s))).
    { unfold mark_event, bind, lift_outcome, set_last_event_id. rewrite Hapi. cbn.
      by rewrite Hid. }
    unfold classify, bind at 1, get_local. cbn -[mark_event].
    unfold bind at 1, lift_outcome.
    destruct Htracked as [-> | [-> Hsup]]; [done|].
    unfold bind, lift_outcome. by rewrite Hsup. }
  unfold bind, get_local, lift, call_func.
  cbn [fst snd last_event_id with_last_event_id world trace].
  rewrite Htruthy. cbn [negb fst snd world trace]. by rewrite Hfunc.
Qed.

End Facts.

(** ** Runs on the simulated deployment *)

Import Sim.

(** In the simulated deployment no dispatch of the translator ever shows up
    under the topic the cursor recovery reads. *)
Lemma leech_history_unchanged_by_send (c : Settings) (payload : pyval) (s : sys World) :
  history ["shotgrid.leech"] (world (send_shotgrid_event_to_ayon c (payload, s)).2.2)
  = history ["shotgrid.leech"] (world s).
Proof.
  unfold_send.
  repeat (match goal with
          | |- context [match ?r with Ok _ => _ | Raise _ => _ end] =>
              destruct r;
              cbn -[describe owning_project py_str list_to_map isoformat]
          | |- context [if sg_online ?w then _ else _] =>
              destruct (sg_online w);
              cbn -[describe owning_project py_str list_to_map isoformat]
          end; try done).
  all: unfold history; cbn; rewrite omap_app; cbn; by rewrite app_nil_r.
Qed.

(** C1. After [send_shotgrid_event_to_ayon] has dispatched event 41 with
    success, the sink holds the record under topic "shotgrid.event"; the
    cursor recovery reads topic "shotgrid.leech", finds nothing, queries
    the source and resumes from its newest event, 42, not from 41. *)
Lemma dispatch_is_invisible_to_cursor_recovery :
  let w := site [shot_new_41; status_change_42] [] [] in
  let sent := default_func (cfg ["Shot"]) shot_new_41 (boot w) in
  let restart := start_listening leecher 0 (boot (world sent.2)) in
  sent.1 = Ok (VInt 41)
  /\ ayon_events (world sent.2) = [("shotgrid.event", VStr "41")]
  /\ history ["shotgrid.leech"] (world sent.2) = []
  /\ cursor_after restart.1 = Some (VInt 42)
  /\ existsb is_event_log_query (trace restart.2) = true.
Proof. vm_compute. by repeat split. Qed.



(** C3. With no entity type enabled, event 44 ("Shotgun_Shot_New") meets
    neither condition of the loop body; the cursor is known (41), so the
    event is handed to [self.func], dispatched, and becomes the cursor. *)
Lemma untracked_event_is_dispatched :
  let self := leecher_no_entities in
  let ran := start_listening self 2 (boot (site [shot_new_41] [shot_new_44] [])) in
  is_custom_attrib_change self shot_new_44 = Ok false
  /\ is_supported_event (_get_supported_event_types self) shot_new_44 = Ok false
  /\ poll_cursors (trace ran.2) = [VInt 41; VInt 41]
  /\ dispatched (trace ran.2) = [shot_new_44]
  /\ ayon_events (world ran.2) = [("shotgrid.event", VStr "44")]
  /\ cursor_after ran.1 = Some (VInt 44).
Proof. vm_compute. by repeat split. Qed.

Lemma dispatch_follows_batch_order_witness :
  let batch := [status_change_42; status_change_43; shot_new_44] in
  let l := polling leecher (VInt 41) in
  let s := boot (site [shot_new_41] [] []) in
  StronglySorted Z.le (event_ids batch)
  /\ exists evs : list pyval,
       dispatched (trace (process_events leecher batch (l, s)).2.2)
         = dispatched (trace s) ++ evs
       /\ evs `sublist_of` batch
       /\ event_ids evs `sublist_of` event_ids batch
       /\ StronglySorted Z.le (event_ids evs).
Proof.
  intros batch l s.
  assert (Hsorted : StronglySorted Z.le (event_ids batch)).
  { change (event_ids batch) with [42; 43; 44]. repeat first [lia | constructor]. }
  split; [done|]. by apply dispatch_follows_batch_order.
Defined.

(** C6. [self.func] fails on event 42.  The cursor already holds 42 when
    the call is made and keeps it: the next poll asks for ids above 42, the
    event is not fetched again, and nothing reaches the sink. *)
Lemma failed_dispatch_advances_cursor :
  let ran := start_listening leecher_failing 3
               (boot (site [shot_new_41] [status_change_42] [])) in
  poll_cursors (trace ran.2) = [VInt 41; VInt 41; VInt 42]
  /\ dispatched (trace ran.2) = [status_change_42]
  /\ ayon_events (world ran.2) = []
  /\ cursor_after ran.1 = Some (VInt 42).
Proof. vm_compute. by repeat split. Qed.

(** C7, as stated, fails before the loop: no project has auto-sync on and
    the sink has no record, so [start_listening] resolves the cursor with
    an unfiltered query of the event log, and enters the loop with the
    empty filter list. *)
Lemma startup_queries_event_log_without_filters :
  let started := startup leecher (boot (idle_site true)) in
  started.1 = Ok (waiting leecher (VInt 41))
  /\ base_sg_filters (waiting leecher (VInt 41)) = []
  /\ filter (fun c => is_event_log_query c = true) (trace started.2)
     = [CFindOne (newest_event [])].
Proof. vm_compute. by repeat split. Qed.

Lemma idle_rounds_wait_and_rebuild_witness :
  let l := waiting leecher (VInt 41) in
  let s := boot (idle_site true) in
  let freq := shotgrid_polling_frequency (settings leecher) in
  let slept := {| world := elapse freq (world s);
                  trace := trace s ++ [CLog (LogWaiting 0 freq); CSleep freq] |} in
  (base_sg_filters l = []
   /\ base_sg_filters (run_loop leecher 3 (l, s)).2.1 = []
   /\ (run_loop leecher 3 (l, s)).1 = Ok tt
   /\ 0 <= freq
   /\ sleep_refused World freq = None
   /\ _build_shotgrid_filters leecher slept
      = (Ok [], (_build_shotgrid_filters leecher slept).2)
   /\ sg_find auto_sync_projects (world s) = (Ok [], world s)
   /\ ayon_get_events ["shotgrid.leech"] ["hash"] (world s) = (Ok [], world s)
   /\ scan_hashes VNone [] = Ok VNone
   /\ truthy VNone = false)
  /\ trace (run_loop leecher 3 (l, s)).2.2
     = trace s ++ concat (replicate 3 (idle_round_calls leecher))
  /\ (loop_body leecher (l, s)).1 = Ok tt
  /\ trace (startup leecher s).2
     = trace s ++ [CLog LogStart; CFind auto_sync_projects;
                   CGetEvents ["shotgrid.leech"] ["hash"];
                   CFindOne (newest_event [])].
Proof.
  intros l s freq slept.
  assert (Hstart : base_sg_filters l = []) by reflexivity.
  assert (Hend : base_sg_filters (run_loop leecher 3 (l, s)).2.1 = [])
    by (vm_compute; reflexivity).
  assert (Hran : (run_loop leecher 3 (l, s)).1 = Ok tt) by (vm_compute; reflexivity).
  assert (Hfreq : 0 <= freq) by (vm_compute; discriminate).
  assert (Hfit : sleep_refused World freq = None) by (vm_compute; reflexivity).
  assert (Hbuild : _build_shotgrid_filters leecher slept
                   = (Ok [], (_build_shotgrid_filters leecher slept).2))
    by (vm_compute; reflexivity).
  assert (Hfind : sg_find auto_sync_projects (world s) = (Ok [], world s))
    by (vm_compute; reflexivity).
  assert (Hsink : ayon_get_events ["shotgrid.leech"] ["hash"] (world s)
                  = (Ok [], world s)) by (vm_compute; reflexivity).
  assert (Hscan : scan_hashes VNone [] = Ok VNone) by reflexivity.
  assert (Hnone : truthy VNone = false) by reflexivity.
  split; [exact (conj Hstart (conj Hend (conj Hran (conj Hfreq (conj Hfit (conj Hbuild
                  (conj Hfind (conj Hsink (conj Hscan Hnone)))))))))|].
  destruct (idle_rounds_wait_and_rebuild leecher 3 l s Hstart)
    as (Hrounds & Hround & Hstartup).
  split; [|split].
  - destruct (Hrounds Hend) as (tr & Htrace & _ & Hfull & _).
    rewrite <- (Hfull Hran). exact Htrace.
  - exact (f_equal fst (Hround Hfreq Hfit [] _ Hbuild)).
  - exact (proj1 (Hstartup s (world s) [] (world s) VNone Hfind Hsink Hscan Hnone)).
Defined.

(** C8, as stated, fails: event 44 has no user entry, and its description
    still ends in a user name, "Undefined". *)
Lemma description_without_user_names_undefined :
  let w := site [shot_new_41; shot_new_44] [] [] in
  let sent := send_shotgrid_event_to_ayon (cfg ["Shot"]) (shot_new_44, boot w) in
  fields 44 "Shotgun_Shot_New" VNone by_hand [] !! "user" = None
  /\ sent.1 = Ok (VInt 44)
  /\ d_description <$> dispatches (trace sent.2.2)
     = ["Leeched Shotgun_Shot_New by Undefined"]
  /\ "Leeched Shotgun_Shot_New by Undefined" <> "Leeched Shotgun_Shot_New".
Proof. vm_compute. by repeat split. Qed.

Lemma description_names_user_or_undefined_witness :
  let d := fields 42 "Shotgun_Shot_Change" (VStr "sg_status_list") by_hand
             [("user", artist)] in
  let s := boot (site [shot_new_41; status_change_42] [] []) in
  let sent := send_shotgrid_event_to_ayon (cfg ["Shot"]) (VDict d, s) in
  sent = (Ok (VInt 42), sent.2)
  /\ exists a, dispatches (trace sent.2.2) = dispatches (trace s) ++ [a]
               /\ d_description a = "Leeched Shotgun_Shot_Change by Ada".
Proof.
  intros d s sent.
  assert (Hsent : sent = (Ok (VInt 42), sent.2)) by (vm_compute; reflexivity).
  split; [done|].
  destruct (description_names_user_or_undefined (cfg ["Shot"]) d s (VInt 42) sent.2 Hsent)
    as (a & event_type & Hdispatch & Htype & Hdescription).
  exists a. split; [done|].
  assert (event_type = VStr "Shotgun_Shot_Change") as ->
    by (vm_compute in Htype; congruence).
  vm_compute in Hdescription. exact Hdescription.
Defined.

Lemma cursor_recovery_is_partial_witness :
  let s := boot (site [] [] []) in
  (ayon_get_events ["shotgrid.leech"] ["hash"] (world s) = (Ok [], world s)
   /\ sg_find_one (newest_event []) (world s) = (Ok VNone, world s))
  /\ (_get_last_event_processed leecher [] s).1
     = Raise (TypeError "object is not subscriptable").
Proof.
  intros s.
  assert (Hsink : ayon_get_events ["shotgrid.leech"] ["hash"] (world s)
                  = (Ok [], world s)) by reflexivity.
  assert (Hsource : sg_find_one (newest_event []) (world s) = (Ok VNone, world s))
    by reflexivity.
  split; [done|].
  by rewrite (proj1 (cursor_recovery_is_partial leecher [] s) _ _ Hsink Hsource).
Defined.

(** The scenario of the specification: a sink record of the leecher's topic
    with hash "100" is the cursor, and the source is not queried. *)
Example cursor_100_from_sink :
  let s := boot (site [shot_new_41] [] [("shotgrid.leech", VStr "100")]) in
  (_get_last_event_processed leecher [] s).1 = Ok (VInt 100)
  /\ trace (_get_last_event_processed leecher [] s).2
     = [CGetEvents ["shotgrid.leech"] ["hash"]].
Proof. by vm_compute. Qed.

(** A round of the deployed listener: 42 is dispatched, 43 was caused by an
    API user and is ignored, 44 is dispatched. *)
Example one_batch :
  let ran := start_listening leecher 2
    (boot (site [shot_new_41] [status_change_42; status_change_43; shot_new_44] [])) in
  dispatched (trace ran.2) = [status_change_42; shot_new_44]
  /\ ayon_events (world ran.2)
     = [("shotgrid.event", VStr "42"); ("shotgrid.event", VStr "44")]
  /\ cursor_after ran.1 = Some (VInt 44).
Proof. vm_compute. by repeat split. Qed.

Lemma send_only_rewrites_created_at_witness :
  let d := fields 42 "Shotgun_Shot_Change" (VStr "sg_status_list") by_hand
             [("user", artist)] in
  let unknown := send_shotgrid_event_to_ayon (cfg ["Shot"])
                   (VDict d, boot (idle_site true)) in
  let s := boot (site [shot_new_41; status_change_42] [] []) in
  let sent := send_shotgrid_event_to_ayon (cfg ["Shot"]) (VDict d, s) in
  (describe (VDict d) = Ok (VStr "Ada", "Leeched Shotgun_Shot_Change by Ada")
   /\ d !! "created_at" = Some (VDatetime noon)
   /\ is_Ok sent.1 = true)
  /\ is_Ok unknown.1 = false
  /\ unknown.2.1 = VDict (<["created_at" := VStr (isoformat noon)]> d)
  /\ sent.2.1 = VDict (<["created_at" := VStr (isoformat noon)]> d)
  /\ exists tail : list dispatch_args,
       dispatches (trace sent.2.2) = dispatches (trace s) ++ tail
       /\ Forall (fun a => py_getitem (d_payload a) "sg_payload"
                           = Ok (VDict (<["created_at" := VStr (isoformat noon)]> d)))
            tail
       /\ length tail = 1%nat.
Proof.
  intros d unknown s sent.
  assert (Hnamed : describe (VDict d)
                   = Ok (VStr "Ada", "Leeched Shotgun_Shot_Change by Ada"))
    by (vm_compute; reflexivity).
  assert (Hcreated : d !! "created_at" = Some (VDatetime noon))
    by (vm_compute; reflexivity).
  assert (Hsent : is_Ok sent.1 = true) by (vm_compute; reflexivity).
  split; [exact (conj Hnamed (conj Hcreated Hsent))|].
  split; [vm_compute; reflexivity|].
  destruct (send_only_rewrites_created_at (cfg ["Shot"]) d (boot (idle_site true)))
    as (_ & Hunknown & _).
  split; [exact (proj1 (Hunknown _ noon Hnamed Hcreated))|].
  destruct (send_only_rewrites_created_at (cfg ["Shot"]) d s) as (_ & Hrewritten & _).
  destruct (Hrewritten _ noon Hnamed Hcreated) as (Hpayload & tail & Htail & Hall & Hone).
  split; [exact Hpayload|].
  exists tail. exact (conj Htail (conj Hall (Hone Hsent))).
Defined.

(** The ISO string that replaces the datetime of event 42. *)
Example created_at_of_42 :
  let sent := send_shotgrid_event_to_ayon (cfg ["Shot"])
                (status_change_42, boot (site [shot_new_41; status_change_42] [] [])) in
  py_getitem sent.2.1 "created_at" = Ok (VStr "2024-05-17T12:00:00")
  /\ py_getitem status_change_42 "created_at" = Ok (VDatetime noon).
Proof. by vm_compute. Qed.

(** Strings, numbers and dates; [int] is that of the simulated deployment. *)

Example ends_with_change : ends_with "Shotgun_Shot_Change" "_Change" = true.
Proof. reflexivity. Qed.

Example replace_sg : str_replace "sg_" "" "sg_status_list" = "status_list".
Proof. reflexivity. Qed.

Example replace_all : str_replace "sg_" "" "sg_a_sg_b" = "a_b".
Proof. reflexivity. Qed.

Example int_of_hash : py_int (VStr "100") = Ok 100.
Proof. reflexivity. Qed.

Example int_of_padded : py_int (VStr " -1_000 ") = Ok (-1000).
Proof. reflexivity. Qed.

Example int_of_junk : is_Ok (py_int (VStr "1__0")) = false.
Proof. reflexivity. Qed.

Example isoformat_aware :
  isoformat {| dt_year := 2024; dt_month := 3; dt_day := 7; dt_hour := 9;
               dt_minute := 5; dt_second := 0; dt_microsecond := 120;
               dt_utcoffset := Some (-19800) |}
  = "2024-03-07T09:05:00.000120-05:30".
Proof. reflexivity. Qed.

(** ** Further facts *)

Section MoreFacts.

Context {W : Type} `{!Collaborators W} `{!Builtins} `{!Constants}.

Implicit Types (self : ShotgridListener W) (s : sys W) (l : locals).

(** *** Supported event types and filters *)

Lemma supported_event_type_iff self (event_type : string) :
  event_type ∈ _get_supported_event_types self
  <-> exists entity_type event_name,
        entity_type ∈ sg_enabled_entities (settings self)
        /\ event_name ∈ SG_EVENT_TYPES
        /\ event_type = str_format event_name entity_type.
Proof.
  unfold _get_supported_event_types. rewrite list_elem_of_In, in_flat_map. split.
  - intros (entity_type & Hentity & Hin).
    apply in_map_iff in Hin as (event_name & <- & Hname).
    exists entity_type, event_name. by rewrite !list_elem_of_In.
  - intros (entity_type & event_name & Hentity & Hname & ->).
    exists entity_type. rewrite <- list_elem_of_In. split; [done|].
    apply in_map_iff. exists event_name. by rewrite <- list_elem_of_In.
Qed.

Lemma py_in_strs_true (v : pyval) (strs : list string) :
  py_in_strs v strs = true <-> exists str, v = VStr str /\ str ∈ strs.
Proof.
  unfold py_in_strs. rewrite existsb_exists. split.
  - intros (str & Hin & Heq). destruct v; try done. cbn in Heq.
    apply String.eqb_eq in Heq as ->. exists str. by rewrite list_elem_of_In.
  - intros (str & -> & Hin). exists str. rewrite <- list_elem_of_In.
    split; [done|]. cbn. apply String.eqb_refl.
Qed.

(** X1. The [elif] of the loop body accepts an event exactly when its
    event type is a string obtained by formatting a template of
    [SG_EVENT_TYPES] with an enabled entity type. *)
Theorem supported_event_accepted_iff self (d : gmap string pyval) :
  is_supported_event (_get_supported_event_types self) (VDict d) = Ok true
  <-> exists entity_type event_name,
        entity_type ∈ sg_enabled_entities (settings self)
        /\ event_name ∈ SG_EVENT_TYPES
        /\ d !! "event_type" = Some (VStr (str_format event_name entity_type)).
Proof.
  unfold is_supported_event; cbn. split.
  - destruct (d !! "event_type") as [event_type|]; [|done].
    intros [= Hin]. apply py_in_strs_true in Hin as (str & -> & Hin).
    apply supported_event_type_iff in Hin as (entity_type & event_name & ? & ? & ->).
    by exists entity_type, event_name.
  - intros (entity_type & event_name & Hentity & Hname & ->). f_equal.
    apply py_in_strs_true. eexists. split; [done|].
    apply supported_event_type_iff. by exists entity_type, event_name.
Qed.

(** X2. When the project query answers, [_build_shotgrid_filters] makes no
    other call; the filters are empty exactly when no project has auto-sync
    on; otherwise they are the project filter over the projects returned,
    followed by the event-type filter unless no event type is supported. *)
Theorem build_filters_result self s (sg_projects : list pyval) w :
  sg_find auto_sync_projects (world s) = (Ok sg_projects, w) ->
  exists filters,
    _build_shotgrid_filters self s
    = (Ok filters, {| world := w; trace := trace s ++ [CFind auto_sync_projects] |})
    /\ (filters = [] <-> sg_projects = [])
    /\ (sg_projects <> [] ->
        filters
        = Filter "project" "in" (VList sg_projects)
          :: match _get_supported_event_types self with
             | [] => []
             | types => [Filter "event_type" "in" (VList (VStr <$> types))]
             end).
Proof.
  intros Hfind. unfold _build_shotgrid_filters, bind, find, ret. rewrite Hfind.
  destruct sg_projects as [|p ps]; cbn.
  - by exists [].
  - destruct (_get_supported_event_types self) as [|t ts]; cbn.
    + eexists. split; [done|]. by split.
    + eexists. split; [done|]. by split.
Qed.

(** *** Cursor recovery *)

Lemma scan_hashes_app (v : pyval) (rs1 rs2 : list pyval) :
  scan_hashes v (rs1 ++ rs2)
  = match scan_hashes v rs1 with
    | Ok v' => scan_hashes v' rs2
    | Raise e => Raise e
    end.
Proof.
  revert v. induction rs1 as [|r rs1 IH]; intros v; cbn; [done|].
  destruct (py_getitem r "hash") as [h|e]; [|done].
  by destruct (py_int h).
Qed.

(** X3. When every record of the sink's history carries a hash that
    [int] accepts, the cursor is the hash of the last record, provided it
    is not zero; the source is not queried. *)
Theorem cursor_is_last_sink_hash self (sg_filters : list sg_filter) s
    (records : list pyval) (last : pyval) w1 (h : pyval) (id : Z) :
  ayon_get_events ["shotgrid.leech"] ["hash"] (world s) = (Ok (records ++ [last]), w1) ->
  is_Ok (scan_hashes VNone records) = true ->
  py_getitem last "hash" = Ok h ->
  py_int h = Ok id ->
  id <> 0 ->
  _get_last_event_processed self sg_filters s
  = (Ok (VInt id),
     {| world := w1; trace := trace s ++ [CGetEvents ["shotgrid.leech"] ["hash"]] |}).
Proof.
  intros Hsink Hscan Hhash Hint Hid.
  apply cursor_from_sink_history with (records ++ [last]); [done| |].
  - rewrite scan_hashes_app. destruct (scan_hashes VNone records); [|done].
    cbn. by rewrite Hhash, Hint.
  - cbn. by apply negb_true_iff, Z.eqb_neq.
Qed.

(** X4. A last hash of zero counts as no cursor: the source is asked for
    its newest matching event and the id of that event is returned. *)
Theorem zero_hash_falls_back_to_source self (sg_filters : list sg_filter) s
    (records : list pyval) w1 (last_event : gmap string pyval) w2 (id : pyval) :
  ayon_get_events ["shotgrid.leech"] ["hash"] (world s) = (Ok records, w1) ->
  scan_hashes VNone records = Ok (VInt 0) ->
  sg_find_one (newest_event sg_filters) w1 = (Ok (VDict last_event), w2) ->
  last_event !! "id" = Some id ->
  _get_last_event_processed self sg_filters s
  = (Ok id,
     {| world := w2;
        trace := trace s ++ [CGetEvents ["shotgrid.leech"] ["hash"];
                             CFindOne (newest_event sg_filters)] |}).
Proof.
  intros Hsink Hscan Hsource Hid.
  unfold _get_last_event_processed, bind, get_events, find_one, lift_outcome, ret; cbn.
  rewrite Hsink; cbn. rewrite Hscan; cbn. rewrite Hsource; cbn. rewrite Hid.
  by rewrite <- app_assoc.
Qed.

(** X5. A record of the sink without a hash, or with a hash [int] rejects,
    makes the recovery raise what the subscript or [int] raised, once the
    records before it have been read; the records after it are not read and
    the source is not asked instead. *)
Theorem bad_sink_record_stops_recovery self (sg_filters : list sg_filter) s
    (before : list pyval) (r : pyval) (after : list pyval) w1 (e : exn) :
  ayon_get_events ["shotgrid.leech"] ["hash"] (world s)
  = (Ok (before ++ r :: after), w1) ->
  is_Ok (scan_hashes VNone before) = true ->
  (py_getitem r "hash" = Raise e
   \/ exists h, py_getitem r "hash" = Ok h /\ py_int h = Raise e) ->
  _get_last_event_processed self sg_filters s
  = (Raise e,
     {| world := w1; trace := trace s ++ [CGetEvents ["shotgrid.leech"] ["hash"]] |}).
Proof.
  intros Hsink Hbefore Hbad.
  unfold _get_last_event_processed, bind, get_events, lift_outcome; cbn.
  rewrite Hsink; cbn. rewrite scan_hashes_app.
  destruct (scan_hashes VNone before) as [v|e']; [|done]. cbn.
  destruct Hbad as [-> | (h & -> & ->)]; done.
Qed.

(** What the recovery adds to the trace. *)
Lemma recovery_trace self (sg_filters : list sg_filter) s :
  let after := (_get_last_event_processed self sg_filters s).2 in
  trace after = trace s ++ [CGetEvents ["shotgrid.leech"] ["hash"]]
  \/ trace after = trace s ++ [CGetEvents ["shotgrid.leech"] ["hash"];
                               CFindOne (newest_event sg_filters)].
Proof.
  unfold _get_last_event_processed, bind, get_events, find_one, lift_outcome, ret; cbn.
  destruct (ayon_get_events _ _ (world s)) as [[records|e] w1]; cbn; [|by left].
  destruct (scan_hashes VNone records) as [v|e]; cbn; [|by left].
  destruct (truthy v); cbn; [by left|].
  destruct (sg_find_one _ w1) as [[last_event|e] w2]; cbn;
    right; by rewrite <- app_assoc.
Qed.

(** X6. The recovery only reads: it asks the sink once for the history of
    "shotgrid.leech" and makes no other call, except that it asks the
    source once for the newest matching event exactly when the sink
    answered and its records gave no true cursor. *)
Theorem cursor_recovery_only_reads self (sg_filters : list sg_filter) s :
  exists tr,
    trace (_get_last_event_processed self sg_filters s).2 = trace s ++ tr
    /\ (tr = [CGetEvents ["shotgrid.leech"] ["hash"]]
        \/ tr = [CGetEvents ["shotgrid.leech"] ["hash"];
                 CFindOne (newest_event sg_filters)])
    /\ (tr = [CGetEvents ["shotgrid.leech"] ["hash"]; CFindOne (newest_event sg_filters)]
        <-> exists records w1 v,
              ayon_get_events ["shotgrid.leech"] ["hash"] (world s) = (Ok records, w1)
              /\ scan_hashes VNone records = Ok v
              /\ truthy v = false).
Proof.
  unfold _get_last_event_processed, bind, get_events, find_one, lift_outcome, ret; cbn.
  destruct (ayon_get_events _ _ (world s)) as [[records|e] w1]; cbn.
  2:{ eexists. split; [done|]. split; [by left|]. split; [done|].
      by intros (? & ? & ? & ? & _). }
  destruct (scan_hashes VNone records) as [v|e] eqn:Hscan; cbn.
  2:{ eexists. split; [done|]. split; [by left|]. split; [done|].
      intros (? & ? & ? & [= <- <-] & ? & _). congruence. }
  destruct (truthy v) eqn:Htrue; cbn.
  { eexists. split; [done|]. split; [by left|]. split; [done|].
    intros (? & ? & ? & [= <- <-] & ? & ?). congruence. }
  destruct (sg_find_one _ w1) as [[last_event|e] w2]; cbn;
    eexists; rewrite <- app_assoc; (split; [done|]); (split; [by right|]);
    (split; [|done]); intros _; by exists records, w1, v.
Qed.

(** *** The translator, continued *)

Lemma owning_project_inv (d : gmap string pyval) (project_name project_id : pyval) :
  owning_project (VDict d) = Ok (project_name, project_id) ->
  exists owner : gmap string pyval,
    (d !! (if about_project d then "entity" else "project") = Some (VDict owner)
     \/ (d !! (if about_project d then "entity" else "project") = None /\ owner = ∅))
    /\ project_name = default (VStr "Undefined") (owner !! "name")
    /\ project_id = default (VStr "Undefined") (owner !! "id").
Proof.
  unfold owning_project, about_project; cbn.
  destruct (d !! "meta") as [meta|] eqn:Hmeta; cbn.
  - destruct meta; cbn; try done.
    match goal with |- context [if ?b then "entity" else "project"] =>
      generalize (if b then "entity" else "project") end.
    intros key. destruct (d !! key) as [owner|]; cbn.
    + destruct owner; cbn; try done. intros [= <- <-]. eexists. by split; [left|].
    + intros [= <- <-]. exists ∅. by split; [right|].
  - rewrite lookup_empty. cbn.
    destruct (d !! "project") as [owner|]; cbn.
    + destruct owner; cbn; try done. intros [= <- <-]. eexists. by split; [left|].
    + intros [= <- <-]. exists ∅. by split; [right|].
Qed.

Lemma owning_project_frame (d : gmap string pyval) (v : pyval) :
  owning_project (VDict (<["created_at" := v]> d)) = owning_project (VDict d).
Proof.
  unfold owning_project; cbn. rewrite (lookup_insert_ne d "created_at" "meta") by done.
  destruct (py_get (default (VDict ∅) (d !! "meta")) "entity_type" _) as [entity_type|];
    [|done].
  by destruct (py_eq_str entity_type "Project"); rewrite lookup_insert_ne by done.
Qed.

(** A successful run of the translator, step by step. *)
Lemma send_success_inv (cfg : Settings) (d : gmap string pyval) s (id : pyval) ls' :
  send_shotgrid_event_to_ayon cfg (VDict d, s) = (Ok id, ls') ->
  exists user_name description dt project_name project_id sg_project w project_code w',
    let d' := <["created_at" := VStr (isoformat dt)]> d in
    let q := project_by_id project_id (sg_project_code_field cfg) in
    let a := {| d_topic := "shotgrid.event";
                d_sender := gethostname w;
                d_event_hash := id;
                d_project_name := project_name;
                d_username := user_name;
                d_description := description;
                d_summary := VNone;
                d_payload := VDict (list_to_map
                  [("action", VStr "shotgrid-event");
                   ("user_name", user_name);
                   ("project_name", project_name);
                   ("project_code", project_code);
                   ("project_code_field", VStr (sg_project_code_field cfg));
                   ("sg_payload", VDict d')]) |} in
    describe (VDict d) = Ok (user_name, description)
    /\ d !! "created_at" = Some (VDatetime dt)
    /\ owning_project (VDict d) = Ok (project_name, project_id)
    /\ sg_find_one q (world s) = (Ok sg_project, w)
    /\ d !! "id" = Some id
    /\ py_get sg_project (sg_project_code_field cfg) VNone = Ok project_code
    /\ ayon_dispatch_event a w = (Ok tt, w')
    /\ ls' = (VDict d',
              {| world := w';
                 trace := trace s ++ [CFindOne q; CDispatch a;
                                       CLog (LogDispatched (VDict d'))] |}).
Proof.
  unfold_send.
  destruct (describe (VDict d)) as [[user_name description]|e] eqn:Hdescribe;
    cbn -[describe owning_project py_str list_to_map isoformat]; [|done].
  destruct (d !! "created_at") as [created_at|];
    cbn -[describe owning_project py_str list_to_map isoformat]; [|done].
  destruct created_at as [| | | |dt| |];
    cbn -[describe owning_project py_str list_to_map isoformat]; try done.
  rewrite owning_project_frame.
  destruct (owning_project (VDict d)) as [[project_name project_id]|e] eqn:Hproject;
    cbn -[describe owning_project py_str list_to_map isoformat]; [|done].
  destruct (sg_find_one _ (world s)) as [[sg_project|e] w] eqn:Hfind;
    cbn -[describe owning_project py_str list_to_map isoformat]; [|done].
  rewrite (lookup_insert_ne d "created_at" "id") by done.
  destruct (d !! "id") as [event_hash|];
    cbn -[describe owning_project py_str list_to_map isoformat]; [|done].
  destruct (py_get sg_project _ VNone) as [project_code|e] eqn:Hcode;
    cbn -[describe owning_project py_str list_to_map isoformat]; [|done].
  destruct (ayon_dispatch_event _ w) as [[[]|e] w'] eqn:Hdispatch;
    cbn -[describe owning_project py_str list_to_map isoformat]; [|done].
  intros [= <- <-].
  exists user_name, description, dt, project_name, project_id, sg_project, w,
    project_code, w'.
  cbn -[describe owning_project py_str list_to_map isoformat].
  repeat split; try done. by rewrite <- !app_assoc.
Qed.

(** X7. When the translator returns, it returns the id of the payload; it
    has dispatched one event, under topic "shotgrid.event", whose hash is
    that id, sent from this host, with no summary, and whose payload names
    the action and repeats the user and project names. *)
Theorem send_returns_id_used_as_hash (cfg : Settings) (d : gmap string pyval) s
    (id : pyval) ls' :
  send_shotgrid_event_to_ayon cfg (VDict d, s) = (Ok id, ls') ->
  d !! "id" = Some id
  /\ exists a w,
       dispatches (trace ls'.2) = dispatches (trace s) ++ [a]
       /\ d_topic a = "shotgrid.event"
       /\ d_event_hash a = id
       /\ d_sender a = gethostname w
       /\ d_summary a = VNone
       /\ py_getitem (d_payload a) "action" = Ok (VStr "shotgrid-event")
       /\ py_getitem (d_payload a) "user_name" = Ok (d_username a)
       /\ py_getitem (d_payload a) "project_name" = Ok (d_project_name a)
       /\ py_getitem (d_payload a) "project_code_field"
          = Ok (VStr (sg_project_code_field cfg)).
Proof.
  intros Hsend.
  apply send_success_inv in Hsend
    as (user_name & description & dt & project_name & project_id & sg_project & w
        & project_code & w' & _ & _ & _ & _ & Hid & _ & _ & ->).
  split; [done|]. eexists _, w.
  cbn -[list_to_map]. rewrite !dispatches_app; cbn -[list_to_map]. rewrite ?app_nil_r.
  split; [reflexivity|]. cbn.
  repeat split; try done; rewrite ?lookup_insert_ne by done; by rewrite lookup_insert_eq.
Qed.

(** X8. The project of a dispatched event is the event's entity when the
    metadata says the entity is a project, otherwise the event's project
    entry; a missing entry, name or id gives "Undefined".  The project code
    is looked up by that id, and is [None] when the project found has no
    such field. *)
Theorem project_taken_from_entity_or_project (cfg : Settings) (d : gmap string pyval) s
    (id : pyval) ls' :
  send_shotgrid_event_to_ayon cfg (VDict d, s) = (Ok id, ls') ->
  exists (owner sg_project : gmap string pyval) a,
    (d !! (if about_project d then "entity" else "project") = Some (VDict owner)
     \/ (d !! (if about_project d then "entity" else "project") = None /\ owner = ∅))
    /\ dispatches (trace ls'.2) = dispatches (trace s) ++ [a]
    /\ d_project_name a = default (VStr "Undefined") (owner !! "name")
    /\ (sg_find_one (project_by_id (default (VStr "Undefined") (owner !! "id"))
                      (sg_project_code_field cfg)) (world s)).1
       = Ok (VDict sg_project)
    /\ py_getitem (d_payload a) "project_code"
       = Ok (default VNone (sg_project !! sg_project_code_field cfg)).
Proof.
  intros Hsend.
  apply send_success_inv in Hsend
    as (user_name & description & dt & project_name & project_id & sg_project & w
        & project_code & w' & _ & _ & Hproject & Hfind & _ & Hcode & _ & ->).
  apply owning_project_inv in Hproject as (owner & Howner & -> & ->).
  destruct sg_project as [| | | | | |sg_project]; try done. cbn in Hcode.
  injection Hcode as <-.
  eexists owner, sg_project, _.
  cbn -[list_to_map]. rewrite !dispatches_app; cbn -[list_to_map]. rewrite ?app_nil_r.
  split; [done|]. split; [reflexivity|]. cbn. split; [done|].
  rewrite Hfind. split; [done|].
  rewrite !lookup_insert_ne by done. by rewrite lookup_insert_eq.
Qed.

(** X9. When ShotGrid has no project with the id looked up ([find_one]
    returns [None]), the translator raises on [sg_project.get]: nothing is
    dispatched, although ["created_at"] has already been rewritten. *)
Theorem unknown_project_is_not_dispatched (cfg : Settings) (d : gmap string pyval) s
    (named : pyval * string) (dt : datetime) (project_name project_id id : pyval) w :
  describe (VDict d) = Ok named ->
  d !! "created_at" = Some (VDatetime dt) ->
  owning_project (VDict d) = Ok (project_name, project_id) ->
  sg_find_one (project_by_id project_id (sg_project_code_field cfg)) (world s)
  = (Ok VNone, w) ->
  d !! "id" = Some id ->
  send_shotgrid_event_to_ayon cfg (VDict d, s)
  = (Raise (AttributeError "get"),
     (VDict (<["created_at" := VStr (isoformat dt)]> d),
      {| world := w;
         trace := trace s
                  ++ [CFindOne (project_by_id project_id (sg_project_code_field cfg))] |})).
Proof.
  intros Hdescribe Hcreated Hproject Hfind Hid.
  unfold_send. rewrite Hdescribe, Hcreated.
  cbn -[describe owning_project py_str list_to_map isoformat].
  rewrite owning_project_frame, Hproject.
  cbn -[describe owning_project py_str list_to_map isoformat].
  rewrite Hfind. cbn -[describe owning_project py_str list_to_map isoformat].
  rewrite (lookup_insert_ne d "created_at" "id") by done. by rewrite Hid.
Qed.

(** X10. When the description cannot be built (no event type, a user entry
    that is not a dictionary) or ["created_at"] is missing or is not a
    datetime, the translator raises before it calls anything, and the
    payload is unchanged. *)
Theorem early_failure_changes_nothing (cfg : Settings) (d : gmap string pyval) s :
  is_Ok (describe (VDict d)) = false
  \/ (forall dt, d !! "created_at" <> Some (VDatetime dt)) ->
  exists e, send_shotgrid_event_to_ayon cfg (VDict d, s) = (Raise e, (VDict d, s)).
Proof.
  intros Hearly. unfold_send.
  destruct (describe (VDict d)) as [named|e];
    cbn -[describe owning_project py_str list_to_map isoformat]; [|by eexists].
  destruct Hearly as [?|Hcreated]; [done|].
  destruct (d !! "created_at") as [created_at|];
    cbn -[describe owning_project py_str list_to_map isoformat]; [|by eexists].
  destruct created_at as [| | | |dt| |];
    cbn -[describe owning_project py_str list_to_map isoformat]; try by eexists.
  by destruct (Hcreated dt).
Qed.

(** X11. Whatever the payload and the outcome, the translator calls at most
    the project lookup, then at most one dispatch, then its log message, in
    this order; it never queries the event log and never sleeps. *)
Theorem send_calls (cfg : Settings) (payload : pyval) s :
  exists tr,
    trace (send_shotgrid_event_to_ayon cfg (payload, s)).2.2 = trace s ++ tr
    /\ (tr = []
        \/ exists q,
             q_entity q = "Project"
             /\ (tr = [CFindOne q]
                 \/ exists a,
                      tr = [CFindOne q; CDispatch a]
                      \/ exists p, tr = [CFindOne q; CDispatch a; CLog (LogDispatched p)])).
Proof.
  unfold_send.
  repeat (on_outcome ltac:(exists []; rewrite app_nil_r; by split; [|left])).
  destruct (sg_find_one _ (world s)) as [[sg_project|e] w];
    cbn -[describe owning_project py_str list_to_map isoformat].
  2:{ eexists [_]. split; [done|]. right. eexists. split; [|by left]. done. }
  repeat (on_outcome ltac:(eexists [_]; split; [done|]; right; eexists;
                           split; [|by left]; done)).
  destruct (ayon_dispatch_event _ w) as [[[]|e] w'];
    cbn -[describe owning_project py_str list_to_map isoformat].
  2:{ eexists [_; _]. rewrite <- !app_assoc. split; [done|]. right. eexists.
      split; [|right; eexists; by left]. done. }
  eexists [_; _; _]. rewrite <- !app_assoc. split; [done|]. right.
  eexists. split; [|right; eexists; right; by eexists]. done.
Qed.

(** *** Single events *)

(** X12. [_is_api_user_event] answers [True] exactly when the event's
    metadata holds a sudo actual user whose type is "ApiUser"; otherwise it
    answers [None], or raises when the metadata or the sudo user is present
    but is not a dictionary.  It never answers [False]. *)
Theorem api_user_event_iff (d : gmap string pyval) :
  (_is_api_user_event (VDict d) = Ok (VBool true)
   <-> exists meta user : gmap string pyval,
         d !! "meta" = Some (VDict meta)
         /\ meta !! "sudo_actual_user" = Some (VDict user)
         /\ user !! "type" = Some (VStr "ApiUser"))
  /\ (_is_api_user_event (VDict d) = Ok (VBool true)
      \/ _is_api_user_event (VDict d) = Ok VNone
      \/ _is_api_user_event (VDict d) = Raise (AttributeError "get")).
Proof.
  unfold _is_api_user_event; cbn.
  destruct (d !! "meta") as [meta|] eqn:Hmeta; cbn.
  2:{ rewrite lookup_empty; cbn. rewrite lookup_empty; cbn.
      split; [|auto]. split; [done|]. by intros (? & ? & ? & _). }
  destruct meta as [| | | | | |meta]; cbn;
    try (split; [|auto]; split; [done|]; by intros (? & ? & ? & _)).
  destruct (meta !! "sudo_actual_user") as [user|] eqn:Huser; cbn.
  2:{ rewrite lookup_empty; cbn.
      split; [|auto]. split; [done|].
      intros (meta' & user' & Hm & Hu & _). congruence. }
  destruct user as [| | | | | |user]; cbn;
    try (split; [|auto]; split; [done|];
         intros (meta' & user' & Hm & Hu & _); congruence).
  destruct (user !! "type") as [ty|] eqn:Hty; cbn.
  2:{ split; [|auto]. split; [done|].
      intros (meta' & user' & Hm & Hu & Ht). congruence. }
  destruct (py_eq_str ty "ApiUser") eqn:Heq.
  - split; [|auto]. split; [|done]. intros _. exists meta, user.
    destruct ty; try done. cbn in Heq. apply String.eqb_eq in Heq as ->. done.
  - split; [|auto]. split; [done|].
    intros (meta' & user' & Hm & Hu & Ht).
    assert (ty = VStr "ApiUser") as -> by congruence. done.
Qed.

Lemma classify_accepts self l s (d : gmap string pyval) (id : pyval) :
  tracked self (supported_event_types l) (VDict d) ->
  _is_api_user_event (VDict d) = Ok VNone ->
  d !! "id" = Some id ->
  classify self (VDict d) (l, s) = (Ok tt, (with_last_event_id id l, s)).
Proof.
  intros Htracked Hapi Hid.
  assert (Hmark : mark_event (VDict d) (l, s) = (Ok tt, (with_last_event_id id l, s))).
  { unfold mark_event, bind, lift_outcome, set_last_event_id. rewrite Hapi. cbn.
    by rewrite Hid. }
  unfold classify, bind at 1, get_local. cbn -[mark_event].
  unfold bind at 1, lift_outcome.
  destruct Htracked as [-> | [-> Hsup]]; [done|].
  unfold bind, lift_outcome. by rewrite Hsup.
Qed.

(** X13. For a tracked event that no API user caused and whose id is
    true, [self.func] is called once on the event and the cursor becomes
    what the call returns, whatever that is. *)
Theorem accepted_event_cursor_is_func_result self l s (d : gmap string pyval)
    (id v : pyval) s1 :
  tracked self (supported_event_types l) (VDict d) ->
  _is_api_user_event (VDict d) = Ok VNone ->
  d !! "id" = Some id ->
  truthy id = true ->
  func self (VDict d) {| world := world s; trace := [] |} = (Ok v, s1) ->
  process_event self (VDict d) (l, s)
  = (Ok tt,
     (with_last_event_id v l,
      {| world := world s1; trace := trace s ++ [CFunc (VDict d) (trace s1)] |})).
Proof.
  intros Htracked Hapi Hid Htruthy Hfunc.
  unfold process_event. rewrite (truthy_dict _ _ _ Hid). cbn -[classify].
  unfold bind at 1. rewrite (classify_accepts self l s d id) by done.
  unfold bind, get_local, lift, call_func, set_last_event_id.
  cbn [fst snd last_event_id with_last_event_id world trace].
  rewrite Htruthy. cbn [negb fst snd world trace]. by rewrite Hfunc.
Qed.

(** X14. With the default [self.func], a tracked event that no API user
    caused and that the translator sends with success moves the cursor to
    the id of that event. *)
Theorem dispatched_event_becomes_cursor (cfg : Settings) l s (d : gmap string pyval)
    (id v payload' : pyval) s1 :
  let self := new_listener cfg None in
  tracked self (supported_event_types l) (VDict d) ->
  _is_api_user_event (VDict d) = Ok VNone ->
  d !! "id" = Some id ->
  truthy id = true ->
  send_shotgrid_event_to_ayon cfg (VDict d, {| world := world s; trace := [] |})
  = (Ok v, (payload', s1)) ->
  process_event self (VDict d) (l, s)
  = (Ok tt,
     (with_last_event_id id l,
      {| world := world s1; trace := trace s ++ [CFunc (VDict d) (trace s1)] |})).
Proof.
  intros self Htracked Hapi Hid Htruthy Hsend.
  assert (v = id) as ->.
  { apply send_success_inv in Hsend
      as (? & ? & ? & ? & ? & ? & ? & ? & ? & _ & _ & _ & _ & Hv & _).
    congruence. }
  unfold process_event. rewrite (truthy_dict _ _ _ Hid). cbn -[classify].
  unfold bind at 1. rewrite (classify_accepts self l s d id) by done.
  unfold bind, get_local, lift, call_func, set_last_event_id.
  cbn [fst snd last_event_id with_last_event_id world trace].
  rewrite Htruthy. cbn [negb fst snd world trace func self new_listener].
  unfold default_func. by rewrite Hsend.
Qed.

(** X15. Empty entries of a batch ([None], empty dictionaries) are passed
    over: the batch is processed as if they were not there. *)
Theorem empty_entries_are_skipped self (events : list pyval) l s :
  process_events self events (l, s)
  = process_events self (filter (fun event => truthy event = true) events) (l, s).
Proof.
  revert l s. induction events as [|event rest IH]; intros l s; [done|].
  rewrite filter_cons. cbn -[process_event filter].
  destruct (decide (truthy event = true)) as [Htrue|Hfalse].
  - cbn -[process_event filter]. unfold bind.
    destruct (process_event self event (l, s)) as [[[]|e] [l1 s1]]; [|done].
    apply IH.
  - apply not_true_is_false in Hfalse. unfold bind, process_event.
    rewrite Hfalse. cbn -[filter]. apply IH.
Qed.

(** X16. A change event whose attribute name is not a string makes the
    classification raise on [replace]: [TypeError] for a datetime, whose
    [replace] takes numbers, [AttributeError] for a value without the
    method.  The event and the events after it in the batch are not
    processed, and nothing is called. *)
Theorem change_without_attribute_name_stops_batch self (d : gmap string pyval)
    (event_type : string) (attribute_name : pyval) (rest : list pyval) l s :
  d !! "event_type" = Some (VStr event_type) ->
  ends_with event_type "_Change" = true ->
  d !! "attribute_name" = Some attribute_name ->
  (forall name, attribute_name <> VStr name) ->
  process_events self (VDict d :: rest) (l, s)
  = (Raise (match attribute_name with
            | VDatetime _ => TypeError "'str' object cannot be interpreted as an integer"
            | _ => AttributeError "replace"
            end), (l, s)).
Proof.
  intros Htype Hchange Hname Hnot.
  cbn -[process_event]. unfold bind at 1, process_event.
  rewrite (truthy_dict _ _ _ Htype). cbn -[classify].
  unfold bind at 1, classify, bind at 1, get_local. cbn -[is_custom_attrib_change].
  unfold bind at 1, lift_outcome.
  assert (is_custom_attrib_change self (VDict d)
          = Raise (match attribute_name with
                   | VDatetime _ =>
                       TypeError "'str' object cannot be interpreted as an integer"
                   | _ => AttributeError "replace"
                   end)) as ->.
  { unfold is_custom_attrib_change; cbn. rewrite Htype; cbn. rewrite Hchange, Hname.
    destruct attribute_name; try done. by destruct (Hnot s0). }
  done.
Qed.

(** *** Rounds of the loop *)

Lemma sleeps_app (t1 t2 : list call) : sleeps (t1 ++ t2) = sleeps t1 ++ sleeps t2.
Proof. apply omap_app. Qed.

Lemma quiet_no_sleep (tr : list call) :
  Forall (fun c => is_log_or_func c = true) tr -> sleeps tr = [].
Proof.
  induction 1 as [|c tr Hc _ IH]; [done|]. by destruct c.
Qed.

Lemma quiet_no_query (tr : list call) :
  Forall (fun c => is_log_or_func c = true) tr ->
  Forall (fun c => is_project_query c = false /\ is_dispatch c = false) tr.
Proof.
  intros Hq. eapply Forall_impl; [done|]. by intros [].
Qed.

Lemma process_event_quiet self event l s :
  exists tr,
    trace (process_event self event (l, s)).2.2 = trace s ++ tr
    /\ Forall (fun c => is_log_or_func c = true) tr.
Proof.
  unfold process_event.
  destruct (truthy event); cbn -[classify].
  2:{ exists []. by rewrite app_nil_r. }
  unfold bind at 1.
  destruct (classify_local self event l s) as (r & v & ->).
  destruct r as [[]|e].
  2:{ exists []. by rewrite app_nil_r. }
  unfold bind, get_local; cbn.
  destruct (truthy v); cbn.
  - unfold lift, call_func; cbn.
    destruct (func self event _) as [[id|e] s1]; cbn; eexists [_]; by repeat constructor.
  - eexists [_]. by repeat constructor.
Qed.

Lemma process_events_quiet self events l s :
  exists tr,
    trace (process_events self events (l, s)).2.2 = trace s ++ tr
    /\ Forall (fun c => is_log_or_func c = true) tr.
Proof.
  revert l s. induction events as [|event rest IH]; intros l s.
  - exists []. by rewrite app_nil_r.
  - cbn -[process_event]. unfold bind.
    destruct (process_event_quiet self event l s) as (tr1 & Htr1 & Hq1).
    destruct (process_event self event (l, s)) as [[[]|e] [l1 s1]]; cbn in *.
    + destruct (IH l1 s1) as (tr2 & Htr2 & Hq2).
      exists (tr1 ++ tr2). rewrite Htr2, Htr1, app_assoc. split; [done|].
      by apply Forall_app.
    + by exists tr1.
Qed.

(** What one poll adds to the trace. *)
Lemma poll_trace self l s :
  let freq := shotgrid_polling_frequency (settings self) in
  exists tr,
    trace (poll self (l, s)).2.2 = trace s ++ tr
    /\ Forall (fun c => is_project_query c = false /\ is_dispatch c = false) tr
    /\ (0 <= freq -> (poll self (l, s)).1 = Ok tt -> sleeps tr = [freq])
    /\ (freq < 0 -> (poll self (l, s)).1 <> Ok tt).
Proof.
  intros freq.
  assert (Hquery : forall trq : list call,
            Forall (fun c => is_log_or_func c = true) trq ->
            forall front back : list call,
              Forall (fun c => is_project_query c = false /\ is_dispatch c = false) front ->
              Forall (fun c => is_project_query c = false /\ is_dispatch c = false) back ->
              Forall (fun c => is_project_query c = false /\ is_dispatch c = false)
                (front ++ trq ++ back)).
  { intros trq Hq front back Hfront Hback.
    apply Forall_app; split; [done|]. apply Forall_app; split; [|done].
    by apply quiet_no_query. }
  unfold poll, try_except, fetch_and_process, bind, get_local, lift, find, log,
    record, ret; cbn -[process_events truthy time_sleep]. fold freq.
  destruct (sg_find (events_after l) (world s)) as [[events|e] w];
    cbn -[process_events truthy time_sleep].
  - destruct (negb (truthy (VList events))); cbn -[process_events time_sleep].
    + destruct (time_sleep_uniform freq) as [(Hpos & _ & Hsleep) | (e0 & _ & Hsleep)];
        rewrite Hsleep; cbn -[time_sleep].
      * eexists [_; _; _]. rewrite <- !app_assoc. split; [done|].
        split; [by repeat constructor|]. split; [done | intros; lia].
      * destruct (is_Exception e0); cbn -[time_sleep]; rewrite ?Hsleep; cbn.
        -- eexists [_; _; _; _; _; _]. rewrite <- !app_assoc. split; [done|].
           split; [by repeat constructor|]. by split.
        -- eexists [_; _; _]. rewrite <- !app_assoc. split; [done|].
           split; [by repeat constructor|]. by split.
    + match goal with |- context [process_events self events (l, ?s0)] =>
        destruct (process_events_quiet self events l s0) as (trq & Htrq & Hq);
        destruct (process_events self events (l, s0)) as [[[]|e] [l1 s1]]
      end; cbn -[time_sleep] in *.
      * destruct (time_sleep_uniform freq) as [(Hpos & _ & Hsleep) | (e0 & _ & Hsleep)];
          rewrite Hsleep; cbn;
          exists ([CFind (events_after l); CLog (LogFound (length events))] ++ trq
                  ++ [CLog (LogWaiting 2 freq); CSleep freq]);
          rewrite Htrq, <- !app_assoc; cbn; (split; [done|]);
          (split; [by apply (Hquery trq Hq [_; _] [_; _]); repeat constructor|]);
          (split; [|first [done | intros; lia]]); try done;
          intros _ _; rewrite sleeps_app, (quiet_no_sleep _ Hq); done.
      * destruct (is_Exception e) eqn:Hexc; cbn -[time_sleep].
        -- destruct (time_sleep_uniform freq) as [(Hpos & _ & Hsleep) | (e0 & _ & Hsleep)];
             rewrite Hsleep; cbn;
             exists ([CFind (events_after l); CLog (LogFound (length events))] ++ trq
                     ++ [CLog (LogTraceback e); CLog (LogWaiting 2 freq); CSleep freq]);
             rewrite Htrq, <- !app_assoc; cbn; (split; [done|]);
             (split; [by apply (Hquery trq Hq [_; _] [_; _; _]); repeat constructor|]);
             (split; [|first [done | intros; lia]]); try done;
             intros _ _; rewrite sleeps_app, (quiet_no_sleep _ Hq); done.
        -- exists ([CFind (events_after l); CLog (LogFound (length events))] ++ trq).
           rewrite Htrq, <- !app_assoc; cbn. split; [done|].
           split; [|by split].
           rewrite <- (app_nil_r trq).
           by apply (Hquery trq Hq [_; _] []); repeat constructor.
  - destruct (is_Exception e) eqn:Hexc; cbn -[time_sleep].
    + destruct (time_sleep_uniform freq) as [(Hpos & _ & Hsleep) | (e0 & _ & Hsleep)];
        rewrite Hsleep; cbn;
        eexists [_; _; _; _]; rewrite <- !app_assoc; (split; [done|]);
        (split; [by repeat constructor|]);
        (split; [first [done | intros; lia] | first [done | intros; lia]]).
    + eexists [_]. split; [done|]. split; [by repeat constructor|]. done.
Qed.

(** What a round with filters adds to the trace. *)
Lemma polling_round_trace self l s :
  let freq := shotgrid_polling_frequency (settings self) in
  base_sg_filters l <> [] ->
  exists tr,
    trace (loop_body self (l, s)).2.2 = trace s ++ tr
    /\ Forall (fun c => is_project_query c = false /\ is_dispatch c = false) tr
    /\ (0 <= freq -> (loop_body self (l, s)).1 = Ok tt -> sleeps tr = [freq])
    /\ (freq < 0 -> (loop_body self (l, s)).1 <> Ok tt).
Proof.
  intros freq Hne. destruct (truthy (last_event_id l)) eqn:Hcur.
  - rewrite loop_body_polling by done. apply poll_trace.
  - rewrite loop_body_resolving by done.
    pose proof (recovery_trace self (base_sg_filters l) s) as Hreads.
    destruct (_get_last_event_processed self (base_sg_filters l) s) as [[id|e] s1];
      cbn in Hreads.
    + destruct (poll_trace self (with_last_event_id id l) s1)
        as (tr & Htr & Hkinds & Hsleep & Hneg).
      destruct Hreads as [Hr|Hr].
      * exists ([CGetEvents ["shotgrid.leech"] ["hash"]] ++ tr).
        rewrite Htr, Hr, <- app_assoc. split; [done|].
        split; [by repeat constructor|]. split; [|done].
        intros ? ?. rewrite sleeps_app. cbn. auto.
      * exists ([CGetEvents ["shotgrid.leech"] ["hash"];
                 CFindOne (newest_event (base_sg_filters l))] ++ tr).
        rewrite Htr, Hr, <- app_assoc. split; [done|].
        split; [by repeat constructor|]. split; [|done].
        intros ? ?. rewrite sleeps_app. cbn. auto.
    + cbn. destruct Hreads as [Hr|Hr]; eexists; (split; [exact Hr|]);
        (split; [by repeat constructor|]); done.
Qed.


(** What a round without filters adds to the trace. *)
Lemma idle_round_sleep self l s :
  let freq := shotgrid_polling_frequency (settings self) in
  base_sg_filters l = [] ->
  exists tr,
    trace (loop_body self (l, s)).2.2 = trace s ++ tr
    /\ (0 <= freq -> (loop_body self (l, s)).1 = Ok tt -> sleeps tr = [freq])
    /\ (freq < 0 -> (loop_body self (l, s)).1 <> Ok tt).
Proof.
  intros freq Hbase.
  unfold loop_body, bind at 1, get_local; cbn -[_build_shotgrid_filters time_sleep].
  rewrite Hbase.
  unfold bind, lift, log, record, set_base_sg_filters;
    cbn -[_build_shotgrid_filters time_sleep]. fold freq.
  destruct (time_sleep_uniform freq) as [(Hpos & _ & Hsleep) | (e0 & _ & Hsleep)];
    rewrite Hsleep; cbn -[_build_shotgrid_filters].
  2:{ eexists [_; _]. rewrite <- app_assoc. split; [done|]. by split. }
  unfold _build_shotgrid_filters, bind, find, ret; cbn -[truthy].
  destruct (sg_find auto_sync_projects _) as [[sg_projects|e] w]; cbn -[truthy].
  - destruct (negb (truthy (VList sg_projects))); [|destruct (truthy (VList _))];
      cbn; eexists [_; _; _]; rewrite <- !app_assoc; (split; [done|]);
      (split; [done | lia]).
  - eexists [_; _; _]. rewrite <- !app_assoc. split; [done|]. split; [done | lia].
Qed.

(** X17. Every round of the loop that completes has slept exactly once, for
    the polling frequency (when that is not negative): the loop never spins
    without waiting. *)
Theorem completed_round_sleeps_once self l s :
  let freq := shotgrid_polling_frequency (settings self) in
  0 <= freq ->
  (loop_body self (l, s)).1 = Ok tt ->
  exists tr,
    trace (loop_body self (l, s)).2.2 = trace s ++ tr /\ sleeps tr = [freq].
Proof.
  intros freq Hfreq Hok. destruct (base_sg_filters l) as [|f fs] eqn:Hbase.
  - destruct (idle_round_sleep self l s Hbase) as (tr & Htr & Hsleep & _).
    exists tr. auto.
  - destruct (polling_round_trace self l s) as (tr & Htr & _ & Hsleep & _);
      [by rewrite Hbase|].
    exists tr. auto.
Qed.

(** X18. With a negative polling frequency no round of the loop completes:
    [time.sleep] raises outside the [try], or an earlier call has raised. *)
Theorem negative_frequency_ends_loop self l s :
  shotgrid_polling_frequency (settings self) < 0 ->
  (loop_body self (l, s)).1 <> Ok tt.
Proof.
  intros Hneg. destruct (base_sg_filters l) as [|f fs] eqn:Hbase.
  - destruct (idle_round_sleep self l s Hbase) as (tr & _ & _ & Hno). auto.
  - destruct (polling_round_trace self l s) as (tr & _ & _ & _ & Hno);
      [by rewrite Hbase|]. auto.
Qed.


(** X20. A poll that finds no new event sleeps once and completes, when
    the host accepts the poll interval; the cursor and the filters are as
    before and [self.func] is not called.  When the host refuses the
    interval with an [Exception], the sleep of line 237 raises inside the
    [try], the traceback is logged, and the sleep of line 277 raises the
    same out of the round. *)
Theorem empty_batch_keeps_cursor self l s w :
  let freq := shotgrid_polling_frequency (settings self) in
  sg_find (events_after l) (world s) = (Ok [], w) ->
  (0 <= freq ->
   sleep_refused W freq = None ->
   poll self (l, s)
   = (Ok tt,
      (l, {| world := elapse freq w;
             trace := trace s ++ [CFind (events_after l); CLog (LogWaiting 1 freq);
                                  CSleep freq] |})))
  /\ (forall e,
        sleep_refused W freq = Some e ->
        is_Exception e = true ->
        poll self (l, s)
        = (Raise e,
           (l, {| world := w;
                  trace := trace s ++ [CFind (events_after l); CLog (LogWaiting 1 freq);
                                       CSleep freq; CLog (LogTraceback e);
                                       CLog (LogWaiting 2 freq); CSleep freq] |}))).
Proof.
  intros freq Hfind. split.
  - intros Hfreq Hfit.
    unfold poll, try_except, fetch_and_process, bind, get_local, lift, find, log,
      record, ret; cbn -[time_sleep]. rewrite Hfind; cbn -[time_sleep]. fold freq.
    rewrite time_sleep_accepted by done. cbn. by rewrite <- !app_assoc.
  - intros e Hfit Hexc. unfold freq in *.
    unfold poll, try_except, fetch_and_process, bind, get_local, lift, find, log,
      time_sleep, record, ret; cbn. rewrite Hfind; cbn.
    rewrite Hfit; cbn. rewrite Hexc; cbn.
    by rewrite <- !app_assoc.
Qed.

(** X21. An exception that is not an [Exception] (the [SystemExit] of the
    teardown, a keyboard interrupt) raised while a batch is fetched or
    processed leaves the round at once: it is not logged and the round does
    not sleep. *)
Theorem exit_is_not_swallowed self l s (e : exn) ls1 :
  base_sg_filters l <> [] ->
  truthy (last_event_id l) = true ->
  fetch_and_process self (events_after l) (l, s) = (Raise e, ls1) ->
  is_Exception e = false ->
  loop_body self (l, s) = (Raise e, ls1).
Proof.
  intros Hne Hcur Hfetch Hexc. rewrite loop_body_polling by done.
  unfold poll, bind at 1, get_local. cbn -[fetch_and_process].
  unfold bind at 1, try_except. by rewrite Hfetch, Hexc.
Qed.

(** *** The filters over a run *)

Lemma build_filters_built self s (filters : list sg_filter) s' :
  _build_shotgrid_filters self s = (Ok filters, s') -> built_filters self filters.
Proof.
  unfold _build_shotgrid_filters, built_filters, bind, find, ret.
  destruct (sg_find auto_sync_projects (world s)) as [[sg_projects|e] w]; [|done].
  destruct sg_projects as [|p ps]; cbn.
  - intros [= <- _]. by left.
  - destruct (_get_supported_event_types self) as [|t ts]; cbn;
      intros [= <- _]; right; exists (p :: ps); by split.
Qed.

Lemma loop_body_invariant self l s :
  built_filters self (base_sg_filters l) ->
  built_filters self (base_sg_filters (loop_body self (l, s)).2.1)
  /\ supported_event_types (loop_body self (l, s)).2.1 = supported_event_types l.
Proof.
  intros Hbuilt. destruct (base_sg_filters l) as [|f fs] eqn:Hbase.
  - unfold loop_body, bind at 1, get_local; cbn -[_build_shotgrid_filters Z.ltb].
    rewrite Hbase.
    unfold bind, lift, log, time_sleep, record, set_base_sg_filters;
      cbn -[_build_shotgrid_filters Z.ltb].
    destruct (sleep_refused W _); cbn -[_build_shotgrid_filters]; [by rewrite Hbase|].
    destruct (_ <? 0); cbn -[_build_shotgrid_filters]; [by rewrite Hbase|].
    match goal with |- context [_build_shotgrid_filters self ?s0] =>
      pose proof (build_filters_built self s0) as Hb;
      destruct (_build_shotgrid_filters self s0) as [[filters|e] s1]
    end; cbn.
    + split; [by eapply Hb | done].
    + by rewrite Hbase.
  - assert (Hne : base_sg_filters l <> []) by by rewrite Hbase.
    rewrite (loop_body_keeps_filters self l s Hne), Hbase. split; [done|].
    destruct (truthy (last_event_id l)) eqn:Hcur.
    + rewrite loop_body_polling by done.
      by destruct (poll_effect self l s) as (r & v & s' & ->).
    + rewrite loop_body_resolving by done.
      destruct (_get_last_event_processed self _ s) as [[id|e] s1]; [|done].
      by destruct (poll_effect self (with_last_event_id id l) s1) as (r & v & s' & ->).
Qed.

(** X22. In every state [start_listening] reaches, the filters are empty or
    are the project filter over a non-empty list of projects followed by
    the event-type filter of the supported event types (when there are
    any), and the list of supported event types is the one computed from
    the enabled entities. *)
Theorem filters_stay_well_formed self (rounds : nat) s l s' :
  start_listening self rounds s = (Ok l, s') ->
  built_filters self (base_sg_filters l)
  /\ supported_event_types l = _get_supported_event_types self.
Proof.
  unfold start_listening, bind at 1.
  destruct (startup self s) as [[l0|e] s0] eqn:Hstartup; [|done].
  assert (Hinit : built_filters self (base_sg_filters l0)
                  /\ supported_event_types l0 = _get_supported_event_types self).
  { revert Hstartup. unfold startup, bind, log, ret; cbn -[_build_shotgrid_filters
      _get_last_event_processed].
    match goal with |- context [_build_shotgrid_filters self ?s1] =>
      pose proof (build_filters_built self s1) as Hb;
      destruct (_build_shotgrid_filters self s1) as [[filters|e] s2]
    end; [|done].
    destruct (_get_last_event_processed self filters s2) as [[id|e] s3]; [|done].
    intros [= <- <-]. cbn. split; [by eapply Hb | done]. }
  clear Hstartup.
  assert (Hloop : forall n l1 s1,
            built_filters self (base_sg_filters l1) ->
            built_filters self (base_sg_filters (run_loop self n (l1, s1)).2.1)
            /\ supported_event_types (run_loop self n (l1, s1)).2.1
               = supported_event_types l1).
  { induction n as [|n IH]; intros l1 s1 Hb; cbn -[loop_body]; [done|].
    unfold bind. destruct (loop_body_invariant self l1 s1 Hb) as [Hb' Hs'].
    destruct (loop_body self (l1, s1)) as [[[]|e] [l2 s2]]; cbn in *; [|done].
    destruct (IH l2 s2 Hb') as [? ?]. split; [done | congruence]. }
  destruct Hinit as [Hb0 Hs0]. destruct (Hloop rounds l0 s0 Hb0) as [Hb Hs].
  destruct (run_loop self rounds (l0, s0)) as [[[]|e] [l1 s1]]; [|done].
  intros [= <- <-]. cbn in *. split; [done | congruence].
Qed.

(** X23. When no project has auto-sync on at startup and the sink holds no
    resume token, [start_listening] still asks the source for the newest
    event of the whole event log, with no filter at all, and starts from
    its id with empty filters. *)
Theorem startup_without_projects_queries_whole_log self s w1 w2
    (last_event : gmap string pyval) w3 (id : pyval) :
  sg_find auto_sync_projects (world s) = (Ok [], w1) ->
  ayon_get_events ["shotgrid.leech"] ["hash"] w1 = (Ok [], w2) ->
  sg_find_one (newest_event []) w2 = (Ok (VDict last_event), w3) ->
  last_event !! "id" = Some id ->
  startup self s
  = (Ok {| base_sg_filters := [];
           supported_event_types := _get_supported_event_types self;
           last_event_id := id |},
     {| world := w3;
        trace := trace s ++ [CLog LogStart; CFind auto_sync_projects;
                             CGetEvents ["shotgrid.leech"] ["hash"];
                             CFindOne (newest_event [])] |}).
Proof.
  intros Hprojects Hsink Hsource Hid.
  unfold startup, _build_shotgrid_filters, _get_last_event_processed, bind, log,
    record, find, get_events, find_one, lift_outcome, ret; cbn.
  rewrite Hprojects; cbn. rewrite Hsink; cbn. rewrite Hsource; cbn. rewrite Hid.
  by rewrite <- !app_assoc.
Qed.

End MoreFacts.

(** ** Facts about construction and teardown *)

Section ConstructionFacts.

Context {W : Type} `{!Service W} `{!Builtins}.

Implicit Types (p : proc W).

Lemma py_getitem_of_json (j : json) (k : string) :
  py_getitem (py_of_json j) k
  = match json_getitem j k with
    | Ok x => Ok (py_of_json x)
    | Raise e => Raise e
    end.
Proof.
  destruct j; try done. cbn. rewrite lookup_fmap. by destruct (d !! k).
Qed.

(** X24. The API key of a secret is accepted exactly when the secret is an
    object whose ["value"] is true (not missing, [null], empty or zero); a
    list, which the server returned for an unknown secret, and an empty
    value raise [ValueError]. *)
Theorem secret_api_key_ok_iff (shotgrid_secret : json) (sg_api_key : pyval) :
  (secret_api_key shotgrid_secret = Ok sg_api_key
   <-> exists (d : gmap string json) (v : json),
         shotgrid_secret = JObject d
         /\ d !! "value" = Some v
         /\ sg_api_key = py_of_json v
         /\ truthy sg_api_key = true)
  /\ (forall l, secret_api_key (JList l) = Raise secret_not_found)
  /\ (forall d : gmap string json,
        truthy (default VNone (py_of_json <$> d !! "value")) = false ->
        secret_api_key (JObject d) = Raise key_not_found).
Proof.
  split; [|split].
  - split.
    + destruct shotgrid_secret as [| | | | |d]; try done. cbn.
      rewrite lookup_fmap. destruct (d !! "value") as [v|] eqn:Hv; cbn; [|done].
      destruct (truthy (py_of_json v)) eqn:Htrue; cbn; [|done].
      intros [= <-]. by exists d, v.
    + intros (d & v & -> & Hv & -> & Htrue). cbn. rewrite lookup_fmap, Hv. cbn.
      by rewrite Htrue.
  - done.
  - intros d Hfalse. cbn. rewrite lookup_fmap.
    destruct (d !! "value") as [v|]; cbn in *; [by rewrite Hfalse | done].
Qed.

Lemma collect_attribs_values (acc : gmap (option (Z + string)) pyval)
    (attrs : list json) (m : gmap (option (Z + string)) pyval) :
  collect_attribs acc attrs = Ok m ->
  forall key v,
    m !! key = Some v ->
    acc !! key = Some v
    \/ (truthy v = true
        /\ exists attr ayon sg,
             attr ∈ attrs
             /\ json_getitem attr "ayon" = Ok ayon
             /\ json_key ayon = Ok key
             /\ json_getitem attr "sg" = Ok sg
             /\ v = py_of_json sg).
Proof.
  revert acc. induction attrs as [|attr rest IH]; intros acc; cbn.
  - intros [= <-] key v Hkey. by left.
  - destruct (json_getitem attr "sg") as [sg|e] eqn:Hsg; [|done].
    destruct (truthy (py_of_json sg)) eqn:Htrue.
    + destruct (json_getitem attr "ayon") as [ayon|e] eqn:Hayon; [|done].
      destruct (json_key ayon) as [k|e] eqn:Hk; [|done].
      intros Hm key v Hkey.
      destruct (IH _ Hm key v Hkey) as [Hacc | (Hv & attr' & ayon' & sg' & Hin & Hrest)].
      * destruct (decide (k = key)) as [->|Hne].
        -- rewrite lookup_insert_eq in Hacc. injection Hacc as <-.
           right. split; [done|]. exists attr, ayon, sg.
           split; [by left | done].
        -- rewrite lookup_insert_ne in Hacc by done. by left.
      * right. split; [done|]. exists attr', ayon', sg'. split; [by right | done].
    + intros Hm key v Hkey.
      destruct (IH _ Hm key v Hkey) as [Hacc | (Hv & attr' & ayon' & sg' & Hin & Hrest)].
      * by left.
      * right. split; [done|]. exists attr', ayon', sg'. split; [by right | done].
Qed.

(** X25. The dictionary built from the configured attribute mappings holds
    only entries whose ShotGrid name is true (not empty): every value comes
    from a configured mapping, under the key that mapping names. *)
Theorem collected_attribs_are_configured (attrs : list json)
    (m : gmap (option (Z + string)) pyval) (key : option (Z + string)) (v : pyval) :
  collect_attribs ∅ attrs = Ok m ->
  m !! key = Some v ->
  truthy v = true
  /\ exists attr ayon sg,
       attr ∈ attrs
       /\ json_getitem attr "ayon" = Ok ayon
       /\ json_key ayon = Ok key
       /\ json_getitem attr "sg" = Ok sg
       /\ v = py_of_json sg.
Proof.
  intros Hm Hkey.
  destruct (collect_attribs_values _ _ _ Hm key v Hkey) as [Hempty|?]; [|done].
  by rewrite lookup_empty in Hempty.
Qed.

Ltac unfold_settings :=
  unfold read_settings, bind, service, lift_outcome, ret;
  cbn -[secret_api_key collect_attribs json_iter polling_frequency truthy py_of_json].

Ltac settings_outcome tac :=
  match goal with
  | |- context [match ?r with Ok _ => _ | Raise _ => _ end] =>
      let H := fresh "Hstep" in
      destruct r eqn:H;
      cbn -[secret_api_key collect_attribs json_iter polling_frequency truthy
            py_of_json];
      [| solve [tac]]
  end.

(** What reading the settings calls: the AYON server only. *)
Lemma read_settings_trace p :
  exists tr,
    proc_trace (read_settings p).2 = proc_trace p ++ tr
    /\ Forall (fun c => is_shotgun_call c = false /\ is_signal_call c = false) tr.
Proof.
  unfold_settings.
  destruct (ayon_init_service (proc_world p)) as [[[]|e] w1];
    cbn -[secret_api_key collect_attribs json_iter polling_frequency truthy py_of_json].
  2:{ eexists [_]. by repeat constructor. }
  destruct (ayon_get_service_addon_settings w1) as [[settings|e] w2];
    cbn -[secret_api_key collect_attribs json_iter polling_frequency truthy py_of_json].
  2:{ eexists [_; _]. rewrite <- app_assoc. by repeat constructor. }
  do 4 settings_outcome
    ltac:(eexists [_; _]; rewrite <- app_assoc; by repeat constructor).
  destruct (ayon_get_secret _ w2) as [[shotgrid_secret|e] w3];
    cbn -[secret_api_key collect_attribs json_iter polling_frequency truthy py_of_json].
  2:{ eexists [_; _; _]. rewrite <- !app_assoc. by repeat constructor. }
  do 2 settings_outcome
    ltac:(eexists [_; _; _]; rewrite <- !app_assoc; by repeat constructor).
  destruct (negb (truthy _));
    cbn -[secret_api_key collect_attribs json_iter polling_frequency truthy py_of_json].
  { eexists [_; _; _]. rewrite <- !app_assoc. by repeat constructor. }
  do 5 settings_outcome
    ltac:(eexists [_; _; _]; rewrite <- !app_assoc; by repeat constructor).
  eexists [_; _; _]. rewrite <- !app_assoc. by repeat constructor.
Qed.

(** A successful reading of the settings, step by step. *)
Lemma read_settings_inv p (a : Attributes) p' :
  read_settings p = (Ok a, p') ->
  exists w1 settings w2 service_settings sg_url code_field script_key shotgrid_secret
         w3 script_name compatibility entries attrs m entities,
    ayon_init_service (proc_world p) = (Ok tt, w1)
    /\ ayon_get_service_addon_settings w1 = (Ok settings, w2)
    /\ json_getitem settings "service_settings" = Ok service_settings
    /\ json_getitem settings "shotgrid_server" = Ok sg_url
    /\ json_getitem settings "shotgrid_project_code_field" = Ok code_field
    /\ json_getitem service_settings "script_key" = Ok script_key
    /\ ayon_get_secret (py_of_json script_key) w2 = (Ok shotgrid_secret, w3)
    /\ secret_api_key shotgrid_secret = Ok (attr_sg_api_key a)
    /\ json_getitem service_settings "script_name" = Ok script_name
    /\ truthy (py_of_json script_name) = true
    /\ json_getitem settings "compatibility_settings" = Ok compatibility
    /\ json_getitem compatibility "custom_attribs_map" = Ok entries
    /\ json_iter entries = Ok attrs
    /\ collect_attribs ∅ attrs = Ok m
    /\ json_getitem compatibility "shotgrid_enabled_entities" = Ok entities
    /\ a = {| attr_settings := settings;
              attr_sg_url := py_of_json sg_url;
              attr_sg_project_code_field := py_of_json code_field;
              attr_sg_api_key := attr_sg_api_key a;
              attr_sg_script_name := py_of_json script_name;
              attr_custom_attribs_map := <[Some (inr "tags") := VStr "tags"]> m;
              attr_sg_enabled_entities := py_of_json entities;
              attr_shotgrid_polling_frequency := polling_frequency service_settings |}
    /\ p' = {| proc_world := w3;
               proc_trace := proc_trace p ++ [SInitService; SGetSettings;
                                              SGetSecret (py_of_json script_key)] |}.
Proof.
  unfold_settings.
  destruct (ayon_init_service (proc_world p)) as [[[]|e] w1] eqn:Hinit;
    cbn -[secret_api_key collect_attribs json_iter polling_frequency truthy py_of_json];
    [|done].
  destruct (ayon_get_service_addon_settings w1) as [[settings|e] w2] eqn:Hget;
    cbn -[secret_api_key collect_attribs json_iter polling_frequency truthy py_of_json];
    [|done].
  do 4 settings_outcome ltac:(done).
  destruct (ayon_get_secret _ w2) as [[shotgrid_secret|e] w3] eqn:Hsecret;
    cbn -[secret_api_key collect_attribs json_iter polling_frequency truthy py_of_json];
    [|done].
  do 2 settings_outcome ltac:(done).
  destruct (negb (truthy _)) eqn:Hname;
    cbn -[secret_api_key collect_attribs json_iter polling_frequency truthy py_of_json];
    [done|].
  do 5 settings_outcome ltac:(done).
  intros [= <- <-]. apply negb_false_iff in Hname.
  eexists w1, settings, w2, _, _, _, _, shotgrid_secret, w3, _, _, _, _, _, _.
  cbn. repeat split; try done. by rewrite <- !app_assoc.
Qed.

Lemma secret_api_key_truthy (shotgrid_secret : json) (sg_api_key : pyval) :
  secret_api_key shotgrid_secret = Ok sg_api_key -> truthy sg_api_key = true.
Proof.
  unfold secret_api_key.
  destruct shotgrid_secret; try done.
  destruct (py_get _ "value" VNone) as [k|e]; [|done].
  destruct (truthy k) eqn:Hk; cbn; [|done]. by intros [= <-].
Qed.

(** [__init__] with its [try] blocks written out. *)
Lemma init_unfold p :
  __init__ p
  = let p0 := {| proc_world := proc_world p;
                 proc_trace := proc_trace p ++ [SLog LogInitializing] |} in
    match read_settings p0 with
    | (Raise e, p1) =>
        if is_Exception e
        then (Raise e, {| proc_world := proc_world p1;
                          proc_trace := proc_trace p1 ++ [SLog LogSettingsError] |})
        else (Raise e, p1)
    | (Ok a, p1) =>
        let shotgun := SShotgun (attr_sg_url a) (attr_sg_script_name a)
                         (attr_sg_api_key a) in
        let failed (e : exn) (w : W) (tr : list service_call)
          : outcome Attributes * proc W :=
          if is_Exception e
          then (Raise e, {| proc_world := w;
                            proc_trace := tr ++ [SLog LogConnectionError] |})
          else (Raise e, {| proc_world := w; proc_trace := tr |}) in
        match shotgun_new (attr_sg_url a) (attr_sg_script_name a) (attr_sg_api_key a)
                (proc_world p1) with
        | (Raise e, w) => failed e w (proc_trace p1 ++ [shotgun])
        | (Ok _, w) =>
            match shotgun_connect w with
            | (Raise e, wa) => failed e wa (proc_trace p1 ++ [shotgun; SConnect])
            | (Ok _, wa) =>
                match signal_signal SIGINT wa with
                | (Raise e, wb) =>
                    (Raise e, {| proc_world := wb;
                                 proc_trace := proc_trace p1
                                               ++ [shotgun; SConnect; SSignal SIGINT] |})
                | (Ok _, wb) =>
                    let '(r, wc) := signal_signal SIGTERM wb in
                    (match r with Ok _ => Ok a | Raise e => Raise e end,
                     {| proc_world := wc;
                        proc_trace := proc_trace p1
                                      ++ [shotgun; SConnect; SSignal SIGINT;
                                          SSignal SIGTERM] |})
                end
            end
        end
    end.
Proof.
  unfold __init__, bind at 1, note. cbn -[read_settings].
  unfold bind at 1, try_except, log_and_reraise.
  destruct (read_settings _) as [[a|e] p1].
  2:{ destruct (is_Exception e); [|done]. by unfold bind, note, lift_outcome. }
  unfold bind, service, note, lift_outcome, ret; cbn.
  destruct (shotgun_new _ _ _ _) as [[[]|e] w]; cbn.
  2:{ by destruct (is_Exception e). }
  destruct (shotgun_connect w) as [[[]|e] wa]; cbn.
  2:{ destruct (is_Exception e); by rewrite <- ?app_assoc. }
  destruct (signal_signal SIGINT wa) as [[[]|e] wb]; cbn.
  2:{ by rewrite <- !app_assoc. }
  destruct (signal_signal SIGTERM wb) as [[[]|e] wc]; cbn; by rewrite <- !app_assoc.
Qed.

(** X26. When [__init__] returns, the API key and the script name are true
    values, the attribute map sends "tags" to "tags" and holds no empty
    ShotGrid name, the polling frequency is the one read from the service
    settings (10 when it cannot be read), and the calls made were, in
    order: the settings and the secret from AYON, the ShotGrid session with
    these credentials, its connection, and the two signal handlers. *)
Theorem init_establishes p (a : Attributes) p' :
  __init__ p = (Ok a, p') ->
  truthy (attr_sg_api_key a) = true
  /\ truthy (attr_sg_script_name a) = true
  /\ attr_custom_attribs_map a !! Some (inr "tags") = Some (VStr "tags")
  /\ (forall key v, attr_custom_attribs_map a !! key = Some v -> truthy v = true)
  /\ (exists service_settings,
        json_getitem (attr_settings a) "service_settings" = Ok service_settings
        /\ attr_shotgrid_polling_frequency a = polling_frequency service_settings)
  /\ exists script_key,
       proc_trace p'
       = proc_trace p
         ++ [SLog LogInitializing; SInitService; SGetSettings; SGetSecret script_key;
             SShotgun (attr_sg_url a) (attr_sg_script_name a) (attr_sg_api_key a);
             SConnect; SSignal SIGINT; SSignal SIGTERM].
Proof.
  rewrite init_unfold. cbn zeta.
  destruct (read_settings _) as [[a0|e] p1] eqn:Hread.
  2:{ by destruct (is_Exception e). }
  destruct (shotgun_new _ _ _ _) as [[[]|e] w]; [|by destruct (is_Exception e)].
  destruct (shotgun_connect w) as [[[]|e] wa]; [|by destruct (is_Exception e)].
  destruct (signal_signal SIGINT wa) as [[[]|e] wb]; [|done].
  destruct (signal_signal SIGTERM wb) as [[[]|e] wc]; [|done].
  intros [= <- <-].
  apply read_settings_inv in Hread
    as (w1 & settings & w2 & service_settings & sg_url & code_field & script_key
        & shotgrid_secret & w3 & script_name & compatibility & entries & attrs & m
        & entities & _ & _ & Hss & _ & _ & _ & _ & Hkey & _ & Hname & _ & _ & _ & Hm
        & _ & Ha & ->).
  pose proof (secret_api_key_truthy _ _ Hkey) as Htrue.
  rewrite Ha. cbn. split; [done|]. split; [done|].
  split; [by rewrite lookup_insert_eq|]. split.
  { intros key v' Hlookup. destruct (decide (Some (inr "tags") = key)) as [<-|Hne].
    - rewrite lookup_insert_eq in Hlookup. by injection Hlookup as <-.
    - rewrite lookup_insert_ne in Hlookup by done.
      destruct (collect_attribs_values _ _ _ Hm key v' Hlookup) as [Hempty|[? _]];
        [by rewrite lookup_empty in Hempty | done]. }
  split; [by exists service_settings|].
  exists (py_of_json script_key). by rewrite <- !app_assoc.
Qed.

(** X27. Whatever the outcome of [__init__], ShotGrid is only contacted
    with a true API key and a true script name: when the secret is missing
    or empty, or the script name is empty, no session is created. *)
Theorem shotgrid_needs_credentials p :
  exists tr,
    proc_trace (__init__ p).2 = proc_trace p ++ tr
    /\ forall url script_name api_key,
         SShotgun url script_name api_key ∈ tr ->
         truthy api_key = true /\ truthy script_name = true.
Proof.
  rewrite init_unfold. cbn zeta.
  match goal with |- context [read_settings ?p0] =>
    destruct (read_settings_trace p0) as (tr0 & Htr0 & Hquiet);
    destruct (read_settings p0) as [[a|e] p1] eqn:Hread
  end; cbn in Htr0.
  - apply read_settings_inv in Hread
      as (w1 & settings & w2 & service_settings & sg_url & code_field & script_key
          & shotgrid_secret & w3 & script_name & compatibility & entries & attrs & m
          & entities & _ & _ & _ & _ & _ & _ & _ & Hkey & _ & Hname & _ & _ & _ & _
          & _ & Ha & Hp1).
    pose proof (secret_api_key_truthy _ _ Hkey) as Htrue.
    assert (Hname' : truthy (attr_sg_script_name a) = true) by by rewrite Ha.
    assert (Hcred : forall tr1 url script_name api_key,
              Forall (fun c => forall u n k, c = SShotgun u n k ->
                        truthy k = true /\ truthy n = true) tr1 ->
              SShotgun url script_name api_key
                ∈ [SLog LogInitializing] ++ tr0 ++ tr1 ->
              truthy api_key = true /\ truthy script_name = true).
    { intros tr1 url n k Hall Hin.
      apply elem_of_app in Hin as [Hin|Hin]; [by apply list_elem_of_singleton in Hin|].
      apply elem_of_app in Hin as [Hin|Hin].
      - eapply Forall_forall in Hquiet as [Hno _]; [|done]. done.
      - eapply Forall_forall in Hall; [|done]. by eapply Hall. }
    assert (Hshot : forall u n k,
              SShotgun (attr_sg_url a) (attr_sg_script_name a) (attr_sg_api_key a)
              = SShotgun u n k -> truthy k = true /\ truthy n = true).
    { intros u n k Heq. injection Heq as Hu Hn Hk. subst u n k. by split. }
    destruct (shotgun_new _ _ _ _) as [[[]|e] w].
    2:{ destruct (is_Exception e); cbn; rewrite Htr0, <- !app_assoc;
          eexists; (split; [reflexivity|]); intros url n k Hin;
          (eapply Hcred; [|exact Hin]);
          repeat (constructor; [first [exact Hshot | by intros ? ? ?]|]);
          constructor. }
    destruct (shotgun_connect w) as [[[]|e] wa].
    2:{ destruct (is_Exception e); cbn; rewrite Htr0, <- !app_assoc;
          eexists; (split; [reflexivity|]); intros url n k Hin;
          (eapply Hcred; [|exact Hin]);
          repeat (constructor; [first [exact Hshot | by intros ? ? ?]|]);
          constructor. }
    destruct (signal_signal SIGINT wa) as [[[]|e] wb].
    2:{ cbn; rewrite Htr0, <- !app_assoc;
          eexists; (split; [reflexivity|]); intros url n k Hin;
          (eapply Hcred; [|exact Hin]);
          repeat (constructor; [first [exact Hshot | by intros ? ? ?]|]);
          constructor. }
    destruct (signal_signal SIGTERM wb) as [r wc].
    cbn; rewrite Htr0, <- !app_assoc;
      eexists; (split; [reflexivity|]); intros url n k Hin;
      (eapply Hcred; [|exact Hin]);
      repeat (constructor; [first [exact Hshot | by intros ? ? ?]|]);
      constructor.
  - assert (Hnone : forall tr1 url script_name api_key,
              Forall (fun c => is_shotgun_call c = false) tr1 ->
              SShotgun url script_name api_key ∈ [SLog LogInitializing] ++ tr0 ++ tr1 ->
              truthy api_key = true /\ truthy script_name = true).
    { intros tr1 url n k Hall Hin.
      apply elem_of_app in Hin as [Hin|Hin]; [by apply list_elem_of_singleton in Hin|].
      apply elem_of_app in Hin as [Hin|Hin].
      - eapply Forall_forall in Hquiet as [Hno _]; [|done]. done.
      - eapply Forall_forall in Hall; [|done]. done. }
    destruct (is_Exception e); cbn; rewrite Htr0, <- ?app_assoc.
    + eexists. split; [reflexivity|]. intros url n k Hin.
      eapply Hnone; [|exact Hin]. by repeat constructor.
    + exists ([SLog LogInitializing] ++ tr0). split; [done|].
      intros url n k Hin. eapply (Hnone []); [constructor | by rewrite app_nil_r].
Qed.

(** X28. When reading the settings raises an [Exception], [__init__] logs
    that the settings could not be read and raises the same exception;
    ShotGrid has not been contacted and no signal handler is installed. *)
Theorem settings_failure_is_logged_and_raised p (e : exn) p1 :
  read_settings {| proc_world := proc_world p;
                   proc_trace := proc_trace p ++ [SLog LogInitializing] |}
  = (Raise e, p1) ->
  is_Exception e = true ->
  __init__ p
  = (Raise e, {| proc_world := proc_world p1;
                 proc_trace := proc_trace p1 ++ [SLog LogSettingsError] |})
  /\ exists tr,
       proc_trace p1 = proc_trace p ++ tr
       /\ Forall (fun c => is_shotgun_call c = false /\ is_signal_call c = false) tr.
Proof.
  intros Hread Hexc. split.
  - rewrite init_unfold. cbn zeta. by rewrite Hread, Hexc.
  - match type of Hread with read_settings ?p0 = _ =>
      destruct (read_settings_trace p0) as (tr0 & Htr0 & Hquiet)
    end.
    rewrite Hread in Htr0. cbn in Htr0.
    exists ([SLog LogInitializing] ++ tr0). rewrite Htr0, <- app_assoc.
    split; [done|]. by constructor.
Qed.

(** X29. When the session cannot be created or connected, [__init__] logs
    the connection error and raises the same exception; the signal handlers
    are not installed. *)
Theorem connection_failure_is_logged_and_raised p (a : Attributes) p1 (e : exn) w :
  read_settings {| proc_world := proc_world p;
                   proc_trace := proc_trace p ++ [SLog LogInitializing] |}
  = (Ok a, p1) ->
  (shotgun_new (attr_sg_url a) (attr_sg_script_name a) (attr_sg_api_key a)
     (proc_world p1) = (Raise e, w)
   \/ exists w0,
        shotgun_new (attr_sg_url a) (attr_sg_script_name a) (attr_sg_api_key a)
          (proc_world p1) = (Ok tt, w0)
        /\ shotgun_connect w0 = (Raise e, w)) ->
  is_Exception e = true ->
  (__init__ p).1 = Raise e
  /\ proc_world (__init__ p).2 = w
  /\ exists tr,
       proc_trace (__init__ p).2 = proc_trace p1 ++ tr ++ [SLog LogConnectionError]
       /\ Forall (fun c => is_signal_call c = false) tr.
Proof.
  intros Hread Hfail Hexc. rewrite init_unfold. cbn zeta. rewrite Hread.
  destruct Hfail as [Hnew | (w0 & Hnew & Hconnect)].
  - rewrite Hnew, Hexc. cbn. repeat split.
    eexists [_]. rewrite <- app_assoc. by repeat constructor.
  - rewrite Hnew, Hconnect, Hexc. cbn. repeat split.
    eexists [_; _]. rewrite <- app_assoc. by repeat constructor.
Qed.

(** X30. The teardown handler never returns.  When the session closes
    without error it logs both messages and raises [SystemExit(0)], which
    no [except Exception] catches; when closing raises, that exception is
    raised instead and the process does not exit through [sys.exit]. *)
Theorem teardown_exits_unless_close_fails p :
  (_signal_teardown_handler p).1 <> Ok tt
  /\ (forall w,
        shotgun_close (proc_world p) = (Ok tt, w) ->
        forall handler,
          try_except _signal_teardown_handler handler p
          = (Raise (SystemExit 0),
             {| proc_world := w;
                proc_trace := proc_trace p
                              ++ [SLog LogStopRequested; SClose;
                                  SLog LogTerminationFinished] |}))
  /\ (forall e w,
        shotgun_close (proc_world p) = (Raise e, w) ->
        _signal_teardown_handler p
        = (Raise e,
           {| proc_world := w;
              proc_trace := proc_trace p ++ [SLog LogStopRequested; SClose] |})).
Proof.
  unfold try_except, _signal_teardown_handler, bind, service, note, lift_outcome; cbn.
  split; [|split].
  - by destruct (shotgun_close (proc_world p)) as [[[]|e] w].
  - intros w ->. cbn. intros _. by rewrite <- !app_assoc.
  - intros e w ->. cbn. by rewrite <- !app_assoc.
Qed.

End ConstructionFacts.

(** ** Further runs on the simulated deployment *)

Import Cases.

Lemma build_filters_result_witness :
  let s := boot (site [] [] []) in
  sg_find auto_sync_projects (world s) = (Ok [project_7], world s)
  /\ exists filters,
       (_build_shotgrid_filters leecher s).1 = Ok filters /\ length filters = 2%nat.
Proof.
  intros s.
  assert (Hfind : sg_find auto_sync_projects (world s) = (Ok [project_7], world s))
    by (vm_compute; reflexivity).
  split; [exact Hfind|].
  destruct (build_filters_result leecher s [project_7] (world s) Hfind)
    as (filters & Heq & _ & Hshape).
  exists filters. split.
  - exact (f_equal fst Heq).
  - rewrite Hshape; [reflexivity | discriminate].
Defined.

Lemma cursor_is_last_sink_hash_witness :
  let s := boot (site [shot_new_41] []
                   [("shotgrid.leech", VStr "40"); ("shotgrid.leech", VStr "41")]) in
  (ayon_get_events ["shotgrid.leech"] ["hash"] (world s)
   = (Ok ([record_40] ++ [record_41]), world s)
   /\ is_Ok (scan_hashes VNone [record_40]) = true
   /\ py_getitem record_41 "hash" = Ok (VStr "41")
   /\ py_int (VStr "41") = Ok 41
   /\ 41 <> 0)
  /\ (_get_last_event_processed leecher [] s).1 = Ok (VInt 41).
Proof.
  intros s.
  assert (Hsink : ayon_get_events ["shotgrid.leech"] ["hash"] (world s)
                  = (Ok ([record_40] ++ [record_41]), world s))
    by (vm_compute; reflexivity).
  assert (Hscan : is_Ok (scan_hashes VNone [record_40]) = true)
    by (vm_compute; reflexivity).
  assert (Hhash : py_getitem record_41 "hash" = Ok (VStr "41"))
    by (vm_compute; reflexivity).
  assert (Hint : py_int (VStr "41") = Ok 41) by (vm_compute; reflexivity).
  assert (Hid : 41 <> 0) by lia.
  split; [exact (conj Hsink (conj Hscan (conj Hhash (conj Hint Hid))))|].
  exact (f_equal fst
           (cursor_is_last_sink_hash leecher [] s [record_40] record_41 (world s)
              (VStr "41") 41 Hsink Hscan Hhash Hint Hid)).
Defined.

Lemma zero_hash_falls_back_to_source_witness :
  let s := boot (site [shot_new_41] [] [("shotgrid.leech", VStr "0")]) in
  let records := [VDict {[ "hash" := VStr "0" ]}] in
  let row := fields 41 "Shotgun_Shot_New" VNone by_hand [("user", artist)] in
  (ayon_get_events ["shotgrid.leech"] ["hash"] (world s) = (Ok records, world s)
   /\ scan_hashes VNone records = Ok (VInt 0)
   /\ sg_find_one (newest_event []) (world s) = (Ok (VDict row), world s)
   /\ row !! "id" = Some (VInt 41))
  /\ (_get_last_event_processed leecher [] s).1 = Ok (VInt 41).
Proof.
  intros s records row.
  assert (Hsink : ayon_get_events ["shotgrid.leech"] ["hash"] (world s)
                  = (Ok records, world s)) by (vm_compute; reflexivity).
  assert (Hscan : scan_hashes VNone records = Ok (VInt 0)) by (vm_compute; reflexivity).
  assert (Hsource : sg_find_one (newest_event []) (world s) = (Ok (VDict row), world s))
    by (vm_compute; reflexivity).
  assert (Hid : row !! "id" = Some (VInt 41)) by (vm_compute; reflexivity).
  split; [exact (conj Hsink (conj Hscan (conj Hsource Hid)))|].
  exact (f_equal fst
           (zero_hash_falls_back_to_source leecher [] s records (world s) row (world s)
              (VInt 41) Hsink Hscan Hsource Hid)).
Defined.

Lemma bad_sink_record_stops_recovery_witness :
  let s := boot (site [shot_new_41] []
                   [("shotgrid.leech", VStr "40"); ("shotgrid.leech", VStr "abc");
                    ("shotgrid.leech", VStr "41")]) in
  let bad := VDict {[ "hash" := VStr "abc" ]} in
  let e := ValueError "invalid literal for int() with base 10" in
  (ayon_get_events ["shotgrid.leech"] ["hash"] (world s)
   = (Ok ([record_40] ++ bad :: [record_41]), world s)
   /\ is_Ok (scan_hashes VNone [record_40]) = true
   /\ py_getitem bad "hash" = Ok (VStr "abc")
   /\ py_int (VStr "abc") = Raise e)
  /\ (_get_last_event_processed leecher [] s).1 = Raise e.
Proof.
  intros s bad e.
  assert (Hsink : ayon_get_events ["shotgrid.leech"] ["hash"] (world s)
                  = (Ok ([record_40] ++ bad :: [record_41]), world s))
    by (vm_compute; reflexivity).
  assert (Hbefore : is_Ok (scan_hashes VNone [record_40]) = true)
    by (vm_compute; reflexivity).
  assert (Hhash : py_getitem bad "hash" = Ok (VStr "abc")) by (vm_compute; reflexivity).
  assert (Hint : py_int (VStr "abc") = Raise e) by (vm_compute; reflexivity).
  split; [exact (conj Hsink (conj Hbefore (conj Hhash Hint)))|].
  exact (f_equal fst
           (bad_sink_record_stops_recovery leecher [] s [record_40] bad [record_41]
              (world s) e Hsink Hbefore
              (or_intror (ex_intro _ (VStr "abc") (conj Hhash Hint))))).
Defined.

Lemma send_returns_id_used_as_hash_witness :
  let d := fields 42 "Shotgun_Shot_Change" (VStr "sg_status_list") by_hand
             [("user", artist)] in
  let s := boot (site [shot_new_41; status_change_42] [] []) in
  let sent := send_shotgrid_event_to_ayon (cfg ["Shot"]) (VDict d, s) in
  sent = (Ok (VInt 42), sent.2)
  /\ d !! "id" = Some (VInt 42)
  /\ exists a, dispatches (trace sent.2.2) = dispatches (trace s) ++ [a]
               /\ d_topic a = "shotgrid.event" /\ d_event_hash a = VInt 42.
Proof.
  intros d s sent.
  assert (Hsent : sent = (Ok (VInt 42), sent.2)) by (vm_compute; reflexivity).
  split; [exact Hsent|].
  destruct (send_returns_id_used_as_hash (cfg ["Shot"]) d s (VInt 42) sent.2 Hsent)
    as (Hid & a & w & Hdispatch & Htopic & Hhash & _).
  split; [exact Hid|].
  exists a. exact (conj Hdispatch (conj Htopic Hhash)).
Defined.

Lemma project_taken_from_entity_or_project_witness :
  let d := fields 42 "Shotgun_Shot_Change" (VStr "sg_status_list") by_hand
             [("user", artist)] in
  let s := boot (site [shot_new_41; status_change_42] [] []) in
  let sent := send_shotgrid_event_to_ayon (cfg ["Shot"]) (VDict d, s) in
  sent = (Ok (VInt 42), sent.2)
  /\ about_project d = false
  /\ exists a, dispatches (trace sent.2.2) = dispatches (trace s) ++ [a]
               /\ d_project_name a = VStr "demo"
               /\ py_getitem (d_payload a) "project_code" = Ok (VStr "dmo").
Proof.
  intros d s sent.
  assert (Hsent : sent = (Ok (VInt 42), sent.2)) by (vm_compute; reflexivity).
  split; [exact Hsent|]. split; [vm_compute; reflexivity|].
  destruct (project_taken_from_entity_or_project (cfg ["Shot"]) d s (VInt 42) sent.2 Hsent)
    as (owner & sg_project & a & Howner & Hdispatch & Hname & Hfind & Hcode).
  exists a. split; [exact Hdispatch|].
  assert (Hproject : d !! (if about_project d then "entity" else "project")
                     = Some project_7) by (vm_compute; reflexivity).
  destruct Howner as [Howner | [Howner _]]; [|congruence].
  assert (owner = list_to_map [("type", VStr "Project"); ("id", VInt 7);
                               ("name", VStr "demo"); ("code", VStr "dmo")])
    as -> by (unfold project_7, dict in Hproject; congruence).
  split; [rewrite Hname; vm_compute; reflexivity|].
  rewrite Hcode. vm_compute in Hfind. injection Hfind as <-. vm_compute; reflexivity.
Defined.

Lemma unknown_project_is_not_dispatched_witness :
  let d := fields 42 "Shotgun_Shot_Change" (VStr "sg_status_list") by_hand
             [("user", artist)] in
  let s := boot (idle_site true) in
  (describe (VDict d) = Ok (VStr "Ada", "Leeched Shotgun_Shot_Change by Ada")
   /\ d !! "created_at" = Some (VDatetime noon)
   /\ owning_project (VDict d) = Ok (VStr "demo", VInt 7)
   /\ sg_find_one (project_by_id (VInt 7) "code") (world s) = (Ok VNone, world s)
   /\ d !! "id" = Some (VInt 42))
  /\ (send_shotgrid_event_to_ayon (cfg ["Shot"]) (VDict d, s)).1
     = Raise (AttributeError "get")
  /\ dispatches (trace (send_shotgrid_event_to_ayon (cfg ["Shot"]) (VDict d, s)).2.2) = [].
Proof.
  intros d s.
  assert (H1 : describe (VDict d) = Ok (VStr "Ada", "Leeched Shotgun_Shot_Change by Ada"))
    by (vm_compute; reflexivity).
  assert (H2 : d !! "created_at" = Some (VDatetime noon)) by (vm_compute; reflexivity).
  assert (H3 : owning_project (VDict d) = Ok (VStr "demo", VInt 7))
    by (vm_compute; reflexivity).
  assert (H4 : sg_find_one (project_by_id (VInt 7) "code") (world s)
               = (Ok VNone, world s)) by (vm_compute; reflexivity).
  assert (H5 : d !! "id" = Some (VInt 42)) by (vm_compute; reflexivity).
  split; [exact (conj H1 (conj H2 (conj H3 (conj H4 H5))))|].
  rewrite (unknown_project_is_not_dispatched (cfg ["Shot"]) d s _ noon _ _ _ _
             H1 H2 H3 H4 H5).
  split; [reflexivity | vm_compute; reflexivity].
Defined.

Lemma early_failure_changes_nothing_witness :
  let d : gmap string pyval := {[ "id" := VInt 42 ]} in
  let s := boot (site [shot_new_41] [] []) in
  is_Ok (describe (VDict d)) = false
  /\ exists e, send_shotgrid_event_to_ayon (cfg ["Shot"]) (VDict d, s)
               = (Raise e, (VDict d, s)).
Proof.
  intros d s.
  assert (Hearly : is_Ok (describe (VDict d)) = false) by (vm_compute; reflexivity).
  split; [exact Hearly|].
  apply early_failure_changes_nothing. left. exact Hearly.
Defined.



Lemma accepted_event_cursor_is_func_result_witness :
  let d := fields 42 "Shotgun_Shot_Change" (VStr "sg_status_list") by_hand
             [("user", artist)] in
  let l := polling leecher (VInt 41) in
  let s := boot (site [shot_new_41; status_change_42] [] []) in
  let called := func leecher (VDict d) {| world := world s; trace := [] |} in
  (tracked leecher (supported_event_types l) (VDict d)
   /\ _is_api_user_event (VDict d) = Ok VNone
   /\ d !! "id" = Some (VInt 42)
   /\ truthy (VInt 42) = true
   /\ called = (Ok (VInt 42), called.2))
  /\ (process_event leecher (VDict d) (l, s)).1 = Ok tt
  /\ last_event_id (process_event leecher (VDict d) (l, s)).2.1 = VInt 42.
Proof.
  intros d l s called.
  assert (H1 : tracked leecher (supported_event_types l) (VDict d))
    by (left; vm_compute; reflexivity).
  assert (H2 : _is_api_user_event (VDict d) = Ok VNone) by (vm_compute; reflexivity).
  assert (H3 : d !! "id" = Some (VInt 42)) by (vm_compute; reflexivity).
  assert (H4 : truthy (VInt 42) = true) by reflexivity.
  assert (H5 : called = (Ok (VInt 42), called.2)) by (vm_compute; reflexivity).
  split; [exact (conj H1 (conj H2 (conj H3 (conj H4 H5))))|].
  rewrite (accepted_event_cursor_is_func_result leecher l s d (VInt 42) (VInt 42)
             called.2 H1 H2 H3 H4 H5).
  split; reflexivity.
Defined.

Lemma dispatched_event_becomes_cursor_witness :
  let d := fields 42 "Shotgun_Shot_Change" (VStr "sg_status_list") by_hand
             [("user", artist)] in
  let self := new_listener (cfg ["Shot"]) None in
  let l := polling self (VInt 41) in
  let s := boot (site [shot_new_41; status_change_42] [] []) in
  let sent := send_shotgrid_event_to_ayon (cfg ["Shot"])
                (VDict d, {| world := world s; trace := [] |}) in
  (tracked self (supported_event_types l) (VDict d)
   /\ _is_api_user_event (VDict d) = Ok VNone
   /\ d !! "id" = Some (VInt 42)
   /\ truthy (VInt 42) = true
   /\ sent = (Ok (VInt 42), (sent.2.1, sent.2.2)))
  /\ last_event_id (process_event self (VDict d) (l, s)).2.1 = VInt 42.
Proof.
  intros d self l s sent.
  assert (H1 : tracked self (supported_event_types l) (VDict d))
    by (left; vm_compute; reflexivity).
  assert (H2 : _is_api_user_event (VDict d) = Ok VNone) by (vm_compute; reflexivity).
  assert (H3 : d !! "id" = Some (VInt 42)) by (vm_compute; reflexivity).
  assert (H4 : truthy (VInt 42) = true) by reflexivity.
  assert (H5 : sent = (Ok (VInt 42), (sent.2.1, sent.2.2))) by (vm_compute; reflexivity).
  split; [exact (conj H1 (conj H2 (conj H3 (conj H4 H5))))|].
  pose proof (dispatched_event_becomes_cursor (cfg ["Shot"]) l s d (VInt 42) (VInt 42)
                sent.2.1 sent.2.2 H1 H2 H3 H4 H5) as Heq.
  exact (f_equal (fun r => last_event_id r.2.1) Heq).
Defined.

Lemma change_without_attribute_name_stops_batch_witness :
  let l := polling leecher (VInt 41) in
  let s := boot (site [shot_new_41] [] []) in
  (nameless_change !! "event_type" = Some (VStr "Shotgun_Shot_Change")
   /\ ends_with "Shotgun_Shot_Change" "_Change" = true
   /\ nameless_change !! "attribute_name" = Some VNone
   /\ (forall name, VNone <> VStr name))
  /\ process_events leecher [VDict nameless_change; status_change_42] (l, s)
     = (Raise (AttributeError "replace"), (l, s)).
Proof.
  intros l s.
  assert (H1 : nameless_change !! "event_type" = Some (VStr "Shotgun_Shot_Change"))
    by (vm_compute; reflexivity).
  assert (H2 : ends_with "Shotgun_Shot_Change" "_Change" = true)
    by (vm_compute; reflexivity).
  assert (H3 : nameless_change !! "attribute_name" = Some VNone)
    by (vm_compute; reflexivity).
  assert (H4 : forall name, VNone <> VStr name) by (intros name; discriminate).
  split; [exact (conj H1 (conj H2 (conj H3 H4)))|].
  exact (change_without_attribute_name_stops_batch leecher nameless_change _ VNone
           [status_change_42] l s H1 H2 H3 H4).
Defined.

Lemma completed_round_sleeps_once_witness :
  let l := polling leecher (VInt 41) in
  let s := boot (site [shot_new_41; status_change_42] [] []) in
  (0 <= shotgrid_polling_frequency (settings leecher)
   /\ (loop_body leecher (l, s)).1 = Ok tt)
  /\ exists tr, trace (loop_body leecher (l, s)).2.2 = trace s ++ tr
                /\ sleeps tr = [10].
Proof.
  intros l s.
  assert (H1 : 0 <= shotgrid_polling_frequency (settings leecher))
    by (vm_compute; discriminate).
  assert (H2 : (loop_body leecher (l, s)).1 = Ok tt) by (vm_compute; reflexivity).
  split; [exact (conj H1 H2)|].
  destruct (completed_round_sleeps_once leecher l s H1 H2) as (tr & Htrace & Hsleeps).
  exists tr. exact (conj Htrace Hsleeps).
Defined.

Lemma negative_frequency_ends_loop_witness :
  let l := polling hasty (VInt 41) in
  let s := boot (site [shot_new_41; status_change_42] [] []) in
  shotgrid_polling_frequency (settings hasty) < 0
  /\ (loop_body hasty (l, s)).1 <> Ok tt.
Proof.
  intros l s.
  assert (H1 : shotgrid_polling_frequency (settings hasty) < 0)
    by (vm_compute; reflexivity).
  split; [exact H1|].
  exact (negative_frequency_ends_loop hasty l s H1).
Defined.


Lemma empty_batch_keeps_cursor_witness :
  let l := polling leecher (VInt 41) in
  let s := boot (site [shot_new_41] [] []) in
  (sg_find (events_after l) (world s) = (Ok [], world s)
   /\ 0 <= shotgrid_polling_frequency (settings leecher)
   /\ sleep_refused World (shotgrid_polling_frequency (settings leecher)) = None)
  /\ (poll leecher (l, s)).1 = Ok tt
  /\ (poll leecher (l, s)).2.1 = l.
Proof.
  intros l s.
  assert (H1 : sg_find (events_after l) (world s) = (Ok [], world s))
    by (vm_compute; reflexivity).
  assert (H2 : 0 <= shotgrid_polling_frequency (settings leecher))
    by (vm_compute; discriminate).
  assert (H3 : sleep_refused World (shotgrid_polling_frequency (settings leecher)) = None)
    by (vm_compute; reflexivity).
  split; [exact (conj H1 (conj H2 H3))|].
  rewrite (proj1 (empty_batch_keeps_cursor leecher l s (world s) H1) H2 H3).
  split; reflexivity.
Defined.

Lemma exit_is_not_swallowed_witness :
  let l := polling leecher_exiting (VInt 41) in
  let s := boot (site [shot_new_41; status_change_42] [] []) in
  let fetched := fetch_and_process leecher_exiting (events_after l) (l, s) in
  (base_sg_filters l <> []
   /\ truthy (last_event_id l) = true
   /\ fetched = (Raise (SystemExit 0), fetched.2)
   /\ is_Exception (SystemExit 0) = false)
  /\ (loop_body leecher_exiting (l, s)).1 = Raise (SystemExit 0).
Proof.
  intros l s fetched.
  assert (H1 : base_sg_filters l <> []) by (vm_compute; discriminate).
  assert (H2 : truthy (last_event_id l) = true) by (vm_compute; reflexivity).
  assert (H3 : fetched = (Raise (SystemExit 0), fetched.2)) by (vm_compute; reflexivity).
  assert (H4 : is_Exception (SystemExit 0) = false) by reflexivity.
  split; [exact (conj H1 (conj H2 (conj H3 H4)))|].
  exact (f_equal fst
           (exit_is_not_swallowed leecher_exiting l s (SystemExit 0) fetched.2
              H1 H2 H3 H4)).
Defined.

Lemma filters_stay_well_formed_witness :
  let s := boot (site [shot_new_41] [status_change_42] []) in
  let ran := start_listening leecher 2 s in
  is_Ok ran.1 = true
  /\ forall l, ran.1 = Ok l ->
       built_filters leecher (base_sg_filters l)
       /\ supported_event_types l = _get_supported_event_types leecher.
Proof.
  intros s ran.
  assert (H1 : is_Ok ran.1 = true) by (vm_compute; reflexivity).
  split; [exact H1|].
  intros l Hl.
  apply (filters_stay_well_formed leecher 2 s l ran.2).
  rewrite <- Hl. apply surjective_pairing.
Defined.

Lemma startup_without_projects_queries_whole_log_witness :
  let s := boot (idle_site true) in
  let row := fields 41 "Shotgun_Shot_New" VNone by_hand [("user", artist)] in
  (sg_find auto_sync_projects (world s) = (Ok [], world s)
   /\ ayon_get_events ["shotgrid.leech"] ["hash"] (world s) = (Ok [], world s)
   /\ sg_find_one (newest_event []) (world s) = (Ok (VDict row), world s)
   /\ row !! "id" = Some (VInt 41))
  /\ existsb is_event_log_query (trace (startup leecher s).2) = true.
Proof.
  intros s row.
  assert (H1 : sg_find auto_sync_projects (world s) = (Ok [], world s))
    by (vm_compute; reflexivity).
  assert (H2 : ayon_get_events ["shotgrid.leech"] ["hash"] (world s)
               = (Ok [], world s)) by (vm_compute; reflexivity).
  assert (H3 : sg_find_one (newest_event []) (world s) = (Ok (VDict row), world s))
    by (vm_compute; reflexivity).
  assert (H4 : row !! "id" = Some (VInt 41)) by (vm_compute; reflexivity).
  split; [exact (conj H1 (conj H2 (conj H3 H4)))|].
  rewrite (startup_without_projects_queries_whole_log leecher s _ _ row _ (VInt 41)
             H1 H2 H3 H4).
  vm_compute; reflexivity.
Defined.

Lemma collected_attribs_are_configured_witness :
  let m : gmap (option (Z + string)) pyval :=
    {[ Some (inr "status") := VStr "status_list"; Some (inr "tags") := VStr "keywords" ]} in
  (collect_attribs ∅ mappings = Ok m
   /\ m !! Some (inr "status") = Some (VStr "status_list"))
  /\ truthy (VStr "status_list") = true.
Proof.
  intros m.
  assert (H1 : collect_attribs ∅ mappings = Ok m) by (vm_compute; reflexivity).
  assert (H2 : m !! Some (inr "status") = Some (VStr "status_list"))
    by (vm_compute; reflexivity).
  split; [exact (conj H1 H2)|].
  exact (proj1 (collected_attribs_are_configured mappings m _ _ H1 H2)).
Defined.

Lemma init_establishes_witness :
  let started := __init__ (fresh (server true true)) in
  is_Ok started.1 = true
  /\ forall a, started.1 = Ok a ->
       truthy (attr_sg_api_key a) = true
       /\ attr_custom_attribs_map a !! Some (inr "tags") = Some (VStr "tags").
Proof.
  intros started.
  assert (H1 : is_Ok started.1 = true) by (vm_compute; reflexivity).
  split; [exact H1|].
  intros a Ha.
  assert (Hstarted : __init__ (fresh (server true true)) = (Ok a, started.2)).
  { fold started. rewrite <- Ha. apply surjective_pairing. }
  destruct (init_establishes _ a _ Hstarted) as (Hkey & _ & Htags & _).
  exact (conj Hkey Htags).
Defined.

Lemma settings_failure_is_logged_and_raised_witness :
  let p := fresh (server false true) in
  let read := read_settings {| proc_world := proc_world p;
                               proc_trace := proc_trace p ++ [SLog LogInitializing] |} in
  (read = (Raise secret_not_found, read.2)
   /\ is_Exception secret_not_found = true)
  /\ (__init__ p).1 = Raise secret_not_found.
Proof.
  intros p read.
  assert (H1 : read = (Raise secret_not_found, read.2)) by (vm_compute; reflexivity).
  assert (H2 : is_Exception secret_not_found = true) by reflexivity.
  split; [exact (conj H1 H2)|].
  exact (f_equal fst
           (proj1 (settings_failure_is_logged_and_raised p secret_not_found read.2
                     H1 H2))).
Defined.

Lemma connection_failure_is_logged_and_raised_witness :
  let p := fresh (server true false) in
  let read := read_settings {| proc_world := proc_world p;
                               proc_trace := proc_trace p ++ [SLog LogInitializing] |} in
  let down := Fault "ShotGrid is not reachable" in
  is_Ok read.1 = true
  /\ forall a, read.1 = Ok a -> (__init__ p).1 = Raise down.
Proof.
  intros p read down.
  assert (H1 : is_Ok read.1 = true) by (vm_compute; reflexivity).
  split; [exact H1|].
  intros a Ha.
  assert (Hread : read_settings {| proc_world := proc_world p;
                                   proc_trace := proc_trace p ++ [SLog LogInitializing] |}
                  = (Ok a, read.2)).
  { fold read. rewrite <- Ha. apply surjective_pairing. }
  assert (Hworld : proc_world read.2 = server true false) by (vm_compute; reflexivity).
  assert (Hfail : shotgun_new (attr_sg_url a) (attr_sg_script_name a) (attr_sg_api_key a)
                    (proc_world read.2) = (Raise down, server true false)
                  \/ exists w0,
                       shotgun_new (attr_sg_url a) (attr_sg_script_name a)
                         (attr_sg_api_key a) (proc_world read.2) = (Ok tt, w0)
                       /\ shotgun_connect w0 = (Raise down, server true false)).
  { right. exists (server true false). rewrite Hworld. split; reflexivity. }
  assert (Hexc : is_Exception down = true) by reflexivity.
  exact (proj1 (connection_failure_is_logged_and_raised p a read.2 down
                  (server true false) Hread Hfail Hexc)).
Defined.
